(** * LitePolis router (litepolis_router_default/core.py): a shallow embedding

    The router is CRUD glue around an external persistence actor
    ([DatabaseActor], package litepolis_database_default).  The handlers of
    core.py that take a conversation_id, the registration and login handlers
    and the auth helpers are embedded as programs over the calls they make to
    that actor (and to the clock, the uuid source and the response's cookie
    jar); the account, moderation and invite-code handlers, which call
    further methods of the actor, follow in a second layer of the same kind;
    a handler either returns a value or raises, as the Python code does, and
    is entered with the [user] its [require_auth] / [optional_auth]
    dependency has resolved.  Programs are run against a world that answers
    the calls (every call is assumed to return); [MemDb] is an in-memory
    world with plain relational tables. *)

From Stdlib Require Import ZArith List String Ascii Bool Lia DecimalString DecimalPos.
Import ListNotations.
Local Open Scope string_scope.
Local Open Scope Z_scope.

(** ** Python built-ins used by the handlers *)

Module Py.

(** [bool(s)] for a [str]. *)
Definition truthy_str (s : string) : bool :=
  match s with EmptyString => false | String _ _ => true end.

(** [bool(o)] for an [Optional[str]]. *)
Definition truthy_opt_str (o : option string) : bool :=
  match o with Some s => truthy_str s | None => false end.

(** [bool(o)] for an [Optional[int]]: [None] and [0] are falsy. *)
Definition truthy_opt_int (o : option Z) : bool :=
  match o with Some z => negb (z =? 0) | None => false end.

(** [bool(o)] for an optional object without [__bool__]/[__len__]. *)
Definition truthy_opt {A} (o : option A) : bool :=
  match o with Some _ => true | None => false end.

(** [s.startswith(p)]. *)
Definition startswith (s p : string) : bool := String.prefix p s.

(** [str(z)] for an [int]. *)
Definition str (z : Z) : string := NilZero.string_of_int (Z.to_int z).

(** *** Characters

    A [str] is held as its UTF-8 encoding.  [chars] cuts a string into its
    characters, each with its code point and its bytes; a byte that starts
    no well-formed sequence counts as the character of that code, as in
    Latin-1, so that every string is a sequence of characters. *)

Definition byte (c : ascii) : N := N_of_ascii c.

Definition continuation (c : ascii) : bool :=
  ((128 <=? byte c) && (byte c <=? 191))%N.

(** The code point of the character that starts with the byte [b0], followed
    by [rest], and the number of bytes it takes. *)
Definition first_char (b0 : ascii) (rest : string) : N * nat :=
  let n0 := byte b0 in
  let stray := (n0, 1%nat) in
  if (n0 <? 128)%N then (n0, 1%nat) else
  match rest with
  | String b1 rest1 =>
      if negb (continuation b1) then stray else
      if ((194 <=? n0) && (n0 <=? 223))%N
      then (((n0 - 192) * 64 + (byte b1 - 128))%N, 2%nat) else
      match rest1 with
      | String b2 rest2 =>
          if negb (continuation b2) then stray else
          let cp3 := ((n0 - 224) * 4096 + (byte b1 - 128) * 64 + (byte b2 - 128))%N in
          if ((224 <=? n0) && (n0 <=? 239) && (2048 <=? cp3)
              && negb ((55296 <=? cp3) && (cp3 <=? 57343)))%N
          then (cp3, 3%nat) else
          match rest2 with
          | String b3 _ =>
              let cp4 := ((n0 - 240) * 262144 + (byte b1 - 128) * 4096
                          + (byte b2 - 128) * 64 + (byte b3 - 128))%N in
              if (continuation b3 && (240 <=? n0) && (n0 <=? 244)
                  && (65536 <=? cp4) && (cp4 <=? 1114111))%N
              then (cp4, 4%nat) else stray
          | EmptyString => stray
          end
      | EmptyString => stray
      end
  | EmptyString => stray
  end.

(** The first [n] bytes of [s]. *)
Fixpoint first_bytes (n : nat) (s : string) : string :=
  match n, s with
  | O, _ => EmptyString
  | S _, EmptyString => EmptyString
  | S n', String c s' => String c (first_bytes n' s')
  end.

(** The characters of [s], once the first [skip] bytes, which belong to the
    character before, are passed. *)
Fixpoint chars_skipping (s : string) (skip : nat) : list (N * string) :=
  match s with
  | EmptyString => []
  | String b s' =>
      match skip with
      | S k => chars_skipping s' k
      | O =>
          let '(cp, width) := first_char b s' in
          (cp, String b (first_bytes (Nat.pred width) s'))
            :: chars_skipping s' (Nat.pred width)
      end
  end.

Definition chars (s : string) : list (N * string) := chars_skipping s 0.

(** The string a list of characters makes. *)
Definition join (cs : list (N * string)) : string :=
  fold_right (fun c rest => snd c ++ rest) EmptyString cs.

(** [s[n:]]. *)
Definition drop (n : nat) (s : string) : string := join (skipn n (chars s)).

(** [s[:n]]. *)
Definition take (n : nat) (s : string) : string := join (firstn n (chars s)).

(** [c.isspace()]: the white space of Unicode 14.0 with the separators
    U+001C to U+001F, which is what [str.strip()] removes. *)
Definition isspace (cp : N) : bool :=
  (((9 <=? cp) && (cp <=? 13)) || ((28 <=? cp) && (cp <=? 32))
   || (cp =? 133) || (cp =? 160) || (cp =? 5760)
   || ((8192 <=? cp) && (cp <=? 8202))
   || (cp =? 8232) || (cp =? 8233) || (cp =? 8239) || (cp =? 8287)
   || (cp =? 12288))%N.

Fixpoint lstrip (cs : list (N * string)) : list (N * string) :=
  match cs with
  | [] => []
  | c :: cs' => if isspace (fst c) then lstrip cs' else cs
  end.

(** A character is kept when it is not white space or when something is kept
    after it. *)
Fixpoint rstrip (cs : list (N * string)) : list (N * string) :=
  match cs with
  | [] => []
  | c :: cs' =>
      match rstrip cs' with
      | [] => if isspace (fst c) then [] else [c]
      | r => c :: r
      end
  end.

(** [s.strip()]. *)
Definition strip (s : string) : string := join (rstrip (lstrip (chars s))).

(** *** [int(s)] *)

(** The first code points of the runs of decimal digits of Unicode 14.0,
    each run going from zero to nine. *)
Definition decimal_runs : list N :=
  [48; 1632; 1776; 1984; 2406; 2534; 2662; 2790; 2918; 3046; 3174; 3302;
   3430; 3558; 3664; 3792; 3872; 4160; 4240; 6112; 6160; 6470; 6608;
   6784; 6800; 6992; 7088; 7232; 7248; 42528; 43216; 43264; 43472;
   43504; 43600; 44016; 65296; 66720; 68912; 69734; 69872; 69942; 70096;
   70384; 70736; 70864; 71248; 71360; 71472; 71904; 72016; 72784; 73040;
   73120; 92768; 92864; 93008; 120782; 120792; 120802; 120812; 120822;
   123200; 123632; 125264; 130032]%N.

(** The value of a decimal digit. *)
Definition decimal (cp : N) : option N :=
  option_map (fun first => (cp - first)%N)
             (find (fun first => ((first <=? cp) && (cp <? first + 10))%N) decimal_runs).

(** [int()] reads an ASCII numeral: it first replaces every white space
    character beyond ASCII by a space and every decimal digit beyond ASCII
    by the ASCII digit of its value; another character beyond ASCII makes
    the numeral unreadable. *)
Definition to_ascii (c : N * string) : ascii :=
  let cp := fst c in
  if (cp <? 128)%N then ascii_of_N cp
  else if isspace cp then " "%char
  else match decimal cp with
       | Some d => ascii_of_N (48 + d)
       | None => "?"%char
       end.

Definition ascii_numeral (s : string) : string :=
  string_of_list_ascii (map to_ascii (chars s)).

(** The white space around an ASCII numeral: the space and the controls
    from tab to carriage return. *)
Definition isspace_ascii (c : ascii) : bool :=
  ((byte c =? 32) || ((9 <=? byte c) && (byte c <=? 13)))%N.

Fixpoint ltrim (s : string) : string :=
  match s with
  | EmptyString => EmptyString
  | String c s' => if isspace_ascii c then ltrim s' else s
  end.

Fixpoint rtrim (s : string) : string :=
  match s with
  | EmptyString => EmptyString
  | String c s' =>
      match rtrim s' with
      | EmptyString => if isspace_ascii c then EmptyString else String c EmptyString
      | r => String c r
      end
  end.

Definition digit (c : ascii) : option Z :=
  let n := nat_of_ascii c in
  if (Nat.leb 48 n && Nat.leb n 57)%bool then Some (Z.of_nat n - 48) else None.

(** Decimal digits with single underscores between them. *)
Fixpoint digits (s : string) (acc : Z) (after_digit : bool) : option Z :=
  match s with
  | EmptyString => if after_digit then Some acc else None
  | String c s' =>
      match digit c with
      | Some d => digits s' (10 * acc + d) true
      | None =>
          if (Ascii.eqb c "_" && after_digit)%bool then digits s' acc false
          else None
      end
  end.

(** [int(s)]; [None] stands for [ValueError].  The interpreter's limit on
    the length of a numeral ([sys.set_int_max_str_digits], 4300 digits
    unless set otherwise) is left out. *)
Definition int (s : string) : option Z :=
  match rtrim (ltrim (ascii_numeral s)) with
  | String "-" s' => option_map Z.opp (digits s' 0 false)
  | String "+" s' => digits s' 0 false
  | s' => digits s' 0 false
  end.

End Py.

(** ** JSON-like values: what the handlers put in their responses and in the
    dictionaries they hand to the persistence actor *)

#[local] Unset Elimination Schemes.
Inductive value : Type :=
| VNone
| VBool (b : bool)
| VInt (z : Z)
| VStr (s : string)
| VList (l : list value)
| VDict (d : list (string * value)).
#[local] Set Elimination Schemes.

Definition dict := list (string * value).

Definition opt_str (o : option string) : value :=
  match o with Some s => VStr s | None => VNone end.

(** [HTTPException(status_code, detail)]; an attribute read on [None] raises
    [AttributeError], which no handler catches. *)
Inductive exn : Type :=
| HTTPException (status_code : Z) (detail : string)
| AttributeError (attribute : string).

(** [class PolisResponse(BaseModel)]. *)
Record PolisResponse : Type := mkPolisResponse {
  status : string;
  data : value;
  error : option string
}.

(** The dictionary [get_current_user] builds: uid, email, is_admin. *)
Module UserDict.
Record t : Type := mk { uid : Z; email : string; is_admin : bool }.
End UserDict.

(** A [datetime] is only ever rendered with [.isoformat()]. *)
Record datetime : Type := mkDatetime { isoformat : string }.

Definition iso_or_none (o : option datetime) : value :=
  match o with Some d => VStr (isoformat d) | None => VNone end.

(** ** Rows of the persistence actor, with the attributes core.py reads *)

Module User.
Record t : Type := mk {
  id : Z; email : string; auth_token : string; is_admin : bool;
  created : option datetime
}.
End User.

Module Conversation.
Record t : Type := mk {
  id : Z; title : string; description : option string; is_archived : bool;
  user_id : Z; created : option datetime; settings : option dict
}.
End Conversation.

Module Zinvite.
Record t : Type := mk { zid : Z; zinvite : string }.
End Zinvite.

Module Participant.
Record t : Type := mk {
  pid : Z; zid : Z; uid : Z; vote_count : Z; created : option datetime
}.
End Participant.

Module Comment.
Record t : Type := mk {
  id : Z; text_field : string; user_id : Z; conversation_id : Z;
  moderation_status : Z; created : option datetime
}.
End Comment.

Module Vote.
Record t : Type := mk {
  id : Z; user_id : Z; comment_id : Z; value : Z; created : option datetime
}.
End Vote.

(** ** The calls core.py makes on [DatabaseActor]

    One constructor per method the handlers below call, indexed by what the
    call returns.  A [create_*]/[update_*] method takes the dictionary the
    handler builds; a lookup returns [None] when nothing is found. *)

Module DatabaseActor.
Inductive call : Type -> Type :=
| read_user (uid : Z) : call (option User.t)
| read_user_by_email (email : string) : call (option User.t)
| create_user (data : dict) : call User.t
| get_zid_by_zinvite (zinvite : string) : call (option Z)
| get_zinvite_by_zid (zid : Z) : call (option Zinvite.t)
| create_zinvite (data : dict) : call Zinvite.t
| read_conversation (zid : Z) : call (option Conversation.t)
| list_conversations (page page_size : Z) : call (list Conversation.t)
| update_conversation (zid : Z) (data : dict) : call (option Conversation.t)
| count_participants (zid : Z) : call Z
| count_comments_in_conversation (zid : Z) : call Z
| list_participants_by_zid (zid : Z) : call (list Participant.t)
| get_participant_by_zid_uid (zid uid : Z) : call (option Participant.t)
| create_participant (data : dict) : call Participant.t
| get_or_create_participant (zid uid : Z) : call Participant.t
| get_or_create_anonymous_participant (zid : Z) (token : string) : call Participant.t
| increment_vote_count (pid : Z) : call unit
| list_comments_by_conversation_id (zid : Z) (page page_size : option Z) : call (list Comment.t)
| create_comment (data : dict) : call Comment.t
| get_vote_by_user_comment (uid tid : Z) : call (option Vote.t)
| list_votes_by_comment_id (tid : Z) : call (list Vote.t)
| list_votes_by_user_id (uid page page_size : Z) : call (list Vote.t)
| update_vote (vid : Z) (data : dict) : call (option Vote.t)
| create_vote (data : dict) : call Vote.t.
End DatabaseActor.

(** ** Effects and programs *)

(** What a handler asks of its environment: a call on the persistence actor,
    [datetime.now().isoformat()], [str(uuid.uuid4())], and
    [response.set_cookie(key, value, httponly=False, secure=False,
    samesite="lax")]. *)
Inductive Eff : Type -> Type :=
| Db {X : Type} (c : DatabaseActor.call X) : Eff X
| Now : Eff string
| Uuid4 : Eff string
| SetCookie (key cookie : string) : Eff unit.

(** A handler body: it returns, raises, or performs an effect and goes on
    with the answer. *)
Inductive Prog (A : Type) : Type :=
| Ret (a : A)
| Raise (e : exn)
| Vis {X : Type} (e : Eff X) (k : X -> Prog A).

Arguments Ret {A} a.
Arguments Raise {A} e.
Arguments Vis {A X} e k.

Fixpoint bind {A B : Type} (p : Prog A) (f : A -> Prog B) : Prog B :=
  match p with
  | Ret a => f a
  | Raise e => Raise e
  | Vis e k => Vis e (fun x => bind (k x) f)
  end.

Definition perform {X : Type} (e : Eff X) : Prog X := Vis e Ret.
Definition db {X : Type} (c : DatabaseActor.call X) : Prog X := perform (Db c).

(** The effect every conversation handler starts with. *)
Definition lookup (conversation_id : string) : Eff (option Z) :=
  Db (DatabaseActor.get_zid_by_zinvite conversation_id).

Declare Scope prog_scope.
Delimit Scope prog_scope with prog.
Notation "x <- c ;; k" := (bind c (fun x => k))
  (at level 61, c at next level, right associativity) : prog_scope.
Notation "' pat <- c ;; k" := (bind c (fun x => let 'pat := x in k))
  (at level 61, pat pattern, c at next level, right associativity) : prog_scope.
Notation "c ;; k" := (bind c (fun _ => k))
  (at level 61, right associativity) : prog_scope.
Local Open Scope prog_scope.

(** [obj.attr] where [obj] may be [None]. *)
Definition attr_of {A : Type} (o : option A) (attribute : string) : Prog A :=
  match o with Some a => Ret a | None => Raise (AttributeError attribute) end.

(** [for x in xs: body(x, acc)], threading the accumulator. *)
Fixpoint for_each {A B : Type} (xs : list A) (acc : B) (body : A -> B -> Prog B) : Prog B :=
  match xs with
  | [] => Ret acc
  | x :: xs' => acc' <- body x acc ;; for_each xs' acc' body
  end.

(** ** Running a program *)

(** An effect performed during a run, with its arguments. *)
Inductive event : Type :=
| Event (X : Type) (e : Eff X).

Arguments Event {X} e.

(** A world answers every effect and moves to a next state. *)
Record World : Type := mkWorld {
  St : Type;
  answer : forall X : Type, Eff X -> St -> X * St
}.

Arguments answer w {X} e s.

(** What a run leaves: the outcome (a raised exception or a returned value),
    the final state, and the effects performed, oldest first. *)
Record Run (S A : Type) : Type := mkRun {
  outcome : exn + A;
  final : S;
  log : list event
}.
Arguments mkRun {S A}.
Arguments outcome {S A}.
Arguments final {S A}.
Arguments log {S A}.

Fixpoint run (w : World) {A : Type} (p : Prog A) (s : St w) : Run (St w) A :=
  match p with
  | Ret a => mkRun (inr a) s []
  | Raise e => mkRun (inl e) s []
  | Vis e k =>
      let '(x, s') := answer w e s in
      let r := run w (k x) s' in
      mkRun (outcome r) (final r) (Event e :: log r)
  end.

(** The run of [x <- p ;; f x], from the run of [p]. *)
Definition then_run {S A B : Type} (r : Run S A) (f : A -> S -> Run S B) : Run S B :=
  match outcome r with
  | inl e => mkRun (inl e) (final r) (log r)
  | inr a =>
      let r' := f a (final r) in
      mkRun (outcome r') (final r') (log r ++ log r')%list
  end.

(** ** Small idioms of the handlers *)

(** [PolisResponse(status="ok", data=d)]. *)
Definition ok (d : value) : PolisResponse :=
  {| status := "ok"; data := d; error := None |}.

(** [zid = ...; if not zid: raise e]: an [Optional[int]] that must be truthy. *)
Definition or_raise_int (o : option Z) (e : exn) : Prog Z :=
  match o with
  | Some z => if Py.truthy_opt_int o then Ret z else Raise e
  | None => Raise e
  end.

(** [x = ...; if not x: raise e]: an optional row that must be there. *)
Definition or_raise {A : Type} (o : option A) (e : exn) : Prog A :=
  match o with Some a => Ret a | None => Raise e end.

(** [d.get(key, default)]. *)
Fixpoint dict_get (d : dict) (key : string) (default : value) : value :=
  match d with
  | [] => default
  | (k, v) :: d' => if String.eqb k key then v else dict_get d' key default
  end.

(** [user and user["uid"] == conv.user_id]: [None] for an anonymous caller. *)
Definition is_owner_of (user : option UserDict.t) (conv : Conversation.t) : value :=
  match user with
  | None => VNone
  | Some u => VBool (UserDict.uid u =? Conversation.user_id conv)
  end.

Definition not_found : exn := HTTPException 404 "Conversation not found".

(** ** Auth helpers (core.py, lines 174-231) *)

(** [verify_token]: "Simplified for MVP". *)
Definition verify_token (token : string) : option Z := Some 1.

(** The token [get_current_user] reads from the Authorization header or the
    token2 cookie. *)
Definition request_token (authorization token2 : option string) : option string :=
  match authorization with
  | Some a =>
      if (Py.truthy_str a && Py.startswith a "Bearer ")%bool then Some (Py.drop 7 a)
      else if Py.truthy_opt_str token2 then token2 else None
  | None => if Py.truthy_opt_str token2 then token2 else None
  end.

(** The uid [get_current_user] reads from the uid2 cookie: [int(uid2)], or
    [None] when the cookie is missing, empty or not a number. *)
Definition cookie_uid (uid2 : option string) : option Z :=
  match uid2 with
  | Some u => if Py.truthy_str u then Py.int u else None
  | None => None
  end.

Definition user_dict (user : User.t) : UserDict.t :=
  {| UserDict.uid := User.id user;
     UserDict.email := User.email user;
     UserDict.is_admin := User.is_admin user |}.

Definition get_current_user (authorization token2 uid2 : option string)
  : Prog (option UserDict.t) :=
  let token := request_token authorization token2 in
  let uid := cookie_uid uid2 in
  if negb (Py.truthy_opt_str token) then Ret None else
  by_cookie <- match uid with
               | Some n => if Py.truthy_opt_int uid
                           then db (DatabaseActor.read_user n)
                           else Ret None
               | None => Ret None
               end ;;
  match by_cookie with
  | Some user => Ret (Some (user_dict user))
  | None =>
      user <- db (DatabaseActor.read_user 1) ;;
      match user with
      | Some user => Ret (Some (user_dict user))
      | None => Ret None
      end
  end.

Definition require_auth (user : option UserDict.t) : Prog UserDict.t :=
  or_raise user (HTTPException 401 "Authentication required").

Definition optional_auth (user : option UserDict.t) : Prog (option UserDict.t) :=
  Ret user.

(** ** Registration (core.py, lines 271-315) *)

Module AuthNewRequest.
Record t : Type := mk {
  email : string;
  password : string;
  name : option string;
  hname : option string;
  gatekeeperTosPrivacy : option string
}.
End AuthNewRequest.

Section Auth.

(** [hashlib.sha256(s.encode()).hexdigest()] and the module's [jwt_secret]
    (read from the configuration when core.py is imported). *)
Variable sha256_hexdigest : string -> string.
Variable jwt_secret : string.

Definition create_token (uid : Z) (email : string) : Prog string :=
  now <- perform Now ;;
  let data := Py.str uid ++ ":" ++ email ++ ":" ++ now in
  Ret (Py.take 32 (sha256_hexdigest (jwt_secret ++ ":" ++ data))).

Definition register_user (request : AuthNewRequest.t) : Prog value :=
  if (negb (Py.truthy_str (AuthNewRequest.email request))
      || negb (Py.truthy_str (AuthNewRequest.password request)))%bool
  then Raise (HTTPException 400 "Email and password required") else
  existing <- db (DatabaseActor.read_user_by_email (AuthNewRequest.email request)) ;;
  if Py.truthy_opt existing
  then Raise (HTTPException 409 "Email already registered") else
  let user_name :=
    if Py.truthy_opt_str (AuthNewRequest.name request) then AuthNewRequest.name request
    else AuthNewRequest.hname request in
  let password_hash := sha256_hexdigest (AuthNewRequest.password request) in
  user <- db (DatabaseActor.create_user
                [("email", VStr (AuthNewRequest.email request));
                 ("auth_token", VStr password_hash)]) ;;
  token <- create_token (User.id user) (User.email user) ;;
  perform (SetCookie "token2" token) ;;
  perform (SetCookie "uid2" (Py.str (User.id user))) ;;
  Ret (VDict [("status", VStr "ok");
              ("success", VBool true);
              ("token", VStr token);
              ("user_id", VInt (User.id user));
              ("data", VDict [("uid", VInt (User.id user));
                              ("email", VStr (User.email user))])]).

End Auth.

(** ** Conversations (core.py, lines 457-637) *)

Module ConversationUpdateRequest.
Record t : Type := mk {
  conversation_id : string;
  topic : option string;
  description : option string;
  is_active : option bool;
  is_anon : option bool;
  is_draft : option bool;
  is_data_open : option bool;
  owner_sees_participation_stats : option bool;
  profanity_filter : option bool;
  spam_filter : option bool;
  strict_moderation : option bool;
  vis_type : option Z;
  help_type : option Z;
  write_type : option Z;
  bgcolor : option string;
  help_color : option string
}.
End ConversationUpdateRequest.

(** The branch of [get_conversations] taken when [conversation_id] is given. *)
Definition get_conversations_one (conversation_id : string) (user : option UserDict.t)
  : Prog value :=
  zid <- db (DatabaseActor.get_zid_by_zinvite conversation_id) ;;
  zid <- or_raise_int zid not_found ;;
  conv <- db (DatabaseActor.read_conversation zid) ;;
  conv <- or_raise conv not_found ;;
  participant_count <- db (DatabaseActor.count_participants zid) ;;
  comment_count <- db (DatabaseActor.count_comments_in_conversation zid) ;;
  let is_owner := is_owner_of user conv in
  Ret (VList [VDict [
    ("conversation_id", VStr conversation_id);
    ("topic", VStr (Conversation.title conv));
    ("description", opt_str (Conversation.description conv));
    ("is_active", VBool (negb (Conversation.is_archived conv)));
    ("owner", VInt (Conversation.user_id conv));
    ("is_owner", is_owner);
    ("is_mod", is_owner);
    ("created", iso_or_none (Conversation.created conv));
    ("participant_count", VInt participant_count);
    ("comment_count", VInt comment_count)]]).

(** [conv.settings.get("is_draft", False) if conv.settings else False]. *)
Definition is_draft_of (conv : Conversation.t) : value :=
  match Conversation.settings conv with
  | Some (kv :: d) => dict_get (kv :: d) "is_draft" (VBool false)
  | _ => VBool false
  end.

(** The branch of [get_conversations] that lists every conversation. *)
Definition get_conversations_all (user : option UserDict.t) : Prog value :=
  conversations <- db (DatabaseActor.list_conversations 1 100) ;;
  result <- for_each conversations [] (fun conv result =>
    zinvite_obj <- db (DatabaseActor.get_zinvite_by_zid (Conversation.id conv)) ;;
    zinvite_obj <- match zinvite_obj with
                   | Some z => Ret z
                   | None => db (DatabaseActor.create_zinvite
                                   [("zid", VInt (Conversation.id conv))])
                   end ;;
    participant_count <- db (DatabaseActor.count_participants (Conversation.id conv)) ;;
    let is_owner := is_owner_of user conv in
    Ret (result ++ [VDict [
      ("conversation_id", VStr (Zinvite.zinvite zinvite_obj));
      ("topic", VStr (Conversation.title conv));
      ("description", opt_str (Conversation.description conv));
      ("is_active", VBool (negb (Conversation.is_archived conv)));
      ("is_draft", is_draft_of conv);
      ("owner", VInt (Conversation.user_id conv));
      ("is_owner", is_owner);
      ("is_mod", is_owner);
      ("created", iso_or_none (Conversation.created conv));
      ("participant_count", VInt participant_count)]])%list) ;;
  Ret (VList result).

Definition get_conversations (conversation_id : option string)
    (include_all_conversations_i_am_in : bool) (is_active : option bool)
    (user : option UserDict.t) : Prog value :=
  match conversation_id with
  | Some cid =>
      if Py.truthy_str cid then get_conversations_one cid user
      else get_conversations_all user
  | None => get_conversations_all user
  end.

(** [conv.user_id != user["uid"] and not user.get("is_admin")]. *)
Definition not_authorized (conv : Conversation.t) (user : UserDict.t) : bool :=
  (negb (Conversation.user_id conv =? UserDict.uid user)
   && negb (UserDict.is_admin user))%bool.

Definition forbidden : exn := HTTPException 403 "Not authorized".

Definition update_conversation (request : ConversationUpdateRequest.t)
    (user : UserDict.t) : Prog PolisResponse :=
  let conversation_id := ConversationUpdateRequest.conversation_id request in
  zid <- db (DatabaseActor.get_zid_by_zinvite conversation_id) ;;
  zid <- or_raise_int zid not_found ;;
  conv <- db (DatabaseActor.read_conversation zid) ;;
  conv <- or_raise conv not_found ;;
  if not_authorized conv user then Raise forbidden else
  let update_data : dict :=
    (match ConversationUpdateRequest.topic request with
     | Some topic => [("title", VStr topic)] | None => [] end
     ++ match ConversationUpdateRequest.description request with
        | Some description => [("description", VStr description)] | None => [] end
     ++ match ConversationUpdateRequest.is_active request with
        | Some is_active => [("is_archived", VBool (negb is_active))] | None => [] end)%list in
  updated <- match update_data with
             | [] => Ret conv
             | _ :: _ =>
                 updated <- db (DatabaseActor.update_conversation zid update_data) ;;
                 attr_of updated "title"
             end ;;
  Ret (ok (VDict [
    ("conversation_id", VStr conversation_id);
    ("topic", VStr (Conversation.title updated));
    ("description", opt_str (Conversation.description updated));
    ("is_active", VBool (negb (Conversation.is_archived updated)))])).

Definition close_conversation (conversation_id : string) (user : UserDict.t)
  : Prog PolisResponse :=
  zid <- db (DatabaseActor.get_zid_by_zinvite conversation_id) ;;
  zid <- or_raise_int zid not_found ;;
  conv <- db (DatabaseActor.read_conversation zid) ;;
  conv <- attr_of conv "user_id" ;;
  if not_authorized conv user then Raise forbidden else
  db (DatabaseActor.update_conversation zid [("is_archived", VBool true)]) ;;
  Ret (ok (VDict [("closed", VBool true)])).

Definition reopen_conversation (conversation_id : string) (user : UserDict.t)
  : Prog PolisResponse :=
  zid <- db (DatabaseActor.get_zid_by_zinvite conversation_id) ;;
  zid <- or_raise_int zid not_found ;;
  conv <- db (DatabaseActor.read_conversation zid) ;;
  conv <- attr_of conv "user_id" ;;
  if not_authorized conv user then Raise forbidden else
  db (DatabaseActor.update_conversation zid [("is_archived", VBool false)]) ;;
  Ret (ok (VDict [("reopened", VBool true)])).

(** ** Participants (core.py, lines 644-806) *)

Definition get_participants (conversation_id : string) (user : UserDict.t)
  : Prog PolisResponse :=
  zid <- db (DatabaseActor.get_zid_by_zinvite conversation_id) ;;
  zid <- or_raise_int zid not_found ;;
  participants <- db (DatabaseActor.list_participants_by_zid zid) ;;
  let result := map (fun p => VDict [
    ("pid", VInt (Participant.pid p));
    ("zid", VInt (Participant.zid p));
    ("uid", VInt (Participant.uid p));
    ("vote_count", VInt (Participant.vote_count p));
    ("created", iso_or_none (Participant.created p))]) participants in
  Ret (ok (VList result)).

Definition join_conversation (conversation_id : string) (user : UserDict.t)
  : Prog PolisResponse :=
  zid <- db (DatabaseActor.get_zid_by_zinvite conversation_id) ;;
  zid <- or_raise_int zid not_found ;;
  participant <- db (DatabaseActor.get_or_create_participant zid (UserDict.uid user)) ;;
  Ret (ok (VDict [
    ("pid", VInt (Participant.pid participant));
    ("zid", VInt (Participant.zid participant));
    ("uid", VInt (Participant.uid participant));
    ("vote_count", VInt (Participant.vote_count participant))])).

(** [lang or "en"]. *)
Definition accept_language (lang : option string) : value :=
  match lang with
  | Some l => if Py.truthy_str l then VStr l else VStr "en"
  | None => VStr "en"
  end.

Definition participation_init (conversation_id pid lang : option string)
    (user : option UserDict.t) : Prog value :=
  match (if Py.truthy_opt_str conversation_id then conversation_id else None) with
  | None =>
      Ret (VDict [
        ("user", match user with
                 | Some u => VDict [("uid", VInt (UserDict.uid u))]
                 | None => VNone end);
        ("ptpt", VNone);
        ("nextComment", VNone);
        ("conversation", VDict [("translations", VList [])]);
        ("votes", VList []);
        ("pca", VNone);
        ("famous", VNone);
        ("acceptLanguage", accept_language lang)])
  | Some conversation_id =>
      zid <- db (DatabaseActor.get_zid_by_zinvite conversation_id) ;;
      zid <- or_raise_int zid not_found ;;
      conv <- db (DatabaseActor.read_conversation zid) ;;
      conv <- or_raise conv not_found ;;
      participant_count <- db (DatabaseActor.count_participants zid) ;;
      comment_count <- db (DatabaseActor.count_comments_in_conversation zid) ;;
      let conversation := VDict [
        ("conversation_id", VStr conversation_id);
        ("topic", VStr (Conversation.title conv));
        ("description", match Conversation.description conv with
                        | Some d => VStr d | None => VStr "" end);
        ("is_active", VBool (negb (Conversation.is_archived conv)));
        ("is_archived", VBool (Conversation.is_archived conv));
        ("participant_count", VInt participant_count);
        ("comment_count", VInt comment_count);
        ("translations", VList []);
        ("created", iso_or_none (Conversation.created conv))] in
      '(user_data, ptpt_data, votes_data, participant) <-
        match user with
        | Some u =>
            let user_data := VDict [("uid", VInt (UserDict.uid u));
                                    ("email", VStr (UserDict.email u))] in
            participant <- db (DatabaseActor.get_or_create_participant zid (UserDict.uid u)) ;;
            let ptpt_data := VDict [("pid", VInt (Participant.pid participant));
                                    ("uid", VInt (UserDict.uid u))] in
            votes <- db (DatabaseActor.list_votes_by_user_id (UserDict.uid u) 1 1000) ;;
            let votes_data := map (fun v => VDict [
              ("tid", VInt (Vote.comment_id v));
              ("vote", VInt (Vote.value v));
              ("conversation_id", VStr conversation_id)]) votes in
            Ret (user_data, ptpt_data, votes_data, participant)
        | None =>
            uuid <- perform Uuid4 ;;
            let pc_token := Py.take 16 uuid in
            perform (SetCookie "pc" pc_token) ;;
            participant <- db (DatabaseActor.get_or_create_anonymous_participant zid pc_token) ;;
            let ptpt_data := VDict [("pid", VInt (Participant.pid participant))] in
            Ret (VNone, ptpt_data, [], participant)
        end ;;
      comments <- db (DatabaseActor.list_comments_by_conversation_id zid (Some 1) (Some 1)) ;;
      let next_comment :=
        match comments with
        | c :: _ => VDict [
            ("tid", VInt (Comment.id c));
            ("txt", VStr (Comment.text_field c));
            ("conversation_id", VStr conversation_id);
            ("currentPid", VInt (Participant.pid participant))]
        | [] => VDict []
        end in
      Ret (VDict [
        ("user", user_data);
        ("ptpt", ptpt_data);
        ("nextComment", next_comment);
        ("conversation", conversation);
        ("votes", VList votes_data);
        ("pca", VNone);
        ("famous", VNone);
        ("acceptLanguage", accept_language lang)])
  end.

(** ** Comments (core.py, lines 813-949) *)

Module CommentCreateRequest.
Record t : Type := mk {
  conversation_id : string;
  txt : string;
  pid : option string;
  is_seed : option bool
}.
End CommentCreateRequest.

Definition get_comments (conversation_id : string) (mod_ : option Z)
    (user : option UserDict.t) : Prog PolisResponse :=
  zid <- db (DatabaseActor.get_zid_by_zinvite conversation_id) ;;
  zid <- or_raise_int zid not_found ;;
  comments <- db (DatabaseActor.list_comments_by_conversation_id zid (Some 1) (Some 1000)) ;;
  result <- for_each comments [] (fun c result =>
    participant <- match user with
                   | Some u => db (DatabaseActor.get_participant_by_zid_uid zid (UserDict.uid u))
                   | None => Ret None
                   end ;;
    Ret (result ++ [VDict [
      ("tid", VInt (Comment.id c));
      ("txt", VStr (Comment.text_field c));
      ("pid", VInt (Comment.user_id c));
      ("created", iso_or_none (Comment.created c));
      ("mod", VInt (Comment.moderation_status c));
      ("is_seed", VBool false)]])%list) ;;
  Ret (ok (VList result)).

Definition create_comment (user : UserDict.t) (conversation_id txt : option string)
    (body : option CommentCreateRequest.t) : Prog PolisResponse :=
  let '(conversation_id, txt) :=
    match body with
    | Some b => (Some (CommentCreateRequest.conversation_id b),
                 Some (CommentCreateRequest.txt b))
    | None => (conversation_id, txt)
    end in
  match conversation_id, txt with
  | Some conversation_id, Some txt =>
      if (negb (Py.truthy_str conversation_id) || negb (Py.truthy_str txt))%bool
      then Raise (HTTPException 400 "conversation_id and txt required") else
      if (negb (Py.truthy_str txt) || Nat.eqb (String.length (Py.strip txt)) 0)%bool
      then Raise (HTTPException 400 "Comment text required") else
      zid <- db (DatabaseActor.get_zid_by_zinvite conversation_id) ;;
      zid <- or_raise_int zid not_found ;;
      participant <- db (DatabaseActor.get_or_create_participant zid (UserDict.uid user)) ;;
      comment <- db (DatabaseActor.create_comment [
        ("text_field", VStr txt);
        ("user_id", VInt (UserDict.uid user));
        ("conversation_id", VInt zid);
        ("moderation_status", VInt 0)]) ;;
      Ret (ok (VDict [
        ("tid", VInt (Comment.id comment));
        ("txt", VStr (Comment.text_field comment));
        ("pid", VInt (Participant.pid participant));
        ("created", iso_or_none (Comment.created comment))]))
  | _, _ => Raise (HTTPException 400 "conversation_id and txt required")
  end.

(** The loop of [get_next_comment]: the first comment the user has not voted
    on and that is not moderated out. *)
Fixpoint next_unvoted (uid : Z) (comments : list Comment.t) : Prog PolisResponse :=
  match comments with
  | [] => Ret (ok VNone)
  | c :: comments' =>
      existing_vote <- db (DatabaseActor.get_vote_by_user_comment uid (Comment.id c)) ;;
      if (negb (Py.truthy_opt existing_vote) && (0 <=? Comment.moderation_status c))%bool
      then Ret (ok (VDict [
        ("tid", VInt (Comment.id c));
        ("txt", VStr (Comment.text_field c));
        ("pid", VInt (Comment.user_id c));
        ("created", iso_or_none (Comment.created c))]))
      else next_unvoted uid comments'
  end.

Definition get_next_comment (conversation_id : string) (user : UserDict.t)
  : Prog PolisResponse :=
  zid <- db (DatabaseActor.get_zid_by_zinvite conversation_id) ;;
  zid <- or_raise_int zid not_found ;;
  participant <- db (DatabaseActor.get_participant_by_zid_uid zid (UserDict.uid user)) ;;
  participant <- match participant with
                 | Some p => Ret p
                 | None => db (DatabaseActor.create_participant
                                 [("zid", VInt zid); ("uid", VInt (UserDict.uid user))])
                 end ;;
  comments <- db (DatabaseActor.list_comments_by_conversation_id zid None None) ;;
  next_unvoted (UserDict.uid user) comments.

(** ** Votes (core.py, lines 956-1061) *)

Definition get_votes (conversation_id : string) (user : option UserDict.t)
  : Prog PolisResponse :=
  zid <- db (DatabaseActor.get_zid_by_zinvite conversation_id) ;;
  zid <- or_raise_int zid not_found ;;
  comments <- db (DatabaseActor.list_comments_by_conversation_id zid None None) ;;
  all_votes <- for_each comments [] (fun c all_votes =>
    votes <- db (DatabaseActor.list_votes_by_comment_id (Comment.id c)) ;;
    Ret (all_votes ++ map (fun v => VDict [
      ("vid", VInt (Vote.id v));
      ("pid", VInt (Vote.user_id v));
      ("tid", VInt (Vote.comment_id v));
      ("vote", VInt (Vote.value v));
      ("created", iso_or_none (Vote.created v))]) votes)%list) ;;
  Ret (ok (VList all_votes)).

(** [vote not in [-1, 0, 1]]. *)
Definition vote_allowed (vote : Z) : bool :=
  existsb (Z.eqb vote) [-1; 0; 1].

Definition create_vote (conversation_id : string) (tid vote : Z) (user : UserDict.t)
  : Prog PolisResponse :=
  if negb (vote_allowed vote)
  then Raise (HTTPException 400 "Vote must be -1, 0, or 1") else
  zid <- db (DatabaseActor.get_zid_by_zinvite conversation_id) ;;
  zid <- or_raise_int zid not_found ;;
  participant <- db (DatabaseActor.get_or_create_participant zid (UserDict.uid user)) ;;
  existing <- db (DatabaseActor.get_vote_by_user_comment (UserDict.uid user) tid) ;;
  match existing with
  | Some existing =>
      updated <- db (DatabaseActor.update_vote (Vote.id existing) [("value", VInt vote)]) ;;
      updated <- attr_of updated "id" ;;
      Ret (ok (VDict [
        ("vid", VInt (Vote.id updated));
        ("pid", VInt (Participant.pid participant));
        ("tid", VInt tid);
        ("vote", VInt (Vote.value updated))]))
  | None =>
      new_vote <- db (DatabaseActor.create_vote [
        ("user_id", VInt (UserDict.uid user));
        ("comment_id", VInt tid);
        ("value", VInt vote)]) ;;
      db (DatabaseActor.increment_vote_count (Participant.pid participant)) ;;
      Ret (ok (VDict [
        ("vid", VInt (Vote.id new_vote));
        ("pid", VInt (Participant.pid participant));
        ("tid", VInt tid);
        ("vote", VInt (Vote.value new_vote))]))
  end.

Definition get_my_votes (conversation_id : string) (user : UserDict.t)
  : Prog PolisResponse :=
  zid <- db (DatabaseActor.get_zid_by_zinvite conversation_id) ;;
  zid <- or_raise_int zid not_found ;;
  comments <- db (DatabaseActor.list_comments_by_conversation_id zid None None) ;;
  my_votes <- for_each comments [] (fun c my_votes =>
    vote <- db (DatabaseActor.get_vote_by_user_comment (UserDict.uid user) (Comment.id c)) ;;
    match vote with
    | Some vote => Ret (my_votes ++ [VDict [
        ("tid", VInt (Comment.id c));
        ("vote", VInt (Vote.value vote));
        ("created", iso_or_none (Vote.created vote))]])%list
    | None => Ret my_votes
    end) ;;
  Ret (ok (VList my_votes)).

(** ** Join with invite (core.py, lines 1106-1130) *)

Definition join_with_invite (conversation_id : string) (user : option UserDict.t)
  : Prog PolisResponse :=
  zid <- db (DatabaseActor.get_zid_by_zinvite conversation_id) ;;
  zid <- or_raise_int zid (HTTPException 404 "Invalid invite code") ;;
  conv <- db (DatabaseActor.read_conversation zid) ;;
  conv <- or_raise conv not_found ;;
  let result : dict := [
    ("conversation_id", VStr conversation_id);
    ("topic", VStr (Conversation.title conv));
    ("description", opt_str (Conversation.description conv))] in
  result <- match user with
            | Some u =>
                participant <- db (DatabaseActor.get_or_create_participant zid (UserDict.uid u)) ;;
                Ret (result ++ [("pid", VInt (Participant.pid participant))])%list
            | None => Ret result
            end ;;
  Ret (ok (VDict result)).

(** ** Math endpoints (core.py, lines 1137-1179): stubs for the MVP *)

Definition get_pca (conversation_id : string) (user : option UserDict.t)
  : Prog PolisResponse :=
  zid <- db (DatabaseActor.get_zid_by_zinvite conversation_id) ;;
  zid <- or_raise_int zid not_found ;;
  Ret (ok (VDict [
    ("commentProjection", VList []);
    ("ptptotProjection", VList []);
    ("baseCluster", VList []);
    ("groupAware", VBool false)])).

Definition get_pca2 (conversation_id : string) (user : option UserDict.t)
  : Prog PolisResponse :=
  zid <- db (DatabaseActor.get_zid_by_zinvite conversation_id) ;;
  zid <- or_raise_int zid not_found ;;
  Ret (ok (VDict [
    ("pca", VDict [
      ("commentProjection", VList []);
      ("ptptotProjection", VList []);
      ("baseClusters", VList [])])])).

(** ** Conversation stats and preload (core.py, lines 1186-1234) *)

Definition get_conversation_stats (conversation_id : string) (user : option UserDict.t)
  : Prog PolisResponse :=
  zid <- db (DatabaseActor.get_zid_by_zinvite conversation_id) ;;
  zid <- or_raise_int zid not_found ;;
  participant_count <- db (DatabaseActor.count_participants zid) ;;
  comment_count <- db (DatabaseActor.count_comments_in_conversation zid) ;;
  Ret (ok (VDict [
    ("participant_count", VInt participant_count);
    ("comment_count", VInt comment_count)])).

Definition preload_conversation (conversation_id : string) (user : option UserDict.t)
  : Prog PolisResponse :=
  zid <- db (DatabaseActor.get_zid_by_zinvite conversation_id) ;;
  zid <- or_raise_int zid not_found ;;
  conv <- db (DatabaseActor.read_conversation zid) ;;
  conv <- or_raise conv not_found ;;
  Ret (ok (VDict [
    ("conversation_id", VStr conversation_id);
    ("topic", VStr (Conversation.title conv));
    ("description", opt_str (Conversation.description conv));
    ("is_active", VBool (negb (Conversation.is_archived conv)))])).

(** ** The routes of [router] (the decorators of core.py, in order) *)

Inductive method : Type := GET | POST | PUT.

Definition method_eqb (a b : method) : bool :=
  match a, b with
  | GET, GET | POST, POST | PUT, PUT => true
  | _, _ => false
  end.

Definition routes : list (method * string * string) := [
  (GET, "/", "get_testroute");
  (GET, "/user", "get_user_route");
  (GET, "/testConnection", "test_connection");
  (GET, "/testDatabase", "test_database");
  (POST, "/auth/new", "register_user");
  (POST, "/auth/login", "login");
  (POST, "/auth/deregister", "deregister");
  (POST, "/auth/pwresettoken", "request_password_reset");
  (POST, "/auth/password", "change_password");
  (GET, "/users", "get_user");
  (PUT, "/users", "update_user");
  (GET, "/conversations", "get_conversations");
  (POST, "/conversations", "create_conversation");
  (PUT, "/conversations", "update_conversation");
  (POST, "/conversation/close", "close_conversation");
  (POST, "/conversation/reopen", "reopen_conversation");
  (GET, "/participants", "get_participants");
  (POST, "/participants", "join_conversation");
  (GET, "/participationInit", "participation_init");
  (GET, "/comments", "get_comments");
  (POST, "/comments", "create_comment");
  (PUT, "/comments", "update_comment");
  (GET, "/nextComment", "get_next_comment");
  (GET, "/votes", "get_votes");
  (POST, "/votes", "create_vote");
  (GET, "/votes/me", "get_my_votes");
  (GET, "/zinvites/{zid}", "get_zinvite");
  (POST, "/zinvites/{zid}", "create_zinvite");
  (POST, "/joinWithInvite", "join_with_invite");
  (GET, "/math/pca", "get_pca");
  (GET, "/math/pca2", "get_pca2");
  (GET, "/conversationStats", "get_conversation_stats");
  (GET, "/conversations/preload", "preload_conversation")
].

(** Starlette's matching of a request path against a route path: segment by
    segment, a [{param}] segment matching any non-empty segment. *)
Fixpoint segments_from (s : string) (current : string) : list string :=
  match s with
  | EmptyString => [current]
  | String c s' =>
      if Ascii.eqb c "/" then current :: segments_from s' EmptyString
      else segments_from s' (current ++ String c EmptyString)
  end.

Definition segments (path : string) : list string := segments_from path EmptyString.

Definition segment_matches (pattern segment : string) : bool :=
  if Py.startswith pattern "{" then Py.truthy_str segment
  else String.eqb pattern segment.

Fixpoint all2 {A B : Type} (f : A -> B -> bool) (xs : list A) (ys : list B) : bool :=
  match xs, ys with
  | [], [] => true
  | x :: xs', y :: ys' => (f x y && all2 f xs' ys')%bool
  | _, _ => false
  end.

Definition path_matches (pattern path : string) : bool :=
  all2 segment_matches (segments pattern) (segments path).

(** What the router does with a request: the first route whose path and
    method both match handles it; a path that only matches routes of other
    methods is answered 405, a path that matches no route 404. *)
Inductive resolution : Type :=
| Handled (handler : string)
| MethodNotAllowed
| NoRoute.

Definition resolve (m : method) (path : string) : resolution :=
  match find (fun r => (path_matches (snd (fst r)) path
                        && method_eqb (fst (fst r)) m)%bool) routes with
  | Some r => Handled (snd r)
  | None =>
      if existsb (fun r => path_matches (snd (fst r)) path) routes
      then MethodNotAllowed else NoRoute
  end.

(** ** Requests that name a conversation *)

(** One constructor per handler that takes a [conversation_id], with the
    arguments FastAPI passes to it (the [user] argument is what the
    [require_auth] / [optional_auth] dependency has already resolved). *)
Inductive request : Type :=
| GetConversations (conversation_id : option string)
    (include_all_conversations_i_am_in : bool) (is_active : option bool)
    (user : option UserDict.t)
| PutConversations (body : ConversationUpdateRequest.t) (user : UserDict.t)
| PostConversationClose (conversation_id : string) (user : UserDict.t)
| PostConversationReopen (conversation_id : string) (user : UserDict.t)
| GetParticipants (conversation_id : string) (user : UserDict.t)
| PostParticipants (conversation_id : string) (user : UserDict.t)
| GetParticipationInit (conversation_id pid lang : option string)
    (user : option UserDict.t)
| GetComments (conversation_id : string) (mod_ : option Z) (user : option UserDict.t)
| PostComments (user : UserDict.t) (conversation_id txt : option string)
    (body : option CommentCreateRequest.t)
| GetNextComment (conversation_id : string) (user : UserDict.t)
| GetVotes (conversation_id : string) (user : option UserDict.t)
| PostVotes (conversation_id : string) (tid vote : Z) (user : UserDict.t)
| GetVotesMe (conversation_id : string) (user : UserDict.t)
| PostJoinWithInvite (conversation_id : string) (user : option UserDict.t)
| GetMathPca (conversation_id : string) (user : option UserDict.t)
| GetMathPca2 (conversation_id : string) (user : option UserDict.t)
| GetConversationStats (conversation_id : string) (user : option UserDict.t)
| GetConversationsPreload (conversation_id : string) (user : option UserDict.t).

(** What a handler returns: a [PolisResponse] or a bare JSON value. *)
Inductive reply : Type :=
| Polis (r : PolisResponse)
| Json (v : value).

Definition polis (p : Prog PolisResponse) : Prog reply := r <- p ;; Ret (Polis r).
Definition json (p : Prog value) : Prog reply := v <- p ;; Ret (Json v).

Definition handle (req : request) : Prog reply :=
  match req with
  | GetConversations c a i u => json (get_conversations c a i u)
  | PutConversations b u => polis (update_conversation b u)
  | PostConversationClose c u => polis (close_conversation c u)
  | PostConversationReopen c u => polis (reopen_conversation c u)
  | GetParticipants c u => polis (get_participants c u)
  | PostParticipants c u => polis (join_conversation c u)
  | GetParticipationInit c p l u => json (participation_init c p l u)
  | GetComments c m u => polis (get_comments c m u)
  | PostComments u c t b => polis (create_comment u c t b)
  | GetNextComment c u => polis (get_next_comment c u)
  | GetVotes c u => polis (get_votes c u)
  | PostVotes c t v u => polis (create_vote c t v u)
  | GetVotesMe c u => polis (get_my_votes c u)
  | PostJoinWithInvite c u => polis (join_with_invite c u)
  | GetMathPca c u => polis (get_pca c u)
  | GetMathPca2 c u => polis (get_pca2 c u)
  | GetConversationStats c u => polis (get_conversation_stats c u)
  | GetConversationsPreload c u => polis (preload_conversation c u)
  end.




(** ** An in-memory persistence actor *)

(** Modelled from the spec: the persistence collaborator [DatabaseActor]
    (package litepolis_database_default, which core.py imports and which is
    not part of this repository), "a key-value/relational store accessed
    through create/read/update/delete/list operations".  One list of rows
    per table; a created row gets the id one above the largest id of its
    table; a lookup by key returns the first matching row; an update by key
    rewrites the matching rows in place. *)
Module MemDb.

Record t : Type := mk {
  users : list User.t;
  conversations : list Conversation.t;
  zinvites : list Zinvite.t;
  participants : list Participant.t;
  anonymous : list (string * Z);
  comments : list Comment.t;
  votes : list Vote.t;
  clock : datetime;
  uuids : list string;
  cookies : list (string * string)
}.

Definition with_users (s : t) (x : list User.t) : t :=
  mk x (conversations s) (zinvites s) (participants s) (anonymous s)
     (comments s) (votes s) (clock s) (uuids s) (cookies s).
Definition with_conversations (s : t) (x : list Conversation.t) : t :=
  mk (users s) x (zinvites s) (participants s) (anonymous s)
     (comments s) (votes s) (clock s) (uuids s) (cookies s).
Definition with_zinvites (s : t) (x : list Zinvite.t) : t :=
  mk (users s) (conversations s) x (participants s) (anonymous s)
     (comments s) (votes s) (clock s) (uuids s) (cookies s).
Definition with_participants (s : t) (x : list Participant.t) : t :=
  mk (users s) (conversations s) (zinvites s) x (anonymous s)
     (comments s) (votes s) (clock s) (uuids s) (cookies s).
Definition with_anonymous (s : t) (x : list (string * Z)) : t :=
  mk (users s) (conversations s) (zinvites s) (participants s) x
     (comments s) (votes s) (clock s) (uuids s) (cookies s).
Definition with_comments (s : t) (x : list Comment.t) : t :=
  mk (users s) (conversations s) (zinvites s) (participants s) (anonymous s)
     x (votes s) (clock s) (uuids s) (cookies s).
Definition with_votes (s : t) (x : list Vote.t) : t :=
  mk (users s) (conversations s) (zinvites s) (participants s) (anonymous s)
     (comments s) x (clock s) (uuids s) (cookies s).
Definition with_uuids (s : t) (x : list string) : t :=
  mk (users s) (conversations s) (zinvites s) (participants s) (anonymous s)
     (comments s) (votes s) (clock s) x (cookies s).
Definition with_cookies (s : t) (x : list (string * string)) : t :=
  mk (users s) (conversations s) (zinvites s) (participants s) (anonymous s)
     (comments s) (votes s) (clock s) (uuids s) x.

Definition empty : t :=
  mk [] [] [] [] [] [] [] (mkDatetime "2025-01-01T00:00:00") [] [].

(** The next id of a table: one above the largest id in use. *)
Definition next_id (ids : list Z) : Z := 1 + fold_right Z.max 0 ids.

Definition int_of (d : dict) (key : string) : Z :=
  match dict_get d key VNone with VInt z => z | _ => 0 end.
Definition str_of (d : dict) (key : string) : string :=
  match dict_get d key VNone with VStr x => x | _ => EmptyString end.

(** [page] and [page_size] of a listing; no limit when they are left out. *)
Definition paged {A : Type} (page page_size : option Z) (rows : list A) : list A :=
  match page, page_size with
  | Some p, Some n => firstn (Z.to_nat n) (skipn (Z.to_nat ((p - 1) * n)) rows)
  | _, _ => rows
  end.

Definition read_user (s : t) (uid : Z) : option User.t :=
  find (fun u => User.id u =? uid) (users s).

Definition read_user_by_email (s : t) (email : string) : option User.t :=
  find (fun u => String.eqb (User.email u) email) (users s).

Definition create_user (s : t) (data : dict) : User.t * t :=
  let u := User.mk (next_id (map User.id (users s))) (str_of data "email")
                   (str_of data "auth_token") false (Some (clock s)) in
  (u, with_users s (users s ++ [u])%list).

Definition get_zid_by_zinvite (s : t) (zinvite : string) : option Z :=
  option_map Zinvite.zid
    (find (fun z => String.eqb (Zinvite.zinvite z) zinvite) (zinvites s)).

Definition get_zinvite_by_zid (s : t) (zid : Z) : option Zinvite.t :=
  find (fun z => Zinvite.zid z =? zid) (zinvites s).

Definition create_zinvite (s : t) (data : dict) : Zinvite.t * t :=
  let z := Zinvite.mk (int_of data "zid")
             ("z" ++ Py.str (1 + Z.of_nat (List.length (zinvites s)))) in
  (z, with_zinvites s (zinvites s ++ [z])%list).

Definition read_conversation (s : t) (zid : Z) : option Conversation.t :=
  find (fun c => Conversation.id c =? zid) (conversations s).

Definition patch_conversation (data : dict) (c : Conversation.t) : Conversation.t :=
  Conversation.mk (Conversation.id c)
    (match dict_get data "title" VNone with
     | VStr x => x | _ => Conversation.title c end)
    (match dict_get data "description" VNone with
     | VStr x => Some x | _ => Conversation.description c end)
    (match dict_get data "is_archived" VNone with
     | VBool b => b | _ => Conversation.is_archived c end)
    (Conversation.user_id c) (Conversation.created c) (Conversation.settings c).

Definition update_conversation (s : t) (zid : Z) (data : dict)
  : option Conversation.t * t :=
  let rows := map (fun c => if Conversation.id c =? zid
                            then patch_conversation data c else c)
                  (conversations s) in
  (find (fun c => Conversation.id c =? zid) rows, with_conversations s rows).

Definition list_participants_by_zid (s : t) (zid : Z) : list Participant.t :=
  filter (fun p => Participant.zid p =? zid) (participants s).

(** The test [get_participant_by_zid_uid] runs on each row. *)
Definition participant_of (zid uid : Z) (p : Participant.t) : bool :=
  ((Participant.zid p =? zid) && (Participant.uid p =? uid))%bool.

Definition get_participant_by_zid_uid (s : t) (zid uid : Z) : option Participant.t :=
  find (participant_of zid uid) (participants s).

Definition new_participant (s : t) (zid uid : Z) : Participant.t * t :=
  let p := Participant.mk (next_id (map Participant.pid (participants s)))
                          zid uid 0 (Some (clock s)) in
  (p, with_participants s (participants s ++ [p])%list).

Definition get_or_create_participant (s : t) (zid uid : Z) : Participant.t * t :=
  match get_participant_by_zid_uid s zid uid with
  | Some p => (p, s)
  | None => new_participant s zid uid
  end.

Definition get_or_create_anonymous_participant (s : t) (zid : Z) (token : string)
  : Participant.t * t :=
  let known :=
    match find (fun a => String.eqb (fst a) token) (anonymous s) with
    | Some a => find (fun p => (Participant.pid p =? snd a)
                               && (Participant.zid p =? zid))%bool (participants s)
    | None => None
    end in
  match known with
  | Some p => (p, s)
  | None =>
      let '(p, s') := new_participant s zid 0 in
      (p, with_anonymous s' (anonymous s' ++ [(token, Participant.pid p)])%list)
  end.

(** What [increment_vote_count pid] does to each row. *)
Definition count_up (pid : Z) (p : Participant.t) : Participant.t :=
  if Participant.pid p =? pid
  then Participant.mk (Participant.pid p) (Participant.zid p) (Participant.uid p)
                      (Participant.vote_count p + 1) (Participant.created p)
  else p.

Definition increment_vote_count (s : t) (pid : Z) : t :=
  with_participants s (map (count_up pid) (participants s)).

Definition comments_of (s : t) (zid : Z) : list Comment.t :=
  filter (fun c => Comment.conversation_id c =? zid) (comments s).

Definition create_comment (s : t) (data : dict) : Comment.t * t :=
  let c := Comment.mk (next_id (map Comment.id (comments s)))
             (str_of data "text_field") (int_of data "user_id")
             (int_of data "conversation_id") (int_of data "moderation_status")
             (Some (clock s)) in
  (c, with_comments s (comments s ++ [c])%list).

(** The test [get_vote_by_user_comment] runs on each row. *)
Definition vote_of (uid tid : Z) (v : Vote.t) : bool :=
  ((Vote.user_id v =? uid) && (Vote.comment_id v =? tid))%bool.

Definition get_vote_by_user_comment (s : t) (uid tid : Z) : option Vote.t :=
  find (vote_of uid tid) (votes s).

Definition set_value (x : Z) (v : Vote.t) : Vote.t :=
  Vote.mk (Vote.id v) (Vote.user_id v) (Vote.comment_id v) x (Vote.created v).

Definition update_vote (s : t) (vid : Z) (data : dict) : option Vote.t * t :=
  let rows := map (fun v => if Vote.id v =? vid
                            then match dict_get data "value" VNone with
                                 | VInt x => set_value x v
                                 | _ => v
                                 end
                            else v) (votes s) in
  (find (fun v => Vote.id v =? vid) rows, with_votes s rows).

Definition create_vote (s : t) (data : dict) : Vote.t * t :=
  let v := Vote.mk (next_id (map Vote.id (votes s))) (int_of data "user_id")
             (int_of data "comment_id") (int_of data "value") (Some (clock s)) in
  (v, with_votes s (votes s ++ [v])%list).

Definition call {X : Type} (c : DatabaseActor.call X) (s : t) : X * t :=
  match c in DatabaseActor.call X return X * t with
  | DatabaseActor.read_user uid => (read_user s uid, s)
  | DatabaseActor.read_user_by_email email => (read_user_by_email s email, s)
  | DatabaseActor.create_user data => create_user s data
  | DatabaseActor.get_zid_by_zinvite zinvite => (get_zid_by_zinvite s zinvite, s)
  | DatabaseActor.get_zinvite_by_zid zid => (get_zinvite_by_zid s zid, s)
  | DatabaseActor.create_zinvite data => create_zinvite s data
  | DatabaseActor.read_conversation zid => (read_conversation s zid, s)
  | DatabaseActor.list_conversations page page_size =>
      (paged (Some page) (Some page_size) (conversations s), s)
  | DatabaseActor.update_conversation zid data => update_conversation s zid data
  | DatabaseActor.count_participants zid =>
      (Z.of_nat (List.length (list_participants_by_zid s zid)), s)
  | DatabaseActor.count_comments_in_conversation zid =>
      (Z.of_nat (List.length (comments_of s zid)), s)
  | DatabaseActor.list_participants_by_zid zid => (list_participants_by_zid s zid, s)
  | DatabaseActor.get_participant_by_zid_uid zid uid =>
      (get_participant_by_zid_uid s zid uid, s)
  | DatabaseActor.create_participant data =>
      new_participant s (int_of data "zid") (int_of data "uid")
  | DatabaseActor.get_or_create_participant zid uid =>
      get_or_create_participant s zid uid
  | DatabaseActor.get_or_create_anonymous_participant zid token =>
      get_or_create_anonymous_participant s zid token
  | DatabaseActor.increment_vote_count pid => (tt, increment_vote_count s pid)
  | DatabaseActor.list_comments_by_conversation_id zid page page_size =>
      (paged page page_size (comments_of s zid), s)
  | DatabaseActor.create_comment data => create_comment s data
  | DatabaseActor.get_vote_by_user_comment uid tid =>
      (get_vote_by_user_comment s uid tid, s)
  | DatabaseActor.list_votes_by_comment_id tid =>
      (filter (fun v => Vote.comment_id v =? tid) (votes s), s)
  | DatabaseActor.list_votes_by_user_id uid page page_size =>
      (paged (Some page) (Some page_size)
             (filter (fun v => Vote.user_id v =? uid) (votes s)), s)
  | DatabaseActor.update_vote vid data => update_vote s vid data
  | DatabaseActor.create_vote data => create_vote s data
  end.

(** [uuid.uuid4()] draws from a supply; the nil uuid once it is used up. *)
Definition answer {X : Type} (e : Eff X) (s : t) : X * t :=
  match e in Eff X return X * t with
  | Db c => call c s
  | Now => (isoformat (clock s), s)
  | Uuid4 =>
      match uuids s with
      | u :: rest => (u, with_uuids s rest)
      | [] => ("00000000-0000-0000-0000-000000000000", s)
      end
  | SetCookie key cookie => (tt, with_cookies s (cookies s ++ [(key, cookie)])%list)
  end.

Definition world : World := mkWorld t (@answer).

End MemDb.

(** ** Sample data and the vocabulary of the properties *)

Definition alice : UserDict.t := UserDict.mk 1 "alice@example.com" false.

(** One user, one conversation with invite code "abc", one comment. *)
Definition demo : MemDb.t :=
  MemDb.mk
    [User.mk 1 "alice@example.com" "5e88" false None]
    [Conversation.mk 1 "Parks" None false 1 None None]
    [Zinvite.mk 1 "abc"]
    [] []
    [Comment.mk 7 "More trees" 1 1 0 None]
    []
    (mkDatetime "2025-01-01T00:00:00") [] [].

(** The payloads of the two PCA stubs. *)
Definition pca_stub : PolisResponse :=
  {| status := "ok";
     data := VDict [("commentProjection", VList []);
                    ("ptptotProjection", VList []);
                    ("baseCluster", VList []);
                    ("groupAware", VBool false)];
     error := None |}.

Definition pca2_stub : PolisResponse :=
  {| status := "ok";
     data := VDict [("pca", VDict [("commentProjection", VList []);
                                   ("ptptotProjection", VList []);
                                   ("baseClusters", VList [])])];
     error := None |}.

(** A field of the dictionary a [PolisResponse] carries as its data. *)
Definition payload_field (r : PolisResponse) (key : string) : value :=
  match data r with
  | VDict d => dict_get d key VNone
  | _ => VNone
  end.

(** The votes cast on the comments of a conversation. *)
Definition conversation_votes (s : MemDb.t) (zid : Z) : list Vote.t :=
  filter (fun v => existsb (fun c => Comment.id c =? Vote.comment_id v)
                           (MemDb.comments_of s zid))
         (MemDb.votes s).

(** The dictionaries handed to [DatabaseActor.create_user] during a run. *)
Fixpoint users_handed_over (events : list event) : list dict :=
  match events with
  | [] => []
  | Event e :: events' =>
      match e with
      | Db c =>
          match c with
          | DatabaseActor.create_user data => data :: users_handed_over events'
          | _ => users_handed_over events'
          end
      | _ => users_handed_over events'
      end
  end.

(** The calls on the persistence actor during a run that write to it
    (everything but the reads, lookups, listings and counts). *)
Fixpoint writes (events : list event) : list event :=
  match events with
  | [] => []
  | Event e :: events' =>
      match e with
      | Db c =>
          match c with
          | DatabaseActor.create_user _ | DatabaseActor.create_zinvite _
          | DatabaseActor.update_conversation _ _
          | DatabaseActor.create_participant _
          | DatabaseActor.get_or_create_participant _ _
          | DatabaseActor.get_or_create_anonymous_participant _ _
          | DatabaseActor.increment_vote_count _
          | DatabaseActor.create_comment _ | DatabaseActor.update_vote _ _
          | DatabaseActor.create_vote _ => Event e :: writes events'
          | _ => writes events'
          end
      | _ => writes events'
      end
  end.

(** The (participant, comment) pair a vote row belongs to: the voting user
    and the comment voted on. *)
Definition vote_key (v : Vote.t) : Z * Z := (Vote.user_id v, Vote.comment_id v).

(** At most one vote row per (participant, comment) pair. *)
Definition votes_unique (s : MemDb.t) : Prop :=
  NoDup (map vote_key (MemDb.votes s)).

(** The vote-count increments asked of the persistence actor during a run. *)
Fixpoint vote_count_increments (events : list event) : list Z :=
  match events with
  | [] => []
  | Event e :: events' =>
      match e with
      | Db c =>
          match c with
          | DatabaseActor.increment_vote_count pid =>
              pid :: vote_count_increments events'
          | _ => vote_count_increments events'
          end
      | _ => vote_count_increments events'
      end
  end.

(** The vote rows created during a run. *)
Fixpoint votes_created (events : list event) : list dict :=
  match events with
  | [] => []
  | Event e :: events' =>
      match e with
      | Db c =>
          match c with
          | DatabaseActor.create_vote data => data :: votes_created events'
          | _ => votes_created events'
          end
      | _ => votes_created events'
      end
  end.

(** What [update_vote vid {"value": x}] does to each row. *)
Definition revalue (vid x : Z) (v : Vote.t) : Vote.t :=
  if Vote.id v =? vid then MemDb.set_value x v else v.

(** The response of POST /votes. *)
Definition vote_response (vid pid tid vote : Z) : PolisResponse :=
  ok (VDict [("vid", VInt vid); ("pid", VInt pid); ("tid", VInt tid);
             ("vote", VInt vote)]).

(** A database where alice has already agreed with comment 7. *)
Definition voted : MemDb.t :=
  MemDb.mk
    [User.mk 1 "alice@example.com" "5e88" false None]
    [Conversation.mk 1 "Parks" None false 1 None None]
    [Zinvite.mk 1 "abc"]
    [Participant.mk 1 1 1 1 None] []
    [Comment.mk 7 "More trees" 1 1 0 None]
    [Vote.mk 1 1 7 1 None]
    (mkDatetime "2025-01-01T00:00:00") [] [].

(** The vote count of the participant of [uid] in conversation [zid]. *)
Definition vote_count_of (s : MemDb.t) (zid uid : Z) : option Z :=
  option_map Participant.vote_count (MemDb.get_participant_by_zid_uid s zid uid).

(** ** Login (core.py, lines 318-356) *)

Module AuthLoginRequest.
Record t : Type := mk { email : string; password : string }.
End AuthLoginRequest.

Section Login.

(** As for registration: [hashlib.sha256(s.encode()).hexdigest()] and the
    module's [jwt_secret]. *)
Variable sha256_hexdigest : string -> string.
Variable jwt_secret : string.

Definition login (request : AuthLoginRequest.t) : Prog value :=
  if (negb (Py.truthy_str (AuthLoginRequest.email request))
      || negb (Py.truthy_str (AuthLoginRequest.password request)))%bool
  then Raise (HTTPException 400 "Email and password required") else
  user <- db (DatabaseActor.read_user_by_email (AuthLoginRequest.email request)) ;;
  user <- or_raise user (HTTPException 401 "Invalid credentials") ;;
  let password_hash := sha256_hexdigest (AuthLoginRequest.password request) in
  if negb (String.eqb (User.auth_token user) password_hash)
  then Raise (HTTPException 401 "Invalid credentials") else
  token <- create_token sha256_hexdigest jwt_secret (User.id user) (User.email user) ;;
  perform (SetCookie "token2" token) ;;
  perform (SetCookie "uid2" (Py.str (User.id user))) ;;
  Ret (VDict [("status", VStr "ok");
              ("success", VBool true);
              ("token", VStr token);
              ("user_id", VInt (User.id user));
              ("data", VDict [("uid", VInt (User.id user));
                              ("email", VStr (User.email user))])]).

End Login.

(** The body of a successful POST /auth/new or POST /auth/login. *)
Definition auth_body (token : string) (user : User.t) : value :=
  VDict [("status", VStr "ok");
         ("success", VBool true);
         ("token", VStr token);
         ("user_id", VInt (User.id user));
         ("data", VDict [("uid", VInt (User.id user));
                         ("email", VStr (User.email user))])].

(** The cookies set during a run, in order. *)
Fixpoint cookies_set (events : list event) : list (string * string) :=
  match events with
  | [] => []
  | Event e :: events' =>
      match e with
      | SetCookie key cookie => (key, cookie) :: cookies_set events'
      | _ => cookies_set events'
      end
  end.

(** No two user rows share an email. *)
Definition emails_unique (s : MemDb.t) : Prop :=
  NoDup (map User.email (MemDb.users s)).

(** The value a decimal numeral stands for, read most significant digit
    first on top of [acc]. *)
Fixpoint uint_value (d : Decimal.uint) (acc : Z) : Z :=
  match d with
  | Decimal.Nil => acc
  | Decimal.D0 d' => uint_value d' (10 * acc + 0)
  | Decimal.D1 d' => uint_value d' (10 * acc + 1)
  | Decimal.D2 d' => uint_value d' (10 * acc + 2)
  | Decimal.D3 d' => uint_value d' (10 * acc + 3)
  | Decimal.D4 d' => uint_value d' (10 * acc + 4)
  | Decimal.D5 d' => uint_value d' (10 * acc + 5)
  | Decimal.D6 d' => uint_value d' (10 * acc + 6)
  | Decimal.D7 d' => uint_value d' (10 * acc + 7)
  | Decimal.D8 d' => uint_value d' (10 * acc + 8)
  | Decimal.D9 d' => uint_value d' (10 * acc + 9)
  end.

(** An ASCII string without white space. *)
Fixpoint spaceless (s : string) : bool :=
  match s with
  | EmptyString => true
  | String c s' =>
      ((Py.byte c <? 128)%N && negb (Py.isspace_ascii c) && spaceless s')%bool
  end.

(** An invite code, "gone", whose conversation row is missing. *)
Definition orphan : MemDb.t :=
  MemDb.mk
    [User.mk 1 "alice@example.com" "5e88" false None]
    []
    [Zinvite.mk 9 "gone"]
    [] [] [] []
    (mkDatetime "2025-01-01T00:00:00") [] [].

(** A conversation row with its archive flag set to [b]. *)
Definition archived (b : bool) (c : Conversation.t) : Conversation.t :=
  Conversation.mk (Conversation.id c) (Conversation.title c)
    (Conversation.description c) b (Conversation.user_id c)
    (Conversation.created c) (Conversation.settings c).

(** The request of a PUT /conversations that only names the conversation. *)
Definition bare_update (conversation_id : string) : ConversationUpdateRequest.t :=
  ConversationUpdateRequest.mk conversation_id None None None None None None None
    None None None None None None None None.

(** The dictionary PUT /conversations builds from the three fields it reads. *)
Definition conversation_patch (request : ConversationUpdateRequest.t) : dict :=
  (match ConversationUpdateRequest.topic request with
   | Some topic => [("title", VStr topic)] | None => [] end
   ++ match ConversationUpdateRequest.description request with
      | Some description => [("description", VStr description)] | None => [] end
   ++ match ConversationUpdateRequest.is_active request with
      | Some is_active => [("is_archived", VBool (negb is_active))] | None => [] end)%list.

(** A comment the user may still be offered: no vote of theirs on it, and
    not moderated out. *)
Definition eligible (s : MemDb.t) (uid : Z) (c : Comment.t) : bool :=
  (negb (Py.truthy_opt (MemDb.get_vote_by_user_comment s uid (Comment.id c)))
   && (0 <=? Comment.moderation_status c))%bool.

(** How GET /nextComment renders a comment. *)
Definition next_comment_entry (c : Comment.t) : value :=
  VDict [("tid", VInt (Comment.id c));
         ("txt", VStr (Comment.text_field c));
         ("pid", VInt (Comment.user_id c));
         ("created", iso_or_none (Comment.created c))].

(** How GET /comments renders a comment. *)
Definition comment_entry (c : Comment.t) : value :=
  VDict [("tid", VInt (Comment.id c));
         ("txt", VStr (Comment.text_field c));
         ("pid", VInt (Comment.user_id c));
         ("created", iso_or_none (Comment.created c));
         ("mod", VInt (Comment.moderation_status c));
         ("is_seed", VBool false)].

(** How GET /votes/me renders the user's vote on a comment, if there is one. *)
Definition my_vote_entry (s : MemDb.t) (uid : Z) (c : Comment.t) : list value :=
  match MemDb.get_vote_by_user_comment s uid (Comment.id c) with
  | Some vote => [VDict [("tid", VInt (Comment.id c));
                         ("vote", VInt (Vote.value vote));
                         ("created", iso_or_none (Vote.created vote))]]
  | None => []
  end.

(** The "tid" of a response's data. *)
Definition offered_tid (r : PolisResponse) : value := payload_field r "tid".

(** A key of a JSON object. *)
Definition value_field (v : value) (key : string) : value :=
  match v with
  | VDict d => dict_get d key VNone
  | _ => VNone
  end.

(** How GET /participationInit renders a vote of the user. *)
Definition init_vote_entry (conversation_id : string) (v : Vote.t) : value :=
  VDict [("tid", VInt (Vote.comment_id v));
         ("vote", VInt (Vote.value v));
         ("conversation_id", VStr conversation_id)].

(** A database where alice has also voted on comment 8, which belongs to
    another conversation (invite code "xyz"). *)
Definition two_conversations : MemDb.t :=
  MemDb.mk
    [User.mk 1 "alice@example.com" "5e88" false None]
    [Conversation.mk 1 "Parks" None false 1 None None;
     Conversation.mk 2 "Roads" None false 1 None None]
    [Zinvite.mk 1 "abc"; Zinvite.mk 2 "xyz"]
    [Participant.mk 1 1 1 1 None; Participant.mk 2 2 1 1 None] []
    [Comment.mk 7 "More trees" 1 1 0 None; Comment.mk 8 "Fewer cars" 1 2 0 None]
    [Vote.mk 1 1 7 1 None; Vote.mk 2 1 8 (-1) None]
    (mkDatetime "2025-01-01T00:00:00") [] [].

(** * The handlers that call further methods of [DatabaseActor]

    POST /auth/deregister, POST /auth/password, PUT /users,
    POST /conversations, PUT /comments, GET and POST /zinvites/{zid}
    (core.py, lines 357-408, 432-450, 524-559, 888-915 and 1068-1099). *)

(** ** Further calls and effects *)

Module DatabaseActorMore.
Inductive call : Type -> Type :=
| update_user (uid : Z) (data : dict) : call (option User.t)
| delete_user (uid : Z) : call unit
| create_conversation (data : dict) : call Conversation.t
| read_comment (tid : Z) : call (option Comment.t)
| update_comment (tid : Z) (data : dict) : call (option Comment.t)
| get_or_create_zinvite (zid : Z) : call Zinvite.t
| delete_zinvites_by_zid (zid : Z) : call unit.
End DatabaseActorMore.

(** The effects of these handlers: those of [Eff], the further calls, and
    [response.delete_cookie(key)]. *)
Inductive Eff2 : Type -> Type :=
| Base {X : Type} (e : Eff X) : Eff2 X
| DbMore {X : Type} (c : DatabaseActorMore.call X) : Eff2 X
| DeleteCookie (key : string) : Eff2 unit.

Inductive Prog2 (A : Type) : Type :=
| Ret2 (a : A)
| Raise2 (e : exn)
| Vis2 {X : Type} (e : Eff2 X) (k : X -> Prog2 A).

Arguments Ret2 {A} a.
Arguments Raise2 {A} e.
Arguments Vis2 {A X} e k.

Fixpoint bind2 {A B : Type} (p : Prog2 A) (f : A -> Prog2 B) : Prog2 B :=
  match p with
  | Ret2 a => f a
  | Raise2 e => Raise2 e
  | Vis2 e k => Vis2 e (fun x => bind2 (k x) f)
  end.

Definition perform2 {X : Type} (e : Eff2 X) : Prog2 X := Vis2 e Ret2.
Definition db_more {X : Type} (c : DatabaseActorMore.call X) : Prog2 X :=
  perform2 (DbMore c).

(** A program over [Eff], run where the further effects are available. *)
Fixpoint lift {A : Type} (p : Prog A) : Prog2 A :=
  match p with
  | Ret a => Ret2 a
  | Raise e => Raise2 e
  | Vis e k => Vis2 (Base e) (fun x => lift (k x))
  end.

Declare Scope prog2_scope.
Delimit Scope prog2_scope with prog2.
Notation "x <- c ;; k" := (bind2 c (fun x => k))
  (at level 61, c at next level, right associativity) : prog2_scope.
Notation "c ;; k" := (bind2 c (fun _ => k))
  (at level 61, right associativity) : prog2_scope.

Inductive event2 : Type :=
| Event2 (X : Type) (e : Eff2 X).

Arguments Event2 {X} e.

Record World2 : Type := mkWorld2 {
  St2 : Type;
  answer2 : forall X : Type, Eff2 X -> St2 -> X * St2
}.

Arguments answer2 w {X} e s.

Record Run2 (S A : Type) : Type := mkRun2 {
  outcome2 : exn + A;
  final2 : S;
  log2 : list event2
}.
Arguments mkRun2 {S A}.
Arguments outcome2 {S A}.
Arguments final2 {S A}.
Arguments log2 {S A}.

Fixpoint run2 (w : World2) {A : Type} (p : Prog2 A) (s : St2 w) : Run2 (St2 w) A :=
  match p with
  | Ret2 a => mkRun2 (inr a) s []
  | Raise2 e => mkRun2 (inl e) s []
  | Vis2 e k =>
      let '(x, s') := answer2 w e s in
      let r := run2 w (k x) s' in
      mkRun2 (outcome2 r) (final2 r) (Event2 e :: log2 r)
  end.

(** ** Request bodies (core.py, lines 65-71 and 109-124) *)

Module AuthDeregisterRequest.
Record t : Type := mk { password : string }.
End AuthDeregisterRequest.

Module PasswordChangeRequest.
Record t : Type := mk { current_password : string; new_password : string }.
End PasswordChangeRequest.

Module ConversationCreateRequest.
Record t : Type := mk {
  topic : option string;
  description : option string;
  is_active : bool;
  is_anon : bool;
  is_draft : bool;
  is_data_open : bool;
  owner_sees_participation_stats : bool;
  profanity_filter : bool;
  spam_filter : bool;
  strict_moderation : bool;
  vis_type : Z;
  help_type : Z;
  write_type : Z;
  bgcolor : option string;
  help_color : option string
}.
End ConversationCreateRequest.

Section MoreHandlers.

Local Open Scope prog2_scope.

(** [hashlib.sha256(s.encode()).hexdigest()], as for registration. *)
Variable sha256_hexdigest : string -> string.

(** ** Deregister and change password (core.py, lines 357-408) *)

Definition deregister (user : UserDict.t) (request : option AuthDeregisterRequest.t)
  : Prog2 PolisResponse :=
  match (match request with
         | Some r => if Py.truthy_str (AuthDeregisterRequest.password r)
                     then Some r else None
         | None => None
         end) with
  | None =>
      perform2 (DeleteCookie "token2") ;;
      perform2 (DeleteCookie "uid2") ;;
      Ret2 (ok (VDict [("logged_out", VBool true)]))
  | Some request =>
      let password_hash := sha256_hexdigest (AuthDeregisterRequest.password request) in
      user_obj <- lift (db (DatabaseActor.read_user (UserDict.uid user))) ;;
      if (match user_obj with
          | None => true
          | Some u => negb (String.eqb (User.auth_token u) password_hash)
          end)
      then Raise2 (HTTPException 401 "Invalid password") else
      db_more (DatabaseActorMore.delete_user (UserDict.uid user)) ;;
      perform2 (DeleteCookie "token2") ;;
      perform2 (DeleteCookie "uid2") ;;
      Ret2 (ok (VDict [("deleted", VBool true)]))
  end.

Definition change_password (request : PasswordChangeRequest.t) (user : UserDict.t)
  : Prog2 PolisResponse :=
  user_obj <- lift (db (DatabaseActor.read_user (UserDict.uid user))) ;;
  user_obj <- lift (or_raise user_obj (HTTPException 404 "User not found")) ;;
  let current_hash :=
    sha256_hexdigest (PasswordChangeRequest.current_password request) in
  if negb (String.eqb (User.auth_token user_obj) current_hash)
  then Raise2 (HTTPException 401 "Invalid current password") else
  let new_hash := sha256_hexdigest (PasswordChangeRequest.new_password request) in
  db_more (DatabaseActorMore.update_user (UserDict.uid user)
             [("auth_token", VStr new_hash)]) ;;
  Ret2 (ok (VDict [("changed", VBool true)])).

End MoreHandlers.

Section MoreHandlers2.

Local Open Scope prog2_scope.

(** ** Update user (core.py, lines 432-450) *)

Definition update_user (email name : option string) (user : UserDict.t)
  : Prog2 PolisResponse :=
  let update_data : dict :=
    match email with
    | Some e => if Py.truthy_str e then [("email", VStr e)] else []
    | None => []
    end in
  match update_data with
  | [] => Raise2 (HTTPException 400 "No update data provided")
  | _ :: _ =>
      updated <- db_more (DatabaseActorMore.update_user (UserDict.uid user) update_data) ;;
      updated <- lift (attr_of updated "id") ;;
      Ret2 (ok (VDict [("uid", VInt (User.id updated));
                       ("email", VStr (User.email updated))]))
  end.

(** ** Create conversation (core.py, lines 524-559) *)

Definition create_conversation (request : ConversationCreateRequest.t)
    (user : UserDict.t) : Prog2 value :=
  let settings : dict := [
    ("is_draft", VBool (ConversationCreateRequest.is_draft request));
    ("is_anon", VBool (ConversationCreateRequest.is_anon request));
    ("is_data_open", VBool (ConversationCreateRequest.is_data_open request))] in
  conv <- db_more (DatabaseActorMore.create_conversation [
    ("title", VStr (match ConversationCreateRequest.topic request with
                    | Some t => if Py.truthy_str t then t else "Untitled Conversation"
                    | None => "Untitled Conversation"
                    end));
    ("description", opt_str (ConversationCreateRequest.description request));
    ("user_id", VInt (UserDict.uid user));
    ("is_archived", VBool (negb (ConversationCreateRequest.is_active request)));
    ("settings", VDict settings)]) ;;
  zinvite_obj <- lift (db (DatabaseActor.create_zinvite
                             [("zid", VInt (Conversation.id conv))])) ;;
  Ret2 (VDict [
    ("status", VStr "ok");
    ("conversation_id", VStr (Zinvite.zinvite zinvite_obj));
    ("topic", VStr (Conversation.title conv));
    ("description", opt_str (Conversation.description conv));
    ("is_active", VBool (negb (Conversation.is_archived conv)));
    ("is_draft", VBool (ConversationCreateRequest.is_draft request));
    ("owner", VInt (Conversation.user_id conv));
    ("created", iso_or_none (Conversation.created conv))]).

(** ** Update comment (core.py, lines 888-915) *)

Definition update_comment (tid : Z) (mod_ : option Z) (user : UserDict.t)
  : Prog2 PolisResponse :=
  comment <- db_more (DatabaseActorMore.read_comment tid) ;;
  comment <- lift (or_raise comment (HTTPException 404 "Comment not found")) ;;
  let update_data : dict :=
    match mod_ with
    | Some m => [("moderation_status", VInt m)]
    | None => []
    end in
  match update_data with
  | _ :: _ =>
      updated <- db_more (DatabaseActorMore.update_comment tid update_data) ;;
      updated <- lift (attr_of updated "id") ;;
      Ret2 (ok (VDict [("tid", VInt (Comment.id updated));
                       ("mod", VInt (Comment.moderation_status updated))]))
  | [] => Ret2 (ok (VDict [("tid", VInt tid)]))
  end.

(** ** Zinvites (core.py, lines 1068-1099) *)

Definition get_zinvite (zid : Z) (user : UserDict.t) : Prog2 PolisResponse :=
  conv <- lift (db (DatabaseActor.read_conversation zid)) ;;
  conv <- lift (or_raise conv not_found) ;;
  zinvite <- db_more (DatabaseActorMore.get_or_create_zinvite zid) ;;
  Ret2 (ok (VDict [("zinvite", VStr (Zinvite.zinvite zinvite))])).

Definition create_zinvite (zid : Z) (user : UserDict.t) : Prog2 PolisResponse :=
  conv <- lift (db (DatabaseActor.read_conversation zid)) ;;
  conv <- lift (or_raise conv not_found) ;;
  if not_authorized conv user then Raise2 forbidden else
  db_more (DatabaseActorMore.delete_zinvites_by_zid zid) ;;
  zinvite <- lift (db (DatabaseActor.create_zinvite [("zid", VInt zid)])) ;;
  Ret2 (ok (VDict [("zinvite", VStr (Zinvite.zinvite zinvite))])).

End MoreHandlers2.

(** ** The in-memory persistence actor, with the further calls *)

(** The further methods on the tables of [MemDb], on the same terms: an
    update by key rewrites the fields given, a delete by key drops the
    matching rows. *)
Module MemDbMore.

Definition patch_user (data : dict) (u : User.t) : User.t :=
  User.mk (User.id u)
    (match dict_get data "email" VNone with
     | VStr x => x | _ => User.email u end)
    (match dict_get data "auth_token" VNone with
     | VStr x => x | _ => User.auth_token u end)
    (User.is_admin u) (User.created u).

Definition update_user (s : MemDb.t) (uid : Z) (data : dict)
  : option User.t * MemDb.t :=
  let rows := map (fun u => if User.id u =? uid then patch_user data u else u)
                  (MemDb.users s) in
  (find (fun u => User.id u =? uid) rows, MemDb.with_users s rows).

Definition delete_user (s : MemDb.t) (uid : Z) : MemDb.t :=
  MemDb.with_users s (filter (fun u => negb (User.id u =? uid)) (MemDb.users s)).

Definition create_conversation (s : MemDb.t) (data : dict)
  : Conversation.t * MemDb.t :=
  let c := Conversation.mk
             (MemDb.next_id (map Conversation.id (MemDb.conversations s)))
             (MemDb.str_of data "title")
             (match dict_get data "description" VNone with
              | VStr x => Some x | _ => None end)
             (match dict_get data "is_archived" VNone with
              | VBool b => b | _ => false end)
             (MemDb.int_of data "user_id")
             (Some (MemDb.clock s))
             (match dict_get data "settings" VNone with
              | VDict d => Some d | _ => None end) in
  (c, MemDb.with_conversations s (MemDb.conversations s ++ [c])%list).

Definition read_comment (s : MemDb.t) (tid : Z) : option Comment.t :=
  find (fun c => Comment.id c =? tid) (MemDb.comments s).

Definition patch_comment (data : dict) (c : Comment.t) : Comment.t :=
  Comment.mk (Comment.id c) (Comment.text_field c) (Comment.user_id c)
    (Comment.conversation_id c)
    (match dict_get data "moderation_status" VNone with
     | VInt m => m | _ => Comment.moderation_status c end)
    (Comment.created c).

Definition update_comment (s : MemDb.t) (tid : Z) (data : dict)
  : option Comment.t * MemDb.t :=
  let rows := map (fun c => if Comment.id c =? tid then patch_comment data c else c)
                  (MemDb.comments s) in
  (find (fun c => Comment.id c =? tid) rows, MemDb.with_comments s rows).

Definition get_or_create_zinvite (s : MemDb.t) (zid : Z) : Zinvite.t * MemDb.t :=
  match MemDb.get_zinvite_by_zid s zid with
  | Some z => (z, s)
  | None => MemDb.create_zinvite s [("zid", VInt zid)]
  end.

Definition delete_zinvites_by_zid (s : MemDb.t) (zid : Z) : MemDb.t :=
  MemDb.with_zinvites s
    (filter (fun z => negb (Zinvite.zid z =? zid)) (MemDb.zinvites s)).

Definition call {X : Type} (c : DatabaseActorMore.call X) (s : MemDb.t) : X * MemDb.t :=
  match c in DatabaseActorMore.call X return X * MemDb.t with
  | DatabaseActorMore.update_user uid data => update_user s uid data
  | DatabaseActorMore.delete_user uid => (tt, delete_user s uid)
  | DatabaseActorMore.create_conversation data => create_conversation s data
  | DatabaseActorMore.read_comment tid => (read_comment s tid, s)
  | DatabaseActorMore.update_comment tid data => update_comment s tid data
  | DatabaseActorMore.get_or_create_zinvite zid => get_or_create_zinvite s zid
  | DatabaseActorMore.delete_zinvites_by_zid zid => (tt, delete_zinvites_by_zid s zid)
  end.

(** [delete_cookie] takes the cookie out of the jar. *)
Definition answer {X : Type} (e : Eff2 X) (s : MemDb.t) : X * MemDb.t :=
  match e in Eff2 X return X * MemDb.t with
  | Base e => MemDb.answer e s
  | DbMore c => call c s
  | DeleteCookie key =>
      (tt, MemDb.with_cookies s
             (filter (fun c => negb (String.eqb (fst c) key)) (MemDb.cookies s)))
  end.

Definition world : World2 := mkWorld2 MemDb.t (@answer).

End MemDbMore.

(** ** The vocabulary of the properties of these handlers *)

(** The writes to the persistence actor during a run of these handlers. *)
Fixpoint writes2 (events : list event2) : list event2 :=
  match events with
  | [] => []
  | Event2 e :: events' =>
      match e with
      | Base e' =>
          match writes [Event e'] with
          | [] => writes2 events'
          | _ :: _ => Event2 e :: writes2 events'
          end
      | DbMore c =>
          match c with
          | DatabaseActorMore.read_comment _ => writes2 events'
          | _ => Event2 e :: writes2 events'
          end
      | DeleteCookie _ => writes2 events'
      end
  end.

(** The cookies deleted during a run, in order. *)
Fixpoint cookies_deleted (events : list event2) : list string :=
  match events with
  | [] => []
  | Event2 e :: events' =>
      match e with
      | DeleteCookie key => key :: cookies_deleted events'
      | _ => cookies_deleted events'
      end
  end.


(** * Properties *)

Example vote_then_revote :
  let r1 := run MemDb.world (create_vote "abc" 7 1 alice) demo in
  let r2 := run MemDb.world (create_vote "abc" 7 (-1) alice) (final r1) in
  outcome r1 = inr (ok (VDict [("vid", VInt 1); ("pid", VInt 1);
                               ("tid", VInt 7); ("vote", VInt 1)]))
  /\ outcome r2 = inr (ok (VDict [("vid", VInt 1); ("pid", VInt 1);
                                  ("tid", VInt 7); ("vote", VInt (-1))]))
  /\ map Vote.value (MemDb.votes (final r2)) = [-1]
  /\ map Participant.vote_count (MemDb.participants (final r2)) = [1].
Proof. repeat split; reflexivity. Qed.

Example int_examples :
  Py.int " 42 " = Some 42 /\ Py.int "-7" = Some (-7) /\ Py.int "1_000" = Some 1000
  /\ Py.int "" = None /\ Py.int "4x" = None /\ Py.int "1__0" = None
  /\ Py.str (-12) = "-12" /\ Py.str 0 = "0" /\ Py.strip "  a b  " = "a b".
Proof. repeat split; reflexivity. Qed.

(** White space beyond ASCII: the no-break space U+00A0, the ideographic
    space U+3000 and the unit separator U+001F are stripped by [str.strip()];
    [int()] skips the first two and refuses the third; and it reads the
    decimal digits of other scripts. *)
Example unicode_examples :
  let nbsp := String (ascii_of_nat 194) (String (ascii_of_nat 160) "") in
  let ideographic := String (ascii_of_nat 227) (String (ascii_of_nat 128)
                       (String (ascii_of_nat 128) "")) in
  let unit_separator := String (ascii_of_nat 31) "" in
  let arabic_four := String (ascii_of_nat 217) (String (ascii_of_nat 164) "") in
  let arabic_two := String (ascii_of_nat 217) (String (ascii_of_nat 162) "") in
  Py.strip nbsp = "" /\ Py.strip (ideographic ++ "a" ++ unit_separator) = "a"
  /\ Py.strip (String (ascii_of_nat 160) "") = ""
  /\ Py.int (nbsp ++ "42") = Some 42 /\ Py.int ("42" ++ ideographic) = Some 42
  /\ Py.int ("42" ++ unit_separator) = None
  /\ Py.int (unit_separator ++ "42") = None
  /\ Py.int (arabic_four ++ arabic_two) = Some 42
  /\ Py.take 2 (nbsp ++ "42") = nbsp ++ "4" /\ Py.drop 1 (nbsp ++ "42") = "42".
Proof. repeat split; reflexivity. Qed.

Example routing_examples :
  resolve POST "/votes" = Handled "create_vote"
  /\ resolve GET "/zinvites/12" = Handled "get_zinvite"
  /\ resolve PUT "/votes" = MethodNotAllowed
  /\ resolve GET "/math/pca2" = Handled "get_pca2".
Proof. repeat split; reflexivity. Qed.

Example handlers_on_demo :
  outcome (run MemDb.world (get_next_comment "abc" alice) demo)
  = inr (ok (VDict [("tid", VInt 7); ("txt", VStr "More trees");
                    ("pid", VInt 1); ("created", VNone)]))
  /\ outcome (run MemDb.world (get_next_comment "abc" alice) voted)
     = inr (ok VNone)
  /\ outcome (run MemDb.world (get_votes "abc" None) voted)
     = inr (ok (VList [VDict [("vid", VInt 1); ("pid", VInt 1); ("tid", VInt 7);
                              ("vote", VInt 1); ("created", VNone)]]))
  /\ outcome (run MemDb.world (get_conversation_stats "abc" None) voted)
     = inr (ok (VDict [("participant_count", VInt 1); ("comment_count", VInt 1)]))
  /\ outcome (run MemDb.world (close_conversation "abc" (UserDict.mk 2 "eve@example.com" false)) demo)
     = inl (HTTPException 403 "Not authorized")
  /\ outcome (run MemDb.world (create_comment alice (Some "abc") (Some "   ") None) demo)
     = inl (HTTPException 400 "Comment text required")
  /\ outcome (run MemDb.world (get_current_user (Some "Bearer ") (Some "t") None) demo)
     = inr None.
Proof. repeat split; reflexivity. Qed.

(** A registration on the empty database, with a stand-in for SHA-256:
    the row that is stored carries the email and the hash, whatever the name. *)
Example register_on_empty :
  let sha := fun s : string => "sha256(" ++ s ++ ")" in
  let r := run MemDb.world
               (register_user sha "secret"
                  (AuthNewRequest.mk "bob@example.com" "pw" (Some "Bob") None None))
               MemDb.empty in
  MemDb.users (final r)
  = [User.mk 1 "bob@example.com" "sha256(pw)" false (Some (MemDb.clock MemDb.empty))]
  /\ map fst (MemDb.cookies (final r)) = ["token2"; "uid2"]
  /\ writes (log r)
     = [Event (Db (DatabaseActor.create_user
                     [("email", VStr "bob@example.com");
                      ("auth_token", VStr "sha256(pw)")]))].
Proof. repeat split; reflexivity. Qed.

(** ** Running compound programs *)

Lemma run_bind (w : World) {A B : Type} (p : Prog A) (f : A -> Prog B) :
  forall s : St w,
    run w (bind p f) s = then_run (run w p s) (fun a s' => run w (f a) s').
Proof.
  induction p as [a | e | X e k IH]; intros s; simpl.
  - unfold then_run; simpl. destruct (run w (f a) s); reflexivity.
  - reflexivity.
  - destruct (answer w e s) as [x s']. rewrite IH. unfold then_run; simpl.
    destruct (outcome (run w (k x) s')); reflexivity.
Qed.

(** A handler that starts by resolving its conversation stops right there
    with the 404 when the lookup comes back falsy. *)
Lemma run_unknown_conversation (w : World) {A : Type} (conversation_id : string)
    (e : exn) (k : Z -> Prog A) (s : St w) (z : option Z) :
  answer w (lookup conversation_id) s = (z, s) ->
  Py.truthy_opt_int z = false ->
  run w (zid <- db (DatabaseActor.get_zid_by_zinvite conversation_id) ;;
         zid <- or_raise_int zid e ;; k zid) s
  = mkRun (inl e) s [Event (lookup conversation_id)].
Proof.
  intros Hz Hfalsy. unfold lookup in Hz. simpl. rewrite Hz.
  destruct z as [z |]; simpl in *; [rewrite Hfalsy |]; reflexivity.
Qed.

(** ... and goes on with the zid when the lookup comes back truthy. *)
Lemma run_known_conversation (w : World) {A : Type} (conversation_id : string)
    (e : exn) (k : Z -> Prog A) (s : St w) (zid : Z) :
  fst (answer w (lookup conversation_id) s) = Some zid ->
  zid <> 0 ->
  run w (zid <- db (DatabaseActor.get_zid_by_zinvite conversation_id) ;;
         zid <- or_raise_int zid e ;; k zid) s
  = let r := run w (k zid) (snd (answer w (lookup conversation_id) s)) in
    mkRun (outcome r) (final r) (Event (lookup conversation_id) :: log r).
Proof.
  intros Hz Hnz. unfold lookup in *. simpl.
  destruct (answer w (Db (DatabaseActor.get_zid_by_zinvite conversation_id)) s)
    as [z s'].
  simpl in Hz. subst z. simpl.
  destruct (Z.eqb_spec zid 0) as [-> | _]; [contradiction | reflexivity].
Qed.


(** ** C1: the PCA endpoints are stubs *)

(** C1.  For every conversation_id that the persistence actor resolves to a
    zid (a truthy one: row ids are never 0), in every world and state,
    GET /math/pca returns status "ok" with data exactly
    {commentProjection: [], ptptotProjection: [], baseCluster: [],
    groupAware: false}, and GET /math/pca2 returns status "ok" with data
    exactly {pca: {commentProjection: [], ptptotProjection: [],
    baseClusters: []}}.  Nothing is computed: the only effect either handler
    performs is the lookup of the conversation. *)
Theorem pca_endpoints_return_empty_stubs :
  forall (w : World) (s : St w) (conversation_id : string)
         (user : option UserDict.t) (zid : Z),
    fst (answer w (lookup conversation_id) s) = Some zid ->
    zid <> 0 ->
    outcome (run w (get_pca conversation_id user) s)
    = inr {| status := "ok";
             data := VDict [("commentProjection", VList []);
                            ("ptptotProjection", VList []);
                            ("baseCluster", VList []);
                            ("groupAware", VBool false)];
             error := None |}
    /\ outcome (run w (get_pca2 conversation_id user) s)
       = inr {| status := "ok";
                data := VDict [("pca", VDict [("commentProjection", VList []);
                                              ("ptptotProjection", VList []);
                                              ("baseClusters", VList [])])];
                error := None |}
    /\ log (run w (get_pca conversation_id user) s) = [Event (lookup conversation_id)]
    /\ log (run w (get_pca2 conversation_id user) s) = [Event (lookup conversation_id)].
Proof.
  intros w s cid user zid Hz Hnz. unfold get_pca, get_pca2.
  rewrite !(run_known_conversation w cid _ _ s zid Hz Hnz). simpl.
  repeat split; reflexivity.
Qed.

Lemma pca_endpoints_return_empty_stubs_witness :
  outcome (run MemDb.world (get_pca "abc" None) demo) = inr pca_stub
  /\ outcome (run MemDb.world (get_pca2 "abc" None) demo) = inr pca2_stub
  /\ log (run MemDb.world (get_pca "abc" None) demo) = [Event (lookup "abc")]
  /\ log (run MemDb.world (get_pca2 "abc" None) demo) = [Event (lookup "abc")].
Proof.
  apply (pca_endpoints_return_empty_stubs MemDb.world demo "abc" None 1).
  - reflexivity.
  - lia.
Defined.

(** ** C2: an unknown conversation is a 404 that changes nothing *)




(** ** C7: the vote value is checked first *)

Lemma vote_allowed_spec (vote : Z) :
  vote_allowed vote = true <-> vote = -1 \/ vote = 0 \/ vote = 1.
Proof.
  unfold vote_allowed; simpl. rewrite !orb_true_iff, !Z.eqb_eq. intuition discriminate.
Qed.

(** C7.  For every vote value outside {-1, 0, 1}, whatever the conversation,
    comment and user, [create_vote] is the program that raises
    HTTPException(400, "Vote must be -1, 0, or 1") at once: run in any world
    from any state it performs no effect at all (so the conversation is not
    resolved, no participant or vote is created or updated) and leaves the
    state as it was. *)
Theorem invalid_vote_rejected_before_any_effect :
  forall (conversation_id : string) (tid vote : Z) (user : UserDict.t),
    ~ (vote = -1 \/ vote = 0 \/ vote = 1) ->
    create_vote conversation_id tid vote user
      = Raise (HTTPException 400 "Vote must be -1, 0, or 1")
    /\ forall (w : World) (s : St w),
         let r := run w (create_vote conversation_id tid vote user) s in
         outcome r = inl (HTTPException 400 "Vote must be -1, 0, or 1")
         /\ final r = s
         /\ log r = [].
Proof.
  intros cid tid vote user Hvote.
  assert (Hno : vote_allowed vote = false).
  { destruct (vote_allowed vote) eqn:E; [| reflexivity].
    apply vote_allowed_spec in E. contradiction. }
  assert (Hprog : create_vote cid tid vote user
                  = Raise (HTTPException 400 "Vote must be -1, 0, or 1")).
  { unfold create_vote. rewrite Hno. reflexivity. }
  split; [exact Hprog |].
  intros w s. rewrite Hprog. simpl. repeat split; reflexivity.
Qed.

Lemma invalid_vote_rejected_before_any_effect_witness :
  create_vote "abc" 7 2 alice = Raise (HTTPException 400 "Vote must be -1, 0, or 1")
  /\ let r := run MemDb.world (create_vote "abc" 7 2 alice) demo in
     outcome r = inl (HTTPException 400 "Vote must be -1, 0, or 1")
     /\ final r = demo
     /\ log r = [].
Proof.
  destruct (invalid_vote_rejected_before_any_effect "abc" 7 2 alice) as [Hprog Hrun].
  - lia.
  - split; [exact Hprog | exact (Hrun MemDb.world demo)].
Defined.

(** ** C8: the PCA endpoints are deterministic *)

(** C8.  In a world whose zinvite lookup leaves the state [s] as it is (the
    database snapshot stays fixed), calling GET /math/pca and then calling it
    again, for the same conversation and whoever the callers are, yields the
    same outcome twice and still the state [s]; the same holds for
    GET /math/pca2. *)
Theorem pca_repeated_calls_agree :
  forall (w : World) (s : St w) (conversation_id : string)
         (user user' : option UserDict.t),
    snd (answer w (lookup conversation_id) s) = s ->
    let first := run w (get_pca conversation_id user) s in
    let second := run w (get_pca conversation_id user') (final first) in
    let first2 := run w (get_pca2 conversation_id user) s in
    let second2 := run w (get_pca2 conversation_id user') (final first2) in
    final first = s /\ outcome second = outcome first /\ final second = s
    /\ final first2 = s /\ outcome second2 = outcome first2 /\ final second2 = s.
Proof.
  intros w s cid user user' Hro.
  assert (Hpca : forall u, final (run w (get_pca cid u) s) = s
                           /\ outcome (run w (get_pca cid u) s)
                              = outcome (run w (get_pca cid None) s)).
  { intros u. unfold get_pca, lookup in *. simpl.
    destruct (answer w (Db (DatabaseActor.get_zid_by_zinvite cid)) s) as [z s'].
    simpl in Hro. subst s'.
    destruct z as [z |]; simpl; [destruct (z =? 0) |]; simpl; split; reflexivity. }
  assert (Hpca2 : forall u, final (run w (get_pca2 cid u) s) = s
                            /\ outcome (run w (get_pca2 cid u) s)
                               = outcome (run w (get_pca2 cid None) s)).
  { intros u. unfold get_pca2, lookup in *. simpl.
    destruct (answer w (Db (DatabaseActor.get_zid_by_zinvite cid)) s) as [z s'].
    simpl in Hro. subst s'.
    destruct z as [z |]; simpl; [destruct (z =? 0) |]; simpl; split; reflexivity. }
  cbv zeta.
  destruct (Hpca user) as [F1 O1], (Hpca user') as [F1' O1'].
  destruct (Hpca2 user) as [F2 O2], (Hpca2 user') as [F2' O2'].
  rewrite F1, F2, F1', F2', O1, O1', O2, O2'. repeat split; reflexivity.
Qed.

Lemma pca_repeated_calls_agree_witness :
  let first := run MemDb.world (get_pca "abc" None) demo in
  let second := run MemDb.world (get_pca "abc" (Some alice)) (final first) in
  let first2 := run MemDb.world (get_pca2 "abc" None) demo in
  let second2 := run MemDb.world (get_pca2 "abc" (Some alice)) (final first2) in
  final first = demo /\ outcome second = outcome first /\ final second = demo
  /\ final first2 = demo /\ outcome second2 = outcome first2 /\ final second2 = demo.
Proof.
  apply (pca_repeated_calls_agree MemDb.world demo "abc" None (Some alice)).
  reflexivity.
Defined.

(** ** C5: there is no correlation-matrix route *)

(** C5 (the code against the spec).  The router has no route for
    /math/correlationMatrix, under any method: the request is answered 404
    by the framework and no handler runs, whereas the spec, and
    tests/test_correlationMatrix.py, expect a 200 with the matrix. *)
Theorem correlation_matrix_is_not_routed :
  forall m : method, resolve m "/math/correlationMatrix" = NoRoute.
Proof. intros m; destruct m; reflexivity. Qed.

(** ** C9: a conversation without votes *)

(** C9, as amended.  For every existing conversation with 0 votes,
    GET /math/pca raises no exception and returns empty commentProjection and
    ptptotProjection arrays and an empty baseCluster array: no cluster at
    all.  GET /math/pca2 does the same under its "pca" key, with an empty
    baseClusters array. *)
Theorem pca_without_votes_is_empty :
  forall (s : MemDb.t) (conversation_id : string) (zid : Z)
         (user : option UserDict.t),
    MemDb.get_zid_by_zinvite s conversation_id = Some zid ->
    zid <> 0 ->
    conversation_votes s zid = [] ->
    exists r r2 : PolisResponse,
      outcome (run MemDb.world (get_pca conversation_id user) s) = inr r
      /\ payload_field r "commentProjection" = VList []
      /\ payload_field r "ptptotProjection" = VList []
      /\ payload_field r "baseCluster" = VList []
      /\ outcome (run MemDb.world (get_pca2 conversation_id user) s) = inr r2
      /\ payload_field r2 "pca"
         = VDict [("commentProjection", VList []);
                  ("ptptotProjection", VList []);
                  ("baseClusters", VList [])].
Proof.
  intros s cid zid user Hz Hnz _. exists pca_stub, pca2_stub.
  unfold get_pca, get_pca2.
  rewrite !(run_known_conversation MemDb.world cid _ _ s zid Hz Hnz).
  repeat split; reflexivity.
Qed.

Lemma pca_without_votes_is_empty_witness :
  exists r r2 : PolisResponse,
    outcome (run MemDb.world (get_pca "abc" None) demo) = inr r
    /\ payload_field r "commentProjection" = VList []
    /\ payload_field r "ptptotProjection" = VList []
    /\ payload_field r "baseCluster" = VList []
    /\ outcome (run MemDb.world (get_pca2 "abc" None) demo) = inr r2
    /\ payload_field r2 "pca"
       = VDict [("commentProjection", VList []);
                ("ptptotProjection", VList []);
                ("baseClusters", VList [])].
Proof.
  apply (pca_without_votes_is_empty demo "abc" 1 None).
  - reflexivity.
  - lia.
  - reflexivity.
Defined.

(** C9 as the spec words it (a single empty cluster) fails: the
    conversation "abc" of [demo] exists and has no votes, and the cluster
    list GET /math/pca returns for it has no element, not one; nor has the
    one GET /math/pca2 returns. *)
Lemma pca_without_votes_has_no_cluster :
  MemDb.get_zid_by_zinvite demo "abc" = Some 1
  /\ conversation_votes demo 1 = []
  /\ ~ (exists (r : PolisResponse) (cluster : value),
          outcome (run MemDb.world (get_pca "abc" None) demo) = inr r
          /\ payload_field r "baseCluster" = VList [cluster])
  /\ ~ (exists (r : PolisResponse) (d : dict) (cluster : value),
          outcome (run MemDb.world (get_pca2 "abc" None) demo) = inr r
          /\ payload_field r "pca" = VDict d
          /\ dict_get d "baseClusters" VNone = VList [cluster]).
Proof.
  repeat split.
  - intros (r & cluster & Hr & Hc). injection Hr as <-. discriminate Hc.
  - intros (r & d & cluster & Hr & Hd & Hc). injection Hr as <-.
    injection Hd as <-. discriminate Hc.
Qed.

(** ** C6: the credential's value does not matter *)

(** C6.  [verify_token] answers 1 whatever the token.  And when a request
    carries a non-empty token (as a Bearer header, or else as the token2
    cookie) and no valid uid2 cookie (none, an empty one, one that is not a
    number, "0", or the id of a user that is not found), [get_current_user]
    returns the identity of user 1, that is the id, email and is_admin of
    the row read under id 1, whenever user 1 exists: a second request with
    another non-empty token gets the same identity.  A cookie that is a
    number is taken to have at most 4300 characters, the longest numeral
    [int()] reads under the interpreter's default limit. *)
Theorem authentication_ignores_token_value :
  forall (w : World) (s s1 : St w) (authorization token2 : option string)
         (authorization' token2' : option string) (uid2 : option string)
         (token token' : string) (user1 : User.t),
    request_token authorization token2 = Some token -> token <> "" ->
    request_token authorization' token2' = Some token' -> token' <> "" ->
    (Py.truthy_opt_int (cookie_uid uid2) = false /\ s1 = s
     \/ exists (u : string) (n : Z),
          uid2 = Some u /\ (String.length u <= 4300)%nat
          /\ cookie_uid uid2 = Some n /\ n <> 0
          /\ answer w (Db (DatabaseActor.read_user n)) s = (None, s1)) ->
    fst (answer w (Db (DatabaseActor.read_user 1)) s1) = Some user1 ->
    verify_token token = Some 1
    /\ verify_token token' = verify_token token
    /\ outcome (run w (get_current_user authorization token2 uid2) s)
       = inr (Some {| UserDict.uid := User.id user1;
                      UserDict.email := User.email user1;
                      UserDict.is_admin := User.is_admin user1 |})
    /\ outcome (run w (get_current_user authorization' token2' uid2) s)
       = outcome (run w (get_current_user authorization token2 uid2) s).
Proof.
  intros w s s1 a t a' t' uid2 tok tok' user1 Ht Hne Ht' Hne' Huid Huser.
  assert (Hrun : forall a0 t0 tok0,
             request_token a0 t0 = Some tok0 -> tok0 <> "" ->
             outcome (run w (get_current_user a0 t0 uid2) s)
             = inr (Some {| UserDict.uid := User.id user1;
                            UserDict.email := User.email user1;
                            UserDict.is_admin := User.is_admin user1 |})).
  { intros a0 t0 tok0 H0 Hne0. unfold get_current_user. rewrite H0.
    destruct tok0 as [| c tok0]; [contradiction |].
    cbn [Py.truthy_opt_str Py.truthy_str negb].
    destruct Huid as [[Hfalsy ->] | (cookie & n & _ & _ & Hn & Hnz & Hmissing)].
    - rewrite Hfalsy.
      assert (Hskip : match cookie_uid uid2 with
                      | Some _ => Ret None
                      | None => Ret None
                      end = @Ret (option User.t) None)
        by (destruct (cookie_uid uid2); reflexivity).
      rewrite Hskip. simpl.
      destruct (answer w (Db (DatabaseActor.read_user 1)) s) as [u s'].
      simpl in Huser. subst u. reflexivity.
    - rewrite Hn. cbn [Py.truthy_opt_int].
      destruct (Z.eqb_spec n 0) as [E | _]; [contradiction |]. simpl.
      rewrite Hmissing. simpl.
      destruct (answer w (Db (DatabaseActor.read_user 1)) s1) as [u s'].
      simpl in Huser. subst u. reflexivity. }
  repeat split.
  - exact (Hrun a t tok Ht Hne).
  - rewrite (Hrun a t tok Ht Hne), (Hrun a' t' tok' Ht' Hne'). reflexivity.
Qed.

Lemma authentication_ignores_token_value_witness :
  (verify_token "s3cret" = Some 1
   /\ verify_token "guess" = verify_token "s3cret"
   /\ outcome (run MemDb.world (get_current_user (Some "Bearer s3cret") None None) demo)
      = inr (Some (UserDict.mk 1 "alice@example.com" false))
   /\ outcome (run MemDb.world (get_current_user None (Some "guess") None) demo)
      = outcome (run MemDb.world (get_current_user (Some "Bearer s3cret") None None)
                     demo))
  /\ (verify_token "s3cret" = Some 1
      /\ verify_token "guess" = verify_token "s3cret"
      /\ outcome (run MemDb.world
                      (get_current_user (Some "Bearer s3cret") None (Some "42")) demo)
         = inr (Some (UserDict.mk 1 "alice@example.com" false))
      /\ outcome (run MemDb.world
                      (get_current_user None (Some "guess") (Some "42")) demo)
         = outcome (run MemDb.world
                        (get_current_user (Some "Bearer s3cret") None (Some "42"))
                        demo)).
Proof.
  split.
  - apply (authentication_ignores_token_value MemDb.world demo demo
             (Some "Bearer s3cret") None None (Some "guess") None
             "s3cret" "guess" (User.mk 1 "alice@example.com" "5e88" false None));
      try reflexivity; try discriminate.
    left. split; reflexivity.
  - apply (authentication_ignores_token_value MemDb.world demo demo
             (Some "Bearer s3cret") None None (Some "guess") (Some "42")
             "s3cret" "guess" (User.mk 1 "alice@example.com" "5e88" false None));
      try reflexivity; try discriminate.
    right. exists "42", 42. repeat split; [simpl; lia | discriminate].
Defined.

(** ** C10: registration stores the email and the password hash only *)

(** C10.  POST /auth/new discards the display name.  The handler's program
    is the same whatever name, hname and gatekeeperTosPrivacy the request
    carries.  In every world and state, a registration that succeeds makes
    exactly one write to the persistence actor: [create_user] with the
    dictionary {"email": email, "auth_token": sha256(password).hexdigest()}
    and no other key; a registration that is refused makes none. *)
Theorem registration_discards_name :
  forall (sha256_hexdigest : string -> string) (jwt_secret : string)
         (w : World) (s : St w) (request : AuthNewRequest.t)
         (name hname gatekeeperTosPrivacy : option string),
    let stored : dict :=
      [("email", VStr (AuthNewRequest.email request));
       ("auth_token", VStr (sha256_hexdigest (AuthNewRequest.password request)))] in
    let r := run w (register_user sha256_hexdigest jwt_secret request) s in
    register_user sha256_hexdigest jwt_secret
      (AuthNewRequest.mk (AuthNewRequest.email request)
         (AuthNewRequest.password request) name hname gatekeeperTosPrivacy)
    = register_user sha256_hexdigest jwt_secret request
    /\ users_handed_over (log r)
       = match outcome r with inr _ => [stored] | inl _ => [] end
    /\ writes (log r)
       = match outcome r with
         | inr _ => [Event (Db (DatabaseActor.create_user stored))]
         | inl _ => []
         end.
Proof.
  intros sha jwt w s [email password name0 hname0 tos0] name hname tos.
  cbv zeta. split; [reflexivity |].
  unfold register_user, create_token. simpl AuthNewRequest.email.
  simpl AuthNewRequest.password.
  destruct (Py.truthy_str email); simpl; [| split; reflexivity].
  destruct (Py.truthy_str password); simpl; [| split; reflexivity].
  destruct (answer w (Db (DatabaseActor.read_user_by_email email)) s)
    as [existing s1].
  destruct existing as [u |]; simpl; [split; reflexivity |].
  destruct (answer w (Db (DatabaseActor.create_user _)) s1) as [user s2].
  destruct (answer w Now s2) as [now s3]. simpl.
  destruct (answer w (SetCookie "token2" _) s3) as [[] s4].
  destruct (answer w (SetCookie "uid2" _) s4) as [[] s5]. simpl.
  split; reflexivity.
Qed.

(** ** C3 and C4: recording votes *)

Section ListFacts.
Context {A : Type}.

Lemma find_map_same (f : A -> bool) (g : A -> A) (l : list A) :
  (forall x, f (g x) = f x) ->
  find f (map g l) = option_map g (find f l).
Proof.
  intros Hfg. induction l as [| x l IH]; simpl; [reflexivity |].
  rewrite Hfg. destruct (f x); [reflexivity | exact IH].
Qed.

Lemma find_snoc (f : A -> bool) (l : list A) (x : A) :
  find f (l ++ [x])
  = match find f l with
    | Some y => Some y
    | None => if f x then Some x else None
    end.
Proof.
  induction l as [| y l IH]; simpl; [reflexivity |].
  destruct (f y); [reflexivity | exact IH].
Qed.

Lemma NoDup_snoc (l : list A) (x : A) :
  NoDup l -> ~ In x l -> NoDup (l ++ [x]).
Proof.
  intros Hl Hx. induction Hl as [| y l Hy Hl IH]; simpl.
  - constructor; [intros [] | constructor].
  - constructor.
    + rewrite in_app_iff. intros [H | [H | []]]; [exact (Hy H) |].
      apply Hx. left. symmetry. exact H.
    + apply IH. intros H. apply Hx. right. exact H.
Qed.
End ListFacts.

Lemma vote_of_key (uid tid : Z) (v : Vote.t) :
  MemDb.vote_of uid tid v = true <-> vote_key v = (uid, tid).
Proof.
  unfold MemDb.vote_of, vote_key. rewrite andb_true_iff, !Z.eqb_eq.
  split; [intros [-> ->]; reflexivity | intros H; injection H; auto].
Qed.

Lemma revalue_key (vid x : Z) (v : Vote.t) : vote_key (revalue vid x v) = vote_key v.
Proof. unfold revalue. destruct (Vote.id v =? vid); reflexivity. Qed.

Lemma revalue_id (vid x : Z) (v : Vote.t) : Vote.id (revalue vid x v) = Vote.id v.
Proof. unfold revalue. destruct (Vote.id v =? vid); reflexivity. Qed.

Lemma revalue_vote_of (uid tid vid x : Z) (v : Vote.t) :
  MemDb.vote_of uid tid (revalue vid x v) = MemDb.vote_of uid tid v.
Proof. unfold revalue. destruct (Vote.id v =? vid); reflexivity. Qed.

Lemma map_revalue_keys (vid x : Z) (l : list Vote.t) :
  map vote_key (map (revalue vid x) l) = map vote_key l.
Proof.
  rewrite map_map. apply map_ext. intros v. apply revalue_key.
Qed.

Lemma map_revalue_ids (vid x : Z) (l : list Vote.t) :
  map Vote.id (map (revalue vid x) l) = map Vote.id l.
Proof.
  rewrite map_map. apply map_ext. intros v. apply revalue_id.
Qed.

Lemma no_vote_no_key (uid tid : Z) (l : list Vote.t) :
  find (MemDb.vote_of uid tid) l = None -> ~ In (uid, tid) (map vote_key l).
Proof.
  intros Hnone Hin. apply in_map_iff in Hin. destruct Hin as (v & Hk & Hv).
  apply (find_none _ _ Hnone) in Hv. apply vote_of_key in Hk. congruence.
Qed.

(** [get_or_create_participant] leaves the votes and the invite codes alone,
    and its participant is found again afterwards. *)
Lemma get_or_create_participant_frame (s : MemDb.t) (zid uid : Z) :
  let ps := MemDb.get_or_create_participant s zid uid in
  MemDb.votes (snd ps) = MemDb.votes s
  /\ MemDb.zinvites (snd ps) = MemDb.zinvites s
  /\ MemDb.get_participant_by_zid_uid (snd ps) zid uid = Some (fst ps).
Proof.
  unfold MemDb.get_or_create_participant.
  destruct (MemDb.get_participant_by_zid_uid s zid uid) as [p |] eqn:E; simpl.
  - auto.
  - repeat split. unfold MemDb.get_participant_by_zid_uid in *. simpl.
    rewrite find_snoc, E. unfold MemDb.participant_of. simpl.
    rewrite !Z.eqb_refl. reflexivity.
Qed.

(** The row [update_vote] returns: the first one with the id, revalued. *)
Lemma updated_row (vid x : Z) (l : list Vote.t) (ex : Vote.t) :
  In ex l -> Vote.id ex = vid ->
  exists u, find (fun v => Vote.id v =? vid) (map (revalue vid x) l) = Some u
            /\ Vote.id u = vid /\ Vote.value u = x.
Proof.
  intros Hin Hid.
  rewrite find_map_same by (intros v; rewrite revalue_id; reflexivity).
  destruct (find (fun v => Vote.id v =? vid) l) as [y |] eqn:E.
  - apply find_some in E. destruct E as [_ Hy].
    exists (revalue vid x y). split; [reflexivity |].
    unfold revalue. rewrite Hy. split; [apply Z.eqb_eq; exact Hy | reflexivity].
  - apply (find_none _ _ E) in Hin. apply Z.eqb_neq in Hin. contradiction.
Qed.

(** What POST /votes does on the in-memory actor, for an allowed vote value
    and a known conversation: with a vote of that user on that comment
    already there, it is revalued in place; otherwise a row is appended and
    the participant's count goes up by one. *)
Lemma create_vote_run (s : MemDb.t) (conversation_id : string) (tid vote : Z)
    (user : UserDict.t) (zid : Z) :
  vote_allowed vote = true ->
  MemDb.get_zid_by_zinvite s conversation_id = Some zid ->
  zid <> 0 ->
  let uid := UserDict.uid user in
  let p := fst (MemDb.get_or_create_participant s zid uid) in
  let s1 := snd (MemDb.get_or_create_participant s zid uid) in
  let r := run MemDb.world (create_vote conversation_id tid vote user) s in
  match find (MemDb.vote_of uid tid) (MemDb.votes s) with
  | Some ex =>
      outcome r = inr (vote_response (Vote.id ex) (Participant.pid p) tid vote)
      /\ final r = MemDb.with_votes s1 (map (revalue (Vote.id ex) vote) (MemDb.votes s))
      /\ log r = [Event (lookup conversation_id);
                  Event (Db (DatabaseActor.get_or_create_participant zid uid));
                  Event (Db (DatabaseActor.get_vote_by_user_comment uid tid));
                  Event (Db (DatabaseActor.update_vote (Vote.id ex)
                                                       [("value", VInt vote)]))]
  | None =>
      let v := Vote.mk (MemDb.next_id (map Vote.id (MemDb.votes s))) uid tid vote
                       (Some (MemDb.clock s1)) in
      outcome r = inr (vote_response (Vote.id v) (Participant.pid p) tid vote)
      /\ final r = MemDb.increment_vote_count
                     (MemDb.with_votes s1 (MemDb.votes s ++ [v])) (Participant.pid p)
      /\ log r = [Event (lookup conversation_id);
                  Event (Db (DatabaseActor.get_or_create_participant zid uid));
                  Event (Db (DatabaseActor.get_vote_by_user_comment uid tid));
                  Event (Db (DatabaseActor.create_vote
                               [("user_id", VInt uid); ("comment_id", VInt tid);
                                ("value", VInt vote)]));
                  Event (Db (DatabaseActor.increment_vote_count (Participant.pid p)))]
  end.
Proof.
  intros Hvote Hz Hnz uid p s1 r. subst r. unfold create_vote.
  rewrite Hvote. cbn [negb].
  rewrite (run_known_conversation MemDb.world conversation_id _ _ s zid Hz Hnz).
  destruct (get_or_create_participant_frame s zid uid) as (Hvotes & _ & _).
  fold s1 in Hvotes. fold p.
  subst p s1 uid.
  cbn -[find map MemDb.next_id MemDb.update_vote MemDb.create_vote
        MemDb.increment_vote_count MemDb.get_vote_by_user_comment
        MemDb.get_or_create_participant].
  destruct (MemDb.get_or_create_participant s zid (UserDict.uid user)) as [p s1].
  cbn [fst snd] in *.
  unfold MemDb.get_vote_by_user_comment.
  rewrite Hvotes.
  destruct (find (MemDb.vote_of (UserDict.uid user) tid) (MemDb.votes s)) as [ex |] eqn:E.
  - cbn -[find map]. rewrite Hvotes.
    change (fun v : Vote.t => if Vote.id v =? Vote.id ex
                              then MemDb.set_value vote v else v)
      with (revalue (Vote.id ex) vote).
    destruct (updated_row (Vote.id ex) vote (MemDb.votes s) ex) as (u & Hu & Hid & Hval).
    { apply find_some in E. exact (proj1 E). }
    { reflexivity. }
    rewrite Hu. cbn. rewrite Hid, Hval. repeat split; reflexivity.
  - cbn -[MemDb.next_id]. rewrite Hvotes. repeat split; reflexivity.
Qed.

Lemma count_up_participant_of (zid uid pid : Z) (p : Participant.t) :
  MemDb.participant_of zid uid (MemDb.count_up pid p) = MemDb.participant_of zid uid p.
Proof. unfold MemDb.count_up. destruct (Participant.pid p =? pid); reflexivity. Qed.

Lemma count_up_pid (pid : Z) (p : Participant.t) :
  Participant.pid (MemDb.count_up pid p) = Participant.pid p.
Proof. unfold MemDb.count_up. destruct (Participant.pid p =? pid); reflexivity. Qed.

(** After POST /votes went through, the vote of that user on that comment is
    stored with the value just sent, and the response carries its id. *)
Lemma create_vote_stores (s : MemDb.t) (conversation_id : string) (tid vote : Z)
    (user : UserDict.t) (zid : Z) :
  vote_allowed vote = true ->
  MemDb.get_zid_by_zinvite s conversation_id = Some zid ->
  zid <> 0 ->
  let uid := UserDict.uid user in
  let p := fst (MemDb.get_or_create_participant s zid uid) in
  let r := run MemDb.world (create_vote conversation_id tid vote user) s in
  exists v,
    MemDb.get_vote_by_user_comment (final r) uid tid = Some v
    /\ Vote.value v = vote
    /\ outcome r = inr (vote_response (Vote.id v) (Participant.pid p) tid vote).
Proof.
  intros Hvote Hz Hnz uid p r.
  pose proof (create_vote_run s conversation_id tid vote user zid Hvote Hz Hnz) as H.
  cbv zeta in H. fold uid p r in H.
  unfold MemDb.get_vote_by_user_comment.
  destruct (find (MemDb.vote_of uid tid) (MemDb.votes s)) as [ex |] eqn:E.
  - destruct H as (Hout & Hfin & _). rewrite Hfin. simpl MemDb.votes.
    rewrite find_map_same by (intros; apply revalue_vote_of).
    rewrite E. simpl. unfold revalue. rewrite Z.eqb_refl.
    exists (MemDb.set_value vote ex). repeat split. exact Hout.
  - destruct H as (Hout & Hfin & _). rewrite Hfin. simpl MemDb.votes.
    rewrite find_snoc, E. unfold MemDb.vote_of at 1. simpl. rewrite !Z.eqb_refl. simpl.
    eexists. repeat split. exact Hout.
Qed.

(** POST /votes leaves the invite codes alone, and the voter is a participant
    afterwards, with the pid the response carries. *)
Lemma create_vote_frame (s : MemDb.t) (conversation_id : string) (tid vote : Z)
    (user : UserDict.t) (zid : Z) :
  vote_allowed vote = true ->
  MemDb.get_zid_by_zinvite s conversation_id = Some zid ->
  zid <> 0 ->
  let uid := UserDict.uid user in
  let p := fst (MemDb.get_or_create_participant s zid uid) in
  let r := run MemDb.world (create_vote conversation_id tid vote user) s in
  MemDb.get_zid_by_zinvite (final r) conversation_id = Some zid
  /\ exists p', MemDb.get_participant_by_zid_uid (final r) zid uid = Some p'
                /\ Participant.pid p' = Participant.pid p.
Proof.
  intros Hvote Hz Hnz uid p r.
  pose proof (create_vote_run s conversation_id tid vote user zid Hvote Hz Hnz) as H.
  cbv zeta in H. fold uid p r in H.
  destruct (get_or_create_participant_frame s zid uid) as (_ & Hzin & Hp).
  fold p in Hp.
  unfold MemDb.get_zid_by_zinvite in *.
  destruct (find (MemDb.vote_of uid tid) (MemDb.votes s)) as [ex |];
    destruct H as (_ & Hfin & _); rewrite Hfin; simpl MemDb.zinvites;
    rewrite Hzin; (split; [exact Hz |]).
  - exists p. split; [exact Hp | reflexivity].
  - exists (MemDb.count_up (Participant.pid p) p).
    split; [| apply count_up_pid].
    unfold MemDb.get_participant_by_zid_uid in *. simpl MemDb.participants.
    rewrite find_map_same by (intros; apply count_up_participant_of).
    rewrite Hp. reflexivity.
Qed.

(** C3.  Last vote wins, with at most one vote row per (participant,
    comment) pair.  POST /votes preserves that invariant whatever its
    arguments.  And when a vote by that user on that comment already exists
    (the vote value being allowed and the conversation known), the handler
    answers with the id of the existing vote and the new value, the stored
    vote is the existing row with its value replaced, and no row is added:
    the ids and the pairs of the vote rows are what they were and
    [DatabaseActor.create_vote] is not called. *)
Theorem last_vote_wins :
  forall (s : MemDb.t) (conversation_id : string) (tid vote : Z)
         (user : UserDict.t),
    votes_unique s ->
    let uid := UserDict.uid user in
    let r := run MemDb.world (create_vote conversation_id tid vote user) s in
    votes_unique (final r)
    /\ forall (existing : Vote.t) (zid : Z),
         MemDb.get_vote_by_user_comment s uid tid = Some existing ->
         vote_allowed vote = true ->
         MemDb.get_zid_by_zinvite s conversation_id = Some zid ->
         zid <> 0 ->
         (exists pid, outcome r = inr (vote_response (Vote.id existing) pid tid vote))
         /\ MemDb.get_vote_by_user_comment (final r) uid tid
            = Some (MemDb.set_value vote existing)
         /\ map Vote.id (MemDb.votes (final r)) = map Vote.id (MemDb.votes s)
         /\ map vote_key (MemDb.votes (final r)) = map vote_key (MemDb.votes s)
         /\ votes_created (log r) = [].
Proof.
  intros s cid tid vote user Huniq uid r. split.
  - (* the invariant *)
    destruct (vote_allowed vote) eqn:Hvote.
    2: { subst r. unfold create_vote. rewrite Hvote. exact Huniq. }
    destruct (MemDb.get_zid_by_zinvite s cid) as [zid |] eqn:Hz.
    2: { subst r. unfold create_vote. rewrite Hvote. cbn [negb].
         rewrite (run_unknown_conversation MemDb.world cid _ _ s None);
           [exact Huniq | unfold lookup; simpl; rewrite Hz; reflexivity | reflexivity]. }
    destruct (Z.eq_dec zid 0) as [-> | Hnz].
    { subst r. unfold create_vote. rewrite Hvote. cbn [negb].
      rewrite (run_unknown_conversation MemDb.world cid _ _ s (Some 0));
        [exact Huniq | unfold lookup; simpl; rewrite Hz; reflexivity | reflexivity]. }
    pose proof (create_vote_run s cid tid vote user zid Hvote Hz Hnz) as H.
    cbv zeta in H. fold uid r in H. unfold votes_unique in *.
    destruct (find (MemDb.vote_of uid tid) (MemDb.votes s)) as [ex |] eqn:E;
      destruct H as (_ & Hfin & _); rewrite Hfin; simpl MemDb.votes.
    + rewrite map_revalue_keys. exact Huniq.
    + rewrite map_app. simpl. apply NoDup_snoc; [exact Huniq |].
      apply no_vote_no_key. exact E.
  - (* a vote is already there *)
    intros existing zid Hex Hvote Hz Hnz.
    pose proof (create_vote_run s cid tid vote user zid Hvote Hz Hnz) as H.
    cbv zeta in H. fold uid r in H.
    unfold MemDb.get_vote_by_user_comment in *.
    rewrite Hex in H. destruct H as (Hout & Hfin & Hlog).
    rewrite Hfin, Hlog. simpl MemDb.votes.
    rewrite map_revalue_ids, map_revalue_keys.
    rewrite find_map_same by (intros; apply revalue_vote_of).
    rewrite Hex. simpl. unfold revalue. rewrite Z.eqb_refl.
    repeat split. eexists. exact Hout.
Qed.

Lemma last_vote_wins_witness :
  votes_unique voted
  /\ let r := run MemDb.world (create_vote "abc" 7 (-1) alice) voted in
     votes_unique (final r)
     /\ outcome r = inr (vote_response 1 1 7 (-1))
     /\ MemDb.get_vote_by_user_comment (final r) 1 7 = Some (Vote.mk 1 1 7 (-1) None)
     /\ map Vote.id (MemDb.votes (final r)) = [1].
Proof.
  assert (Huniq : votes_unique voted).
  { unfold votes_unique; simpl. constructor; [intros [] | constructor]. }
  split; [exact Huniq |].
  destruct (last_vote_wins voted "abc" 7 (-1) alice Huniq) as [Hinv Hex].
  split; [exact Hinv |].
  destruct (Hex (Vote.mk 1 1 7 1 None) 1 eq_refl eq_refl eq_refl)
    as (_ & Hstored & Hids & _); [lia |].
  split; [reflexivity |]. split; [exact Hstored | exact Hids].
Defined.

(** C4.  Recording the same vote twice.  For an allowed vote value and a
    known conversation, after the first POST /votes the stored vote of that
    user on that comment has the value sent, and after the second, identical
    one it still has: the second answers like the first, creates no vote
    row, asks for no vote-count increment and leaves every participant row,
    vote counts included, as the first left it.  When the first application
    is the one that creates the vote, it asks for exactly one increment, of
    the voter's own participant row, whose count goes up by one. *)
Theorem duplicate_vote_is_idempotent :
  forall (s : MemDb.t) (conversation_id : string) (tid vote : Z)
         (user : UserDict.t) (zid : Z),
    vote_allowed vote = true ->
    MemDb.get_zid_by_zinvite s conversation_id = Some zid ->
    zid <> 0 ->
    let uid := UserDict.uid user in
    let p := fst (MemDb.get_or_create_participant s zid uid) in
    let r1 := run MemDb.world (create_vote conversation_id tid vote user) s in
    let r2 := run MemDb.world (create_vote conversation_id tid vote user) (final r1) in
    option_map Vote.value (MemDb.get_vote_by_user_comment (final r1) uid tid) = Some vote
    /\ option_map Vote.value (MemDb.get_vote_by_user_comment (final r2) uid tid) = Some vote
    /\ outcome r2 = outcome r1
    /\ votes_created (log r2) = []
    /\ vote_count_increments (log r2) = []
    /\ MemDb.participants (final r2) = MemDb.participants (final r1)
    /\ vote_count_of (final r2) zid uid = vote_count_of (final r1) zid uid
    /\ (MemDb.get_vote_by_user_comment s uid tid = None ->
        vote_count_increments (log r1) = [Participant.pid p]
        /\ vote_count_of (final r1) zid uid = Some (Participant.vote_count p + 1)).
Proof.
  intros s cid tid vote user zid Hvote Hz Hnz uid p r1 r2.
  destruct (create_vote_stores s cid tid vote user zid Hvote Hz Hnz)
    as (v1 & Hv1 & Hval1 & Hout1).
  destruct (create_vote_frame s cid tid vote user zid Hvote Hz Hnz)
    as (Hz1 & p1 & Hp1 & Hpid1).
  fold uid p r1 in Hv1, Hout1, Hz1, Hp1, Hpid1.
  destruct (create_vote_stores (final r1) cid tid vote user zid Hvote Hz1 Hnz)
    as (v2 & Hv2 & Hval2 & Hout2).
  pose proof (create_vote_run (final r1) cid tid vote user zid Hvote Hz1 Hnz) as H2.
  cbv zeta in H2, Hout2. fold uid r2 in H2, Hv2, Hout2.
  assert (Hgc : MemDb.get_or_create_participant (final r1) zid uid = (p1, final r1)).
  { unfold MemDb.get_or_create_participant. rewrite Hp1. reflexivity. }
  rewrite Hgc in H2, Hout2. cbn [fst snd] in H2, Hout2.
  unfold MemDb.get_vote_by_user_comment in Hv1.
  rewrite Hv1 in H2. destruct H2 as (Hout2' & Hfin2 & Hlog2).
  assert (Hparts : MemDb.participants (final r2) = MemDb.participants (final r1))
    by (rewrite Hfin2; reflexivity).
  split.
  { unfold MemDb.get_vote_by_user_comment.
    rewrite Hv1. simpl. rewrite Hval1. reflexivity. }
  split. { rewrite Hv2. simpl. rewrite Hval2. reflexivity. }
  split. { rewrite Hout2', Hout1, Hpid1. reflexivity. }
  split. { rewrite Hlog2. reflexivity. }
  split. { rewrite Hlog2. reflexivity. }
  split. { exact Hparts. }
  split. { unfold vote_count_of, MemDb.get_participant_by_zid_uid. rewrite Hparts. reflexivity. }
  intros Hnone.
  pose proof (create_vote_run s cid tid vote user zid Hvote Hz Hnz) as H1.
  cbv zeta in H1. fold uid p r1 in H1.
  unfold MemDb.get_vote_by_user_comment in Hnone.
  rewrite Hnone in H1. destruct H1 as (_ & Hfin1 & Hlog1).
  split; [rewrite Hlog1; reflexivity |].
  destruct (get_or_create_participant_frame s zid uid) as (_ & _ & Hp). fold p in Hp.
  unfold vote_count_of, MemDb.get_participant_by_zid_uid in *.
  rewrite Hfin1. simpl MemDb.participants.
  rewrite find_map_same by (intros; apply count_up_participant_of).
  rewrite Hp. simpl. unfold MemDb.count_up. rewrite Z.eqb_refl. reflexivity.
Qed.

Lemma duplicate_vote_is_idempotent_witness :
  let r1 := run MemDb.world (create_vote "abc" 7 1 alice) demo in
  let r2 := run MemDb.world (create_vote "abc" 7 1 alice) (final r1) in
  option_map Vote.value (MemDb.get_vote_by_user_comment (final r1) 1 7) = Some 1
  /\ option_map Vote.value (MemDb.get_vote_by_user_comment (final r2) 1 7) = Some 1
  /\ outcome r2 = outcome r1
  /\ votes_created (log r2) = []
  /\ vote_count_increments (log r2) = []
  /\ MemDb.participants (final r2) = MemDb.participants (final r1)
  /\ vote_count_of (final r2) 1 1 = vote_count_of (final r1) 1 1
  /\ (MemDb.get_vote_by_user_comment demo 1 7 = None ->
      vote_count_increments (log r1) = [1]
      /\ vote_count_of (final r1) 1 1 = Some (0 + 1)).
Proof.
  apply (duplicate_vote_is_idempotent demo "abc" 7 1 alice 1).
  - reflexivity.
  - reflexivity.
  - lia.
Defined.

(** * Further properties of core.py *)

(** ** Login *)

Lemma login_refused :
  forall (sha256_hexdigest : string -> string) (jwt_secret : string)
         (w : World) (s : St w) (request : AuthLoginRequest.t),
    Py.truthy_str (AuthLoginRequest.email request) = true ->
    Py.truthy_str (AuthLoginRequest.password request) = true ->
    match fst (answer w (Db (DatabaseActor.read_user_by_email
                               (AuthLoginRequest.email request))) s) with
    | Some user =>
        User.auth_token user <> sha256_hexdigest (AuthLoginRequest.password request)
    | None => True
    end ->
    let r := run w (login sha256_hexdigest jwt_secret request) s in
    outcome r = inl (HTTPException 401 "Invalid credentials")
    /\ log r = [Event (Db (DatabaseActor.read_user_by_email
                             (AuthLoginRequest.email request)))].
Proof.
  intros sha jwt w s [email password] He Hp Hbad. simpl in *.
  unfold login. simpl. rewrite He, Hp. simpl.
  destruct (answer w (Db (DatabaseActor.read_user_by_email email)) s) as [u s1].
  simpl in Hbad. destruct u as [u |]; simpl; [| split; reflexivity].
  destruct (String.eqb_spec (User.auth_token u) (sha password)) as [E | _];
    [contradiction | split; reflexivity].
Qed.

(** X1.  POST /auth/login with a non-empty email and password answers an
    unknown email and a wrong password alike: HTTPException 401 "Invalid
    credentials".  The read of the user row is the only effect: no cookie is
    set and nothing is written. *)
Theorem login_failures_look_alike :
  forall (sha256_hexdigest : string -> string) (jwt_secret : string)
         (w : World) (s : St w) (request : AuthLoginRequest.t),
    Py.truthy_str (AuthLoginRequest.email request) = true ->
    Py.truthy_str (AuthLoginRequest.password request) = true ->
    match fst (answer w (Db (DatabaseActor.read_user_by_email
                               (AuthLoginRequest.email request))) s) with
    | Some user =>
        User.auth_token user <> sha256_hexdigest (AuthLoginRequest.password request)
    | None => True
    end ->
    let r := run w (login sha256_hexdigest jwt_secret request) s in
    outcome r = inl (HTTPException 401 "Invalid credentials")
    /\ log r = [Event (Db (DatabaseActor.read_user_by_email
                             (AuthLoginRequest.email request)))].
Proof. exact login_refused. Qed.

Lemma login_failures_look_alike_witness :
  let sha := fun s : string => "sha256(" ++ s ++ ")" in
  let r1 := run MemDb.world
                (login sha "secret" (AuthLoginRequest.mk "alice@example.com" "guess"))
                demo in
  let r2 := run MemDb.world
                (login sha "secret" (AuthLoginRequest.mk "nobody@example.com" "guess"))
                demo in
  (outcome r1 = inl (HTTPException 401 "Invalid credentials")
   /\ log r1 = [Event (Db (DatabaseActor.read_user_by_email "alice@example.com"))])
  /\ (outcome r2 = inl (HTTPException 401 "Invalid credentials")
      /\ log r2 = [Event (Db (DatabaseActor.read_user_by_email "nobody@example.com"))]).
Proof.
  split.
  - apply (login_failures_look_alike (fun s : string => "sha256(" ++ s ++ ")") "secret"
             MemDb.world demo (AuthLoginRequest.mk "alice@example.com" "guess"));
      [reflexivity | reflexivity | simpl; discriminate].
  - apply (login_failures_look_alike (fun s : string => "sha256(" ++ s ++ ")") "secret"
             MemDb.world demo (AuthLoginRequest.mk "nobody@example.com" "guess"));
      [reflexivity | reflexivity | exact I].
Defined.

Lemma login_accepted :
  forall (sha256_hexdigest : string -> string) (jwt_secret : string)
         (w : World) (s : St w) (request : AuthLoginRequest.t) (user : User.t),
    Py.truthy_str (AuthLoginRequest.email request) = true ->
    Py.truthy_str (AuthLoginRequest.password request) = true ->
    fst (answer w (Db (DatabaseActor.read_user_by_email
                         (AuthLoginRequest.email request))) s) = Some user ->
    User.auth_token user = sha256_hexdigest (AuthLoginRequest.password request) ->
    let r := run w (login sha256_hexdigest jwt_secret request) s in
    exists token : string,
      outcome r = inr (auth_body token user)
      /\ cookies_set (log r) = [("token2", token); ("uid2", Py.str (User.id user))]
      /\ writes (log r) = [].
Proof.
  intros sha jwt w s [email password] user He Hp Hu Hhash. simpl in *.
  unfold login, create_token. simpl. rewrite He, Hp. simpl.
  destruct (answer w (Db (DatabaseActor.read_user_by_email email)) s) as [u s1].
  simpl in Hu. subst u. simpl. rewrite Hhash, String.eqb_refl. simpl.
  destruct (answer w Now s1) as [now s2]. simpl.
  destruct (answer w (SetCookie "token2" _) s2) as [[] s3].
  destruct (answer w (SetCookie "uid2" _) s3) as [[] s4]. simpl.
  eexists. repeat split.
Qed.

(** X2.  A POST /auth/login whose password hashes to the stored auth_token
    succeeds without writing to the persistence actor.  It sets exactly two
    cookies, token2 and then uid2: token2 is the token of the response body
    and uid2 is the decimal id of the row found by email. *)
Theorem login_success_sets_cookies :
  forall (sha256_hexdigest : string -> string) (jwt_secret : string)
         (w : World) (s : St w) (request : AuthLoginRequest.t) (user : User.t),
    Py.truthy_str (AuthLoginRequest.email request) = true ->
    Py.truthy_str (AuthLoginRequest.password request) = true ->
    fst (answer w (Db (DatabaseActor.read_user_by_email
                         (AuthLoginRequest.email request))) s) = Some user ->
    User.auth_token user = sha256_hexdigest (AuthLoginRequest.password request) ->
    let r := run w (login sha256_hexdigest jwt_secret request) s in
    exists token : string,
      outcome r = inr (auth_body token user)
      /\ cookies_set (log r) = [("token2", token); ("uid2", Py.str (User.id user))]
      /\ writes (log r) = [].
Proof. exact login_accepted. Qed.

Lemma login_success_sets_cookies_witness :
  let sha := fun s : string => "5e88" in
  let r := run MemDb.world
               (login sha "secret" (AuthLoginRequest.mk "alice@example.com" "password"))
               demo in
  exists token : string,
    outcome r = inr (auth_body token (User.mk 1 "alice@example.com" "5e88" false None))
    /\ cookies_set (log r) = [("token2", token); ("uid2", Py.str 1)]
    /\ writes (log r) = [].
Proof.
  apply (login_success_sets_cookies (fun s : string => "5e88") "secret" MemDb.world demo
           (AuthLoginRequest.mk "alice@example.com" "password")
           (User.mk 1 "alice@example.com" "5e88" false None)); reflexivity.
Defined.

(** ** Registration and login together *)

(** The row a registration stores in the in-memory actor. *)
Lemma register_user_run (sha : string -> string) (jwt : string) (s : MemDb.t)
    (request : AuthNewRequest.t) :
  Py.truthy_str (AuthNewRequest.email request) = true ->
  Py.truthy_str (AuthNewRequest.password request) = true ->
  MemDb.read_user_by_email s (AuthNewRequest.email request) = None ->
  let user := User.mk (MemDb.next_id (map User.id (MemDb.users s)))
                      (AuthNewRequest.email request)
                      (sha (AuthNewRequest.password request)) false
                      (Some (MemDb.clock s)) in
  let r := run MemDb.world (register_user sha jwt request) s in
  exists token : string,
    outcome r = inr (auth_body token user)
    /\ MemDb.users (final r) = (MemDb.users s ++ [user])%list
    /\ MemDb.cookies (final r)
       = (MemDb.cookies s ++ [("token2", token); ("uid2", Py.str (User.id user))])%list
    /\ token = Py.take 32 (sha (jwt ++ ":" ++ Py.str (User.id user) ++ ":"
                                 ++ AuthNewRequest.email request ++ ":"
                                 ++ isoformat (MemDb.clock s))).
Proof.
  intros He Hp Hnew user r. subst r.
  destruct request as [email password name hname tos]. simpl in *.
  unfold register_user, create_token. simpl.
  rewrite He, Hp. simpl. rewrite Hnew. simpl.
  eexists. repeat split. rewrite <- app_assoc. reflexivity.
Qed.

(** X3.  Register, then log in (in-memory actor).  After a registration
    with a non-empty email that was not registered and a non-empty password,
    logging in with the same email and password succeeds and returns the
    user id the registration returned; logging in with a password whose
    hash differs is refused with 401. *)
Theorem register_then_login :
  forall (sha256_hexdigest : string -> string) (jwt_secret : string) (s : MemDb.t)
         (request : AuthNewRequest.t) (other_password : string),
    Py.truthy_str (AuthNewRequest.email request) = true ->
    Py.truthy_str (AuthNewRequest.password request) = true ->
    MemDb.read_user_by_email s (AuthNewRequest.email request) = None ->
    Py.truthy_str other_password = true ->
    sha256_hexdigest other_password
      <> sha256_hexdigest (AuthNewRequest.password request) ->
    let registered := run MemDb.world
                          (register_user sha256_hexdigest jwt_secret request) s in
    let logged_in :=
      run MemDb.world
          (login sha256_hexdigest jwt_secret
                 (AuthLoginRequest.mk (AuthNewRequest.email request)
                                      (AuthNewRequest.password request)))
          (final registered) in
    let refused :=
      run MemDb.world
          (login sha256_hexdigest jwt_secret
                 (AuthLoginRequest.mk (AuthNewRequest.email request) other_password))
          (final registered) in
    (exists (user : User.t) (token token' : string),
        outcome registered = inr (auth_body token user)
        /\ outcome logged_in = inr (auth_body token' user)
        /\ User.email user = AuthNewRequest.email request)
    /\ outcome refused = inl (HTTPException 401 "Invalid credentials").
Proof.
  intros sha jwt s request other He Hp Hnew Ho Hdiff registered logged_in refused.
  destruct (register_user_run sha jwt s request He Hp Hnew)
    as (token & Hout & Husers & _ & _).
  fold registered in Hout, Husers.
  set (user := User.mk (MemDb.next_id (map User.id (MemDb.users s)))
                       (AuthNewRequest.email request)
                       (sha (AuthNewRequest.password request)) false
                       (Some (MemDb.clock s))) in *.
  assert (Hfound : MemDb.read_user_by_email (final registered)
                     (AuthNewRequest.email request) = Some user).
  { unfold MemDb.read_user_by_email in *. rewrite Husers, find_snoc, Hnew.
    simpl. rewrite String.eqb_refl. reflexivity. }
  split.
  - destruct (login_accepted sha jwt MemDb.world (final registered)
                (AuthLoginRequest.mk (AuthNewRequest.email request)
                                     (AuthNewRequest.password request)) user)
      as (token' & Hlogin & _); try assumption; try reflexivity.
    exists user, token, token'. repeat split; assumption.
  - apply (login_refused sha jwt MemDb.world (final registered)
             (AuthLoginRequest.mk (AuthNewRequest.email request) other));
      try assumption.
    simpl. change (MemDb.read_user_by_email (final registered)
                     (AuthNewRequest.email request)) with
      (fst (MemDb.answer (Db (DatabaseActor.read_user_by_email
                                (AuthNewRequest.email request))) (final registered))) in Hfound.
    simpl in Hfound. rewrite Hfound. simpl. intros E. apply Hdiff. symmetry. exact E.
Qed.

Lemma register_then_login_witness :
  let sha := fun s : string => "sha256(" ++ s ++ ")" in
  let request := AuthNewRequest.mk "bob@example.com" "pw" (Some "Bob") None None in
  let registered := run MemDb.world (register_user sha "secret" request) demo in
  let logged_in :=
    run MemDb.world (login sha "secret" (AuthLoginRequest.mk "bob@example.com" "pw"))
        (final registered) in
  let refused :=
    run MemDb.world (login sha "secret" (AuthLoginRequest.mk "bob@example.com" "pW"))
        (final registered) in
  (exists (user : User.t) (token token' : string),
      outcome registered = inr (auth_body token user)
      /\ outcome logged_in = inr (auth_body token' user)
      /\ User.email user = "bob@example.com")
  /\ outcome refused = inl (HTTPException 401 "Invalid credentials").
Proof.
  apply (register_then_login (fun s : string => "sha256(" ++ s ++ ")") "secret" demo
           (AuthNewRequest.mk "bob@example.com" "pw" (Some "Bob") None None) "pW");
    try reflexivity.
  simpl. discriminate.
Defined.

(** X4.  Registration keeps emails unique (in-memory actor): if no two user
    rows share an email before POST /auth/new, none do after it, whatever
    the request; and registering an email that is already there is refused
    with 409 and leaves the state as it was. *)
Theorem registration_keeps_emails_unique :
  forall (sha256_hexdigest : string -> string) (jwt_secret : string) (s : MemDb.t)
         (request : AuthNewRequest.t),
    emails_unique s ->
    let r := run MemDb.world (register_user sha256_hexdigest jwt_secret request) s in
    emails_unique (final r)
    /\ (Py.truthy_str (AuthNewRequest.email request) = true ->
        Py.truthy_str (AuthNewRequest.password request) = true ->
        In (AuthNewRequest.email request) (map User.email (MemDb.users s)) ->
        outcome r = inl (HTTPException 409 "Email already registered")
        /\ final r = s).
Proof.
  intros sha jwt s request Huniq r.
  destruct (Py.truthy_str (AuthNewRequest.email request)) eqn:He.
  2: { subst r. unfold register_user. rewrite He. simpl.
       split; [exact Huniq | intros; discriminate]. }
  destruct (Py.truthy_str (AuthNewRequest.password request)) eqn:Hp.
  2: { subst r. unfold register_user. rewrite He, Hp. simpl.
       split; [exact Huniq | intros; discriminate]. }
  destruct (MemDb.read_user_by_email s (AuthNewRequest.email request)) as [u |] eqn:Hu.
  - assert (Hrun : outcome r = inl (HTTPException 409 "Email already registered")
                   /\ final r = s).
    { subst r. unfold register_user. rewrite He, Hp. simpl. rewrite Hu. simpl.
      split; reflexivity. }
    destruct Hrun as [Hout Hfin]. rewrite Hfin.
    split; [exact Huniq | intros; split; [exact Hout | reflexivity]].
  - destruct (register_user_run sha jwt s request He Hp Hu) as (token & _ & Husers & _).
    fold r in Husers.
    assert (Hfresh : ~ In (AuthNewRequest.email request) (map User.email (MemDb.users s))).
    { intros Hin. apply in_map_iff in Hin. destruct Hin as (u & Hemail & Hin).
      unfold MemDb.read_user_by_email in Hu.
      apply (find_none _ _ Hu) in Hin. rewrite Hemail, String.eqb_refl in Hin.
      discriminate. }
    split.
    + unfold emails_unique in *. rewrite Husers, map_app. simpl.
      apply NoDup_snoc; assumption.
    + intros _ _ Hin. contradiction.
Qed.

Lemma registration_keeps_emails_unique_witness :
  let sha := fun s : string => "sha256(" ++ s ++ ")" in
  let r := run MemDb.world
               (register_user sha "secret"
                  (AuthNewRequest.mk "alice@example.com" "pw" None None None)) demo in
  emails_unique demo
  /\ emails_unique (final r)
  /\ outcome r = inl (HTTPException 409 "Email already registered")
  /\ final r = demo.
Proof.
  assert (Huniq : emails_unique demo).
  { unfold emails_unique; simpl. constructor; [intros [] | constructor]. }
  split; [exact Huniq |].
  destruct (registration_keeps_emails_unique (fun s : string => "sha256(" ++ s ++ ")")
              "secret" demo (AuthNewRequest.mk "alice@example.com" "pw" None None None)
              Huniq) as [Hinv Hdup].
  split; [exact Hinv |].
  apply Hdup; [reflexivity | reflexivity | left; reflexivity].
Defined.

(** ** Who the current user is *)

(** X5.  Without a token there is no current user: when the request has no
    Bearer header (or an empty Bearer token, even beside a token2 cookie) and
    otherwise no token2 cookie, [get_current_user] returns None without
    asking the persistence actor anything, whatever the uid2 cookie says, and
    [require_auth] then raises 401 "Authentication required". *)
Theorem no_token_no_user :
  forall (w : World) (s : St w) (authorization token2 uid2 : option string),
    Py.truthy_opt_str (request_token authorization token2) = false ->
    let r := run w (get_current_user authorization token2 uid2) s in
    outcome r = inr None /\ final r = s /\ log r = []
    /\ outcome (run w (user <- get_current_user authorization token2 uid2 ;;
                       require_auth user) s)
       = inl (HTTPException 401 "Authentication required").
Proof.
  intros w s a t u Htoken. unfold get_current_user. rewrite Htoken. simpl.
  repeat split; reflexivity.
Qed.

Lemma no_token_no_user_witness :
  let r := run MemDb.world (get_current_user (Some "Bearer ") (Some "tok") (Some "1")) demo in
  outcome r = inr None /\ final r = demo /\ log r = []
  /\ outcome (run MemDb.world
                  (user <- get_current_user (Some "Bearer ") (Some "tok") (Some "1") ;;
                   require_auth user) demo)
     = inl (HTTPException 401 "Authentication required").
Proof.
  apply (no_token_no_user MemDb.world demo (Some "Bearer ") (Some "tok") (Some "1")).
  reflexivity.
Defined.

Lemma current_user_from_cookie :
  forall (w : World) (s : St w) (authorization token2 uid2 : option string)
         (token : string) (n : Z) (user : User.t),
    request_token authorization token2 = Some token -> token <> "" ->
    cookie_uid uid2 = Some n -> n <> 0 ->
    fst (answer w (Db (DatabaseActor.read_user n)) s) = Some user ->
    let r := run w (get_current_user authorization token2 uid2) s in
    outcome r = inr (Some (user_dict user))
    /\ log r = [Event (Db (DatabaseActor.read_user n))].
Proof.
  intros w s a t u tok n user Htok Hne Hu Hn Hrow.
  unfold get_current_user. rewrite Htok, Hu.
  destruct tok as [| c tok]; [contradiction |]. simpl.
  destruct (Z.eqb_spec n 0) as [E | _]; [contradiction |]. simpl.
  destruct (answer w (Db (DatabaseActor.read_user n)) s) as [row s1].
  simpl in Hrow. subst row. split; reflexivity.
Qed.

(** X6.  With any non-empty token, the uid2 cookie decides who the current
    user is: when it parses to a non-zero id under which a user row exists,
    [get_current_user] returns that row's uid, email and is_admin, after the
    single read of that row; the token's value plays no part.  The cookie is
    taken to have at most 4300 characters, the longest numeral [int()] reads
    under the interpreter's default limit. *)
Theorem uid2_cookie_selects_the_user :
  forall (w : World) (s : St w) (authorization token2 : option string)
         (uid2 token : string) (n : Z) (user : User.t),
    request_token authorization token2 = Some token -> token <> "" ->
    (String.length uid2 <= 4300)%nat ->
    cookie_uid (Some uid2) = Some n -> n <> 0 ->
    fst (answer w (Db (DatabaseActor.read_user n)) s) = Some user ->
    let r := run w (get_current_user authorization token2 (Some uid2)) s in
    outcome r = inr (Some {| UserDict.uid := User.id user;
                             UserDict.email := User.email user;
                             UserDict.is_admin := User.is_admin user |})
    /\ log r = [Event (Db (DatabaseActor.read_user n))].
Proof.
  intros w s a t u tok n user Htok Hne _ Hu Hn Hrow.
  exact (current_user_from_cookie w s a t (Some u) tok n user Htok Hne Hu Hn Hrow).
Qed.

Lemma uid2_cookie_selects_the_user_witness :
  let r := run MemDb.world
               (get_current_user (Some "Bearer anything") None (Some " 1 ")) demo in
  outcome r = inr (Some (UserDict.mk 1 "alice@example.com" false))
  /\ log r = [Event (Db (DatabaseActor.read_user 1))].
Proof.
  apply (uid2_cookie_selects_the_user MemDb.world demo (Some "Bearer anything") None
           " 1 " "anything" 1 (User.mk 1 "alice@example.com" "5e88" false None));
    try reflexivity; try discriminate.
  simpl. lia.
Defined.

(** ** The uid2 cookie round trip *)

Lemma digits_of_uint (d : Decimal.uint) :
  forall (acc : Z) (after_digit : bool),
    (d <> Decimal.Nil \/ after_digit = true) ->
    Py.digits (NilEmpty.string_of_uint d) acc after_digit = Some (uint_value d acc).
Proof.
  induction d; intros acc after Hok; simpl;
    try (apply IHd; right; reflexivity).
  destruct Hok as [H | ->]; [contradiction | reflexivity].
Qed.

Lemma uint_value_acc (d : Decimal.uint) :
  forall acc : positive,
    uint_value d (Zpos acc) = Zpos (Pos.of_uint_acc d acc).
Proof.
  induction d; intros acc; cbn [uint_value Pos.of_uint_acc]; [reflexivity | ..].
  all: rewrite <- IHd; f_equal; lia.
Qed.

Lemma uint_value_of_uint (d : Decimal.uint) :
  uint_value d 0 = Z.of_N (Pos.of_uint d).
Proof.
  induction d; cbn [uint_value Pos.of_uint]; [reflexivity | exact IHd | ..].
  all: match goal with
       | |- uint_value _ (10 * 0 + ?k) = _ =>
           change (10 * 0 + k) with k
       end; rewrite uint_value_acc; reflexivity.
Qed.

Lemma spaceless_uint (d : Decimal.uint) : spaceless (NilEmpty.string_of_uint d) = true.
Proof. induction d; cbn [NilEmpty.string_of_uint spaceless]; auto. Qed.

(** An ASCII string is cut into its bytes. *)
Lemma chars_spaceless (s : string) :
  spaceless s = true ->
  Py.chars s = map (fun c => (Py.byte c, String c EmptyString)) (list_ascii_of_string s).
Proof.
  unfold Py.chars.
  induction s as [| c s IH]; cbn [spaceless Py.chars_skipping list_ascii_of_string map];
    [reflexivity |].
  rewrite !andb_true_iff. intros [[Hc _] Hs].
  unfold Py.first_char. rewrite Hc.
  cbn [Nat.pred Py.first_bytes]. rewrite (IH Hs). reflexivity.
Qed.

(** It is its own ASCII numeral, and there is nothing to trim. *)
Lemma ascii_numeral_spaceless (s : string) :
  spaceless s = true -> Py.ascii_numeral s = s.
Proof.
  intros Hs. unfold Py.ascii_numeral. rewrite (chars_spaceless s Hs).
  induction s as [| c s IH]; cbn [list_ascii_of_string map string_of_list_ascii];
    [reflexivity |].
  cbn [spaceless] in Hs. rewrite !andb_true_iff in Hs. destruct Hs as [[Hc _] Hs].
  rewrite (IH Hs). unfold Py.to_ascii. cbn [fst]. rewrite Hc.
  unfold Py.byte. rewrite ascii_N_embedding. reflexivity.
Qed.

Lemma rtrim_spaceless (s : string) : spaceless s = true -> Py.rtrim s = s.
Proof.
  induction s as [| c s IH]; cbn [spaceless Py.rtrim]; [reflexivity |].
  rewrite !andb_true_iff, negb_true_iff. intros [[_ Hc] Hs].
  rewrite (IH Hs), Hc. destruct s; reflexivity.
Qed.

Lemma trimmed_numeral (s : string) :
  spaceless s = true -> Py.rtrim (Py.ltrim (Py.ascii_numeral s)) = s.
Proof.
  intros Hs. rewrite (ascii_numeral_spaceless s Hs).
  assert (Hl : Py.ltrim s = s).
  { destruct s as [| c s]; [reflexivity |]. cbn [spaceless Py.ltrim] in *.
    rewrite !andb_true_iff in Hs. destruct Hs as [[_ Hc] _].
    apply negb_true_iff in Hc. rewrite Hc. reflexivity. }
  rewrite Hl. apply rtrim_spaceless. exact Hs.
Qed.

(** [int] of an unsigned decimal numeral. *)
Lemma int_of_uint (d : Decimal.uint) :
  d <> Decimal.Nil ->
  Py.int (NilEmpty.string_of_uint d) = Some (Z.of_N (Pos.of_uint d)).
Proof.
  intros Hd. unfold Py.int. rewrite (trimmed_numeral _ (spaceless_uint d)).
  rewrite <- uint_value_of_uint, <- (digits_of_uint d 0 false (or_introl Hd)).
  destruct d; [contradiction | ..]; reflexivity.
Qed.

Lemma cookie_uid_of_str :
  forall n : Z, cookie_uid (Some (Py.str n)) = Some n.
Proof.
  intros n. unfold cookie_uid.
  assert (Hint : Py.int (Py.str n) = Some n).
  { destruct n as [| p | p].
    - reflexivity.
    - unfold Py.str. cbn [Z.to_int NilZero.string_of_int].
      pose proof (DecimalPos.Unsigned.to_uint_nonnil p) as Hnn.
      assert (E : NilZero.string_of_uint (Pos.to_uint p)
                  = NilEmpty.string_of_uint (Pos.to_uint p))
        by (destruct (Pos.to_uint p); [contradiction | ..]; reflexivity).
      rewrite E, (int_of_uint _ Hnn), DecimalPos.Unsigned.of_to. reflexivity.
    - unfold Py.str. cbn [Z.to_int NilZero.string_of_int].
      pose proof (DecimalPos.Unsigned.to_uint_nonnil p) as Hnn.
      assert (E : NilZero.string_of_uint (Pos.to_uint p)
                  = NilEmpty.string_of_uint (Pos.to_uint p))
        by (destruct (Pos.to_uint p); [contradiction | ..]; reflexivity).
      rewrite E. unfold Py.int.
      rewrite trimmed_numeral
        by (cbn [spaceless]; rewrite spaceless_uint; reflexivity).
      change (option_map Z.opp
                (Py.digits (NilEmpty.string_of_uint (Pos.to_uint p)) 0 false)
              = Some (Z.neg p)).
      rewrite (digits_of_uint _ 0 false (or_introl Hnn)), uint_value_of_uint,
        DecimalPos.Unsigned.of_to. reflexivity. }
  rewrite Hint.
  assert (Htruthy : Py.truthy_str (Py.str n) = true).
  { destruct n as [| p | p]; [reflexivity | |].
    - unfold Py.str. cbn [Z.to_int NilZero.string_of_int].
      pose proof (DecimalPos.Unsigned.to_uint_nonnil p) as Hnn.
      destruct (Pos.to_uint p); [contradiction | ..]; reflexivity.
    - reflexivity. }
  rewrite Htruthy. reflexivity.
Qed.


(** ** Fresh ids of the in-memory actor *)

Lemma next_id_above (ids : list Z) :
  0 < MemDb.next_id ids /\ forall x, In x ids -> x < MemDb.next_id ids.
Proof.
  unfold MemDb.next_id.
  assert (H : 0 <= fold_right Z.max 0 ids
              /\ forall x, In x ids -> x <= fold_right Z.max 0 ids).
  { induction ids as [| y ids [IH0 IH]]; cbn [fold_right In].
    - split; [lia | intros x []].
    - split; [lia |]. intros x [-> | Hx]; [lia |]. specialize (IH x Hx). lia. }
  destruct H as [H0 H]. split; [lia |]. intros x Hx. specialize (H x Hx). lia.
Qed.

Lemma find_next_id {A : Type} (id : A -> Z) (rows : list A) :
  find (fun r => id r =? MemDb.next_id (map id rows)) rows = None.
Proof.
  destruct (find (fun r => id r =? MemDb.next_id (map id rows)) rows) as [r |] eqn:E;
    [| reflexivity].
  apply find_some in E. destruct E as [Hin Heq]. apply Z.eqb_eq in Heq.
  destruct (next_id_above (map id rows)) as [_ Habove].
  specialize (Habove (id r) (in_map id rows r Hin)). lia.
Qed.

Lemma take_nonempty (n : nat) (s : string) :
  s <> "" -> Py.take (S n) s <> "".
Proof.
  destruct s as [| c s]; [contradiction |]. intros _.
  unfold Py.take, Py.chars. cbn [Py.chars_skipping].
  destruct (Py.first_char c s) as [cp width]. discriminate.
Qed.

(** X8.  The cookies of a registration authenticate the new user (in-memory
    actor, a hash function that never returns the empty string).  After a
    successful POST /auth/new the response has set token2 and uid2; a request
    that sends these two cookies back is resolved by [get_current_user] to
    the uid and email of the user just registered, who is no admin. *)
Theorem registration_cookies_authenticate :
  forall (sha256_hexdigest : string -> string) (jwt_secret : string) (s : MemDb.t)
         (request : AuthNewRequest.t),
    Py.truthy_str (AuthNewRequest.email request) = true ->
    Py.truthy_str (AuthNewRequest.password request) = true ->
    MemDb.read_user_by_email s (AuthNewRequest.email request) = None ->
    (forall x, sha256_hexdigest x <> "") ->
    let registered := run MemDb.world
                          (register_user sha256_hexdigest jwt_secret request) s in
    exists (token uid2 : string) (user : User.t),
      outcome registered = inr (auth_body token user)
      /\ MemDb.cookies (final registered)
         = (MemDb.cookies s ++ [("token2", token); ("uid2", uid2)])%list
      /\ outcome (run MemDb.world (get_current_user None (Some token) (Some uid2))
                      (final registered))
         = inr (Some (UserDict.mk (User.id user) (AuthNewRequest.email request) false)).
Proof.
  intros sha jwt s request He Hp Hnew Hsha registered.
  destruct (register_user_run sha jwt s request He Hp Hnew)
    as (token & Hout & Husers & Hcookies & Htoken).
  fold registered in Hout, Husers, Hcookies.
  set (user := User.mk (MemDb.next_id (map User.id (MemDb.users s)))
                       (AuthNewRequest.email request)
                       (sha (AuthNewRequest.password request)) false
                       (Some (MemDb.clock s))) in *.
  exists token, (Py.str (User.id user)), user.
  split; [exact Hout |]. split; [exact Hcookies |].
  destruct (current_user_from_cookie MemDb.world (final registered) None
              (Some token) (Some (Py.str (User.id user))) token (User.id user) user)
    as [Hwho _].
  - simpl. destruct token; [| reflexivity].
    exfalso. symmetry in Htoken. revert Htoken. apply take_nonempty. apply Hsha.
  - rewrite Htoken. apply take_nonempty. apply Hsha.
  - apply cookie_uid_of_str.
  - simpl. destruct (next_id_above (map User.id (MemDb.users s))) as [Hpos _]. lia.
  - change (MemDb.read_user (final registered) (User.id user) = Some user).
    unfold MemDb.read_user. rewrite Husers, find_snoc.
    change (User.id user) with (MemDb.next_id (map User.id (MemDb.users s))).
    rewrite (find_next_id User.id (MemDb.users s)). simpl.
    rewrite Z.eqb_refl. reflexivity.
  - exact Hwho.
Qed.

Lemma registration_cookies_authenticate_witness :
  let sha := fun s : string => "sha256(" ++ s ++ ")" in
  let registered :=
    run MemDb.world
        (register_user sha "secret"
           (AuthNewRequest.mk "bob@example.com" "pw" (Some "Bob") None None)) demo in
  exists (token uid2 : string) (user : User.t),
    outcome registered = inr (auth_body token user)
    /\ MemDb.cookies (final registered)
       = (MemDb.cookies demo ++ [("token2", token); ("uid2", uid2)])%list
    /\ outcome (run MemDb.world (get_current_user None (Some token) (Some uid2))
                    (final registered))
       = inr (Some (UserDict.mk (User.id user) "bob@example.com" false)).
Proof.
  apply (registration_cookies_authenticate (fun s : string => "sha256(" ++ s ++ ")")
           "secret" demo
           (AuthNewRequest.mk "bob@example.com" "pw" (Some "Bob") None None));
    try reflexivity.
  intros x. discriminate.
Defined.

(** ** Closing, reopening and updating a conversation *)

(** The run of a handler that resolves its conversation and then reads its
    row. *)
Lemma run_known_row (w : World) {A : Type} (conversation_id : string)
    (e : exn) (k : Z -> Prog A) (s s1 : St w) (zid : Z) :
  answer w (lookup conversation_id) s = (Some zid, s1) ->
  zid <> 0 ->
  run w (zid <- db (DatabaseActor.get_zid_by_zinvite conversation_id) ;;
         zid <- or_raise_int zid e ;; k zid) s
  = let r := run w (k zid) s1 in
    mkRun (outcome r) (final r) (Event (lookup conversation_id) :: log r).
Proof.
  intros Hz Hnz.
  rewrite (run_known_conversation w conversation_id e k s zid);
    [rewrite Hz; reflexivity | rewrite Hz; reflexivity | exact Hnz].
Qed.

(** X9.  Only the owner or an admin closes or reopens a conversation.  For a
    known conversation whose row is found: a caller who is neither its owner
    nor an admin gets HTTPException 403 "Not authorized" and nothing is
    written; for the owner or an admin the one write is
    update_conversation(zid, {"is_archived": True}) for close and
    update_conversation(zid, {"is_archived": False}) for reopen, answered
    with {"closed": true} and {"reopened": true}. *)
Theorem close_and_reopen_need_owner_or_admin :
  forall (w : World) (s s1 : St w) (conversation_id : string) (user : UserDict.t)
         (zid : Z) (conv : Conversation.t),
    answer w (lookup conversation_id) s = (Some zid, s1) ->
    zid <> 0 ->
    fst (answer w (Db (DatabaseActor.read_conversation zid)) s1) = Some conv ->
    let closing := run w (close_conversation conversation_id user) s in
    let reopening := run w (reopen_conversation conversation_id user) s in
    (Conversation.user_id conv <> UserDict.uid user ->
     UserDict.is_admin user = false ->
     outcome closing = inl (HTTPException 403 "Not authorized")
     /\ writes (log closing) = []
     /\ outcome reopening = inl (HTTPException 403 "Not authorized")
     /\ writes (log reopening) = [])
    /\ (Conversation.user_id conv = UserDict.uid user \/ UserDict.is_admin user = true ->
        outcome closing = inr (ok (VDict [("closed", VBool true)]))
        /\ writes (log closing)
           = [Event (Db (DatabaseActor.update_conversation zid
                           [("is_archived", VBool true)]))]
        /\ outcome reopening = inr (ok (VDict [("reopened", VBool true)]))
        /\ writes (log reopening)
           = [Event (Db (DatabaseActor.update_conversation zid
                           [("is_archived", VBool false)]))]).
Proof.
  intros w s s1 cid user zid conv Hz Hnz Hconv closing reopening.
  subst closing reopening. unfold close_conversation, reopen_conversation.
  rewrite !(run_known_row w cid _ _ s s1 zid Hz Hnz). simpl.
  destruct (answer w (Db (DatabaseActor.read_conversation zid)) s1) as [row s2].
  simpl in Hconv. subst row. simpl. unfold not_authorized.
  split.
  - intros Hother Hadmin. rewrite Hadmin.
    destruct (Z.eqb_spec (Conversation.user_id conv) (UserDict.uid user)) as [E | _];
      [contradiction |]. simpl. repeat split; reflexivity.
  - intros Hmay.
    assert (Hok : (negb (Conversation.user_id conv =? UserDict.uid user)
                   && negb (UserDict.is_admin user))%bool = false).
    { destruct Hmay as [-> | ->]; [rewrite Z.eqb_refl; reflexivity |].
      apply andb_false_r. }
    rewrite Hok. simpl.
    destruct (answer w (Db (DatabaseActor.update_conversation zid
                              [("is_archived", VBool true)])) s2) as [u1 s3].
    destruct (answer w (Db (DatabaseActor.update_conversation zid
                              [("is_archived", VBool false)])) s2) as [u2 s4].
    simpl. repeat split; reflexivity.
Qed.

Lemma close_and_reopen_need_owner_or_admin_witness :
  let eve := UserDict.mk 2 "eve@example.com" false in
  (outcome (run MemDb.world (close_conversation "abc" eve) demo)
   = inl (HTTPException 403 "Not authorized")
   /\ writes (log (run MemDb.world (close_conversation "abc" eve) demo)) = []
   /\ outcome (run MemDb.world (reopen_conversation "abc" eve) demo)
      = inl (HTTPException 403 "Not authorized")
   /\ writes (log (run MemDb.world (reopen_conversation "abc" eve) demo)) = [])
  /\ (outcome (run MemDb.world (close_conversation "abc" alice) demo)
      = inr (ok (VDict [("closed", VBool true)]))
      /\ writes (log (run MemDb.world (close_conversation "abc" alice) demo))
         = [Event (Db (DatabaseActor.update_conversation 1 [("is_archived", VBool true)]))]
      /\ outcome (run MemDb.world (reopen_conversation "abc" alice) demo)
         = inr (ok (VDict [("reopened", VBool true)]))
      /\ writes (log (run MemDb.world (reopen_conversation "abc" alice) demo))
         = [Event (Db (DatabaseActor.update_conversation 1 [("is_archived", VBool false)]))]).
Proof.
  split.
  - apply (close_and_reopen_need_owner_or_admin MemDb.world demo demo "abc"
             (UserDict.mk 2 "eve@example.com" false) 1
             (Conversation.mk 1 "Parks" None false 1 None None));
      try reflexivity; simpl; lia.
  - apply (close_and_reopen_need_owner_or_admin MemDb.world demo demo "abc" alice 1
             (Conversation.mk 1 "Parks" None false 1 None None));
      try reflexivity; [lia | left; reflexivity].
Defined.

(** X10.  An invite code whose conversation row is gone.  When the invite
    resolves but [read_conversation] finds no row, the handlers that guard
    the row (GET /conversations, PUT /conversations, GET /participationInit,
    POST /joinWithInvite, GET /conversations/preload) answer 404
    "Conversation not found", while POST /conversation/close and
    POST /conversation/reopen read [conv.user_id] unguarded and fail with an
    AttributeError; none of them writes anything. *)
Theorem invite_without_conversation_row :
  forall (w : World) (s s1 : St w) (conversation_id : string) (zid : Z)
         (user : UserDict.t) (anyone : option UserDict.t)
         (body : ConversationUpdateRequest.t) (pid lang : option string),
    answer w (lookup conversation_id) s = (Some zid, s1) ->
    zid <> 0 ->
    fst (answer w (Db (DatabaseActor.read_conversation zid)) s1) = None ->
    Py.truthy_str conversation_id = true ->
    ConversationUpdateRequest.conversation_id body = conversation_id ->
    let guarded : list (Run (St w) reply) :=
      [run w (handle (GetConversations (Some conversation_id) false None anyone)) s;
       run w (handle (PutConversations body user)) s;
       run w (handle (GetParticipationInit (Some conversation_id) pid lang anyone)) s;
       run w (handle (PostJoinWithInvite conversation_id anyone)) s;
       run w (handle (GetConversationsPreload conversation_id anyone)) s] in
    let unguarded : list (Run (St w) reply) :=
      [run w (handle (PostConversationClose conversation_id user)) s;
       run w (handle (PostConversationReopen conversation_id user)) s] in
    Forall (fun r => outcome r = inl not_found /\ writes (log r) = []) guarded
    /\ Forall (fun r => outcome r = inl (AttributeError "user_id")
                        /\ writes (log r) = []) unguarded.
Proof.
  intros w s s1 cid zid user anyone body pid lang Hz Hnz Hrow Hcid Hbody
         guarded unguarded.
  subst guarded unguarded.
  assert (Hstep : forall (A : Type) (e : exn) (k : Z -> Conversation.t -> Prog A) (e' : exn),
             let r := run w (zid <- db (DatabaseActor.get_zid_by_zinvite cid) ;;
                             zid <- or_raise_int zid e ;;
                             conv <- db (DatabaseActor.read_conversation zid) ;;
                             conv <- match conv with Some c => Ret c | None => Raise e' end ;;
                             k zid conv) s in
             outcome r = inl e' /\ writes (log r) = []).
  { intros A e k e'.
    rewrite (run_known_row w cid e _ s s1 zid Hz Hnz). simpl.
    destruct (answer w (Db (DatabaseActor.read_conversation zid)) s1) as [row s2].
    simpl in Hrow. subst row. simpl. split; reflexivity. }
  assert (Hwrap : forall (A : Type) (p : Prog A) (f : A -> Prog reply) (e : exn),
             outcome (run w p s) = inl e /\ writes (log (run w p s)) = [] ->
             outcome (run w (bind p f) s) = inl e
             /\ writes (log (run w (bind p f) s)) = []).
  { intros A p f e [Ho Hl]. rewrite run_bind. unfold then_run. rewrite Ho. simpl.
    split; [reflexivity | exact Hl]. }
  split.
  - repeat apply Forall_cons; try apply Forall_nil;
      cbv beta; simpl handle; unfold polis, json; apply Hwrap.
    + unfold get_conversations. rewrite Hcid. unfold get_conversations_one.
      apply (Hstep _ not_found _ not_found).
    + unfold update_conversation. cbv zeta. rewrite Hbody.
      apply (Hstep _ not_found _ not_found).
    + unfold participation_init. cbn [Py.truthy_opt_str]. rewrite Hcid.
      apply (Hstep _ not_found _ not_found).
    + unfold join_with_invite. apply (Hstep _ _ _ not_found).
    + unfold preload_conversation. apply (Hstep _ not_found _ not_found).
  - repeat apply Forall_cons; try apply Forall_nil;
      cbv beta; simpl handle; unfold polis; apply Hwrap.
    + unfold close_conversation. apply (Hstep _ not_found _ (AttributeError "user_id")).
    + unfold reopen_conversation. apply (Hstep _ not_found _ (AttributeError "user_id")).
Qed.

Lemma invite_without_conversation_row_witness :
  let guarded : list (Run MemDb.t reply) :=
    [run MemDb.world (handle (GetConversations (Some "gone") false None None)) orphan;
     run MemDb.world (handle (PutConversations (bare_update "gone") alice)) orphan;
     run MemDb.world (handle (GetParticipationInit (Some "gone") None None None)) orphan;
     run MemDb.world (handle (PostJoinWithInvite "gone" None)) orphan;
     run MemDb.world (handle (GetConversationsPreload "gone" None)) orphan] in
  let unguarded : list (Run MemDb.t reply) :=
    [run MemDb.world (handle (PostConversationClose "gone" alice)) orphan;
     run MemDb.world (handle (PostConversationReopen "gone" alice)) orphan] in
  Forall (fun r => outcome r = inl not_found /\ writes (log r) = []) guarded
  /\ Forall (fun r => outcome r = inl (AttributeError "user_id")
                      /\ writes (log r) = []) unguarded.
Proof.
  apply (invite_without_conversation_row MemDb.world orphan orphan "gone" 9 alice None
           (bare_update "gone") None None); try reflexivity.
  lia.
Defined.

(** What [update_conversation] of the in-memory actor leaves behind. *)
Lemma update_conversation_frame (s : MemDb.t) (zid : Z) (data : dict) :
  let s' := snd (MemDb.update_conversation s zid data) in
  MemDb.read_conversation s' zid
  = option_map (MemDb.patch_conversation data) (MemDb.read_conversation s zid)
  /\ fst (MemDb.update_conversation s zid data) = MemDb.read_conversation s' zid
  /\ MemDb.zinvites s' = MemDb.zinvites s
  /\ MemDb.users s' = MemDb.users s
  /\ MemDb.participants s' = MemDb.participants s
  /\ MemDb.comments s' = MemDb.comments s
  /\ MemDb.votes s' = MemDb.votes s.
Proof.
  unfold MemDb.update_conversation, MemDb.read_conversation. simpl.
  repeat split.
  rewrite find_map_same.
  - destruct (find (fun c => Conversation.id c =? zid) (MemDb.conversations s))
      as [c |] eqn:E; simpl; [| reflexivity].
    apply find_some in E. destruct E as [_ E]. rewrite E. reflexivity.
  - intros c. destruct (Conversation.id c =? zid) eqn:E; [| exact E].
    simpl. exact E.
Qed.

(** X11.  Close, then reopen (in-memory actor).  When the owner or an admin
    closes a known conversation, its row becomes archived and
    GET /conversations/preload reports is_active false; reopening it makes
    the row unarchived again and preload reports is_active true.  Title,
    description, owner and settings of the row, and the users, invite codes,
    participants, comments and votes, are what they were. *)
Theorem close_then_reopen :
  forall (s : MemDb.t) (conversation_id : string) (user : UserDict.t)
         (zid : Z) (conv : Conversation.t),
    MemDb.get_zid_by_zinvite s conversation_id = Some zid ->
    zid <> 0 ->
    MemDb.read_conversation s zid = Some conv ->
    Conversation.user_id conv = UserDict.uid user \/ UserDict.is_admin user = true ->
    let closed := run MemDb.world (close_conversation conversation_id user) s in
    let reopened :=
      run MemDb.world (reopen_conversation conversation_id user) (final closed) in
    MemDb.read_conversation (final closed) zid = Some (archived true conv)
    /\ (exists r, outcome (run MemDb.world (preload_conversation conversation_id None)
                               (final closed)) = inr r
                  /\ payload_field r "is_active" = VBool false)
    /\ MemDb.read_conversation (final reopened) zid = Some (archived false conv)
    /\ (exists r, outcome (run MemDb.world (preload_conversation conversation_id None)
                               (final reopened)) = inr r
                  /\ payload_field r "is_active" = VBool true)
    /\ MemDb.users (final reopened) = MemDb.users s
    /\ MemDb.zinvites (final reopened) = MemDb.zinvites s
    /\ MemDb.participants (final reopened) = MemDb.participants s
    /\ MemDb.comments (final reopened) = MemDb.comments s
    /\ MemDb.votes (final reopened) = MemDb.votes s.
Proof.
  intros s cid user zid conv Hz Hnz Hconv Hmay closed reopened.
  assert (Hrun : forall (s0 : MemDb.t) (c : Conversation.t) (b : bool)
                        (label : string),
             MemDb.get_zid_by_zinvite s0 cid = Some zid ->
             MemDb.read_conversation s0 zid = Some c ->
             Conversation.user_id c = UserDict.uid user \/ UserDict.is_admin user = true ->
             final (run MemDb.world
                        (zid <- db (DatabaseActor.get_zid_by_zinvite cid) ;;
                         zid <- or_raise_int zid not_found ;;
                         conv <- db (DatabaseActor.read_conversation zid) ;;
                         conv <- attr_of conv "user_id" ;;
                         if not_authorized conv user then Raise forbidden else
                         db (DatabaseActor.update_conversation zid
                               [("is_archived", VBool b)]) ;;
                         Ret (ok (VDict [(label, VBool true)]))) s0)
             = snd (MemDb.update_conversation s0 zid [("is_archived", VBool b)])).
  { intros s0 c b label Hz0 Hc0 Hmay0.
    rewrite (run_known_row MemDb.world cid _ _ s0 s0 zid);
      [| unfold lookup; simpl; rewrite Hz0; reflexivity | exact Hnz].
    cbn -[MemDb.update_conversation MemDb.read_conversation]. rewrite Hc0.
    cbn -[MemDb.update_conversation]. unfold not_authorized.
    assert (Hok : (negb (Conversation.user_id c =? UserDict.uid user)
                   && negb (UserDict.is_admin user))%bool = false).
    { destruct Hmay0 as [-> | ->]; [rewrite Z.eqb_refl; reflexivity |].
      apply andb_false_r. }
    rewrite Hok. cbn -[MemDb.update_conversation].
    destruct (MemDb.update_conversation s0 zid [("is_archived", VBool b)]); reflexivity. }
  assert (Hpre : forall (s0 : MemDb.t) (c : Conversation.t),
             MemDb.get_zid_by_zinvite s0 cid = Some zid ->
             MemDb.read_conversation s0 zid = Some c ->
             exists r, outcome (run MemDb.world (preload_conversation cid None) s0) = inr r
                       /\ payload_field r "is_active"
                          = VBool (negb (Conversation.is_archived c))).
  { intros s0 c Hz0 Hc0. unfold preload_conversation.
    rewrite (run_known_row MemDb.world cid _ _ s0 s0 zid);
      [| unfold lookup; simpl; rewrite Hz0; reflexivity | exact Hnz].
    cbn -[MemDb.read_conversation]. rewrite Hc0. simpl.
    eexists. split; reflexivity. }
  pose proof (Hrun s conv true "closed" Hz Hconv Hmay) as Hclosed.
  change (final closed
          = snd (MemDb.update_conversation s zid [("is_archived", VBool true)]))
    in Hclosed.
  clearbody closed.
  destruct (update_conversation_frame s zid [("is_archived", VBool true)])
    as (Hrow1 & _ & Hzi1 & Hu1 & Hp1 & Hc1 & Hv1).
  cbv zeta in Hrow1, Hzi1, Hu1, Hp1, Hc1, Hv1.
  rewrite <- Hclosed in Hrow1, Hzi1, Hu1, Hp1, Hc1, Hv1.
  rewrite Hconv in Hrow1. cbn [option_map] in Hrow1.
  change (MemDb.patch_conversation [("is_archived", VBool true)] conv)
    with (archived true conv) in Hrow1.
  assert (Hz1 : MemDb.get_zid_by_zinvite (final closed) cid = Some zid)
    by (unfold MemDb.get_zid_by_zinvite in *; rewrite Hzi1; exact Hz).
  pose proof (Hrun (final closed) (archived true conv) false "reopened" Hz1 Hrow1 Hmay)
    as Hreopened.
  change (final reopened
          = snd (MemDb.update_conversation (final closed) zid
                   [("is_archived", VBool false)])) in Hreopened.
  clearbody reopened.
  destruct (update_conversation_frame (final closed) zid [("is_archived", VBool false)])
    as (Hrow2 & _ & Hzi2 & Hu2 & Hp2 & Hc2 & Hv2).
  cbv zeta in Hrow2, Hzi2, Hu2, Hp2, Hc2, Hv2.
  rewrite <- Hreopened in Hrow2, Hzi2, Hu2, Hp2, Hc2, Hv2.
  rewrite Hrow1 in Hrow2. cbn [option_map] in Hrow2.
  change (MemDb.patch_conversation [("is_archived", VBool false)] (archived true conv))
    with (archived false conv) in Hrow2.
  assert (Hz2 : MemDb.get_zid_by_zinvite (final reopened) cid = Some zid)
    by (unfold MemDb.get_zid_by_zinvite in *; rewrite Hzi2; exact Hz1).
  split; [exact Hrow1 |].
  split; [exact (Hpre (final closed) (archived true conv) Hz1 Hrow1) |].
  split; [exact Hrow2 |].
  split; [exact (Hpre (final reopened) (archived false conv) Hz2 Hrow2) |].
  repeat split; congruence.
Qed.

Lemma close_then_reopen_witness :
  let closed := run MemDb.world (close_conversation "abc" alice) demo in
  let reopened := run MemDb.world (reopen_conversation "abc" alice) (final closed) in
  MemDb.read_conversation (final closed) 1
  = Some (Conversation.mk 1 "Parks" None true 1 None None)
  /\ (exists r, outcome (run MemDb.world (preload_conversation "abc" None)
                             (final closed)) = inr r
                /\ payload_field r "is_active" = VBool false)
  /\ MemDb.read_conversation (final reopened) 1
     = Some (Conversation.mk 1 "Parks" None false 1 None None)
  /\ (exists r, outcome (run MemDb.world (preload_conversation "abc" None)
                             (final reopened)) = inr r
                /\ payload_field r "is_active" = VBool true)
  /\ MemDb.users (final reopened) = MemDb.users demo
  /\ MemDb.zinvites (final reopened) = MemDb.zinvites demo
  /\ MemDb.participants (final reopened) = MemDb.participants demo
  /\ MemDb.comments (final reopened) = MemDb.comments demo
  /\ MemDb.votes (final reopened) = MemDb.votes demo.
Proof.
  apply (close_then_reopen demo "abc" alice 1
           (Conversation.mk 1 "Parks" None false 1 None None));
    try reflexivity; [lia | left; reflexivity].
Defined.

(** X12.  PUT /conversations reads three fields of its request.  For a
    known conversation whose row is found and a caller who is its owner or
    an admin, the handler writes at most once: nothing when topic,
    description and is_active are all absent (it then answers with the
    stored title, description and activity, whatever the twelve other fields
    of the request say), and otherwise update_conversation with the title,
    description and negated is_active that were given. *)
Theorem update_conversation_writes_the_given_fields :
  forall (w : World) (s s1 : St w) (request : ConversationUpdateRequest.t)
         (user : UserDict.t) (zid : Z) (conv : Conversation.t),
    answer w (lookup (ConversationUpdateRequest.conversation_id request)) s
      = (Some zid, s1) ->
    zid <> 0 ->
    fst (answer w (Db (DatabaseActor.read_conversation zid)) s1) = Some conv ->
    Conversation.user_id conv = UserDict.uid user \/ UserDict.is_admin user = true ->
    let r := run w (update_conversation request user) s in
    (conversation_patch request = [] ->
     writes (log r) = []
     /\ outcome r = inr (ok (VDict [
          ("conversation_id", VStr (ConversationUpdateRequest.conversation_id request));
          ("topic", VStr (Conversation.title conv));
          ("description", opt_str (Conversation.description conv));
          ("is_active", VBool (negb (Conversation.is_archived conv)))])))
    /\ (conversation_patch request <> [] ->
        writes (log r)
        = [Event (Db (DatabaseActor.update_conversation zid (conversation_patch request)))]).
Proof.
  intros w s s1 request user zid conv Hz Hnz Hconv Hmay r. subst r.
  unfold update_conversation. cbv zeta.
  rewrite (run_known_row w _ _ _ s s1 zid Hz Hnz). simpl.
  destruct (answer w (Db (DatabaseActor.read_conversation zid)) s1) as [row s2].
  simpl in Hconv. subst row. simpl. unfold not_authorized.
  assert (Hok : (negb (Conversation.user_id conv =? UserDict.uid user)
                 && negb (UserDict.is_admin user))%bool = false).
  { destruct Hmay as [-> | ->]; [rewrite Z.eqb_refl; reflexivity |].
    apply andb_false_r. }
  rewrite Hok. simpl. fold (conversation_patch request).
  destruct (conversation_patch request) as [| kv patch]; simpl.
  - split; [intros _; split; reflexivity | intros H; contradiction].
  - split; [intros H; discriminate | intros _].
    destruct (answer w (Db (DatabaseActor.update_conversation zid (kv :: patch))) s2)
      as [updated s3].
    destruct updated; reflexivity.
Qed.

Lemma update_conversation_writes_the_given_fields_witness :
  let ignored :=
    ConversationUpdateRequest.mk "abc" None None None (Some true) (Some true) None
      None None None None (Some 1) None None (Some "#fff") None in
  let retitle :=
    ConversationUpdateRequest.mk "abc" (Some "Trees") None (Some false) None None None
      None None None None None None None None None in
  (writes (log (run MemDb.world (update_conversation ignored alice) demo)) = []
   /\ outcome (run MemDb.world (update_conversation ignored alice) demo)
      = inr (ok (VDict [("conversation_id", VStr "abc"); ("topic", VStr "Parks");
                        ("description", VNone); ("is_active", VBool true)])))
  /\ writes (log (run MemDb.world (update_conversation retitle alice) demo))
     = [Event (Db (DatabaseActor.update_conversation 1
                     [("title", VStr "Trees"); ("is_archived", VBool true)]))].
Proof.
  split.
  - apply (update_conversation_writes_the_given_fields MemDb.world demo demo
             (ConversationUpdateRequest.mk "abc" None None None (Some true) (Some true)
                None None None None None (Some 1) None None (Some "#fff") None)
             alice 1 (Conversation.mk 1 "Parks" None false 1 None None));
      try reflexivity; [lia | left; reflexivity].
  - apply (update_conversation_writes_the_given_fields MemDb.world demo demo
             (ConversationUpdateRequest.mk "abc" (Some "Trees") None (Some false) None
                None None None None None None None None None None None)
             alice 1 (Conversation.mk 1 "Parks" None false 1 None None));
      try reflexivity; [lia | left; reflexivity | discriminate].
Defined.

(** ** Joining a conversation *)

(** X13.  Joining twice is joining once (in-memory actor).  A second
    POST /participants by the same user for the same known conversation
    answers exactly as the first did and leaves the participant rows as the
    first left them; the first adds at most one row. *)
Theorem join_conversation_is_idempotent :
  forall (s : MemDb.t) (conversation_id : string) (user : UserDict.t) (zid : Z),
    MemDb.get_zid_by_zinvite s conversation_id = Some zid ->
    zid <> 0 ->
    let first := run MemDb.world (join_conversation conversation_id user) s in
    let second := run MemDb.world (join_conversation conversation_id user) (final first) in
    outcome second = outcome first
    /\ final second = final first
    /\ (List.length (MemDb.participants (final first))
        <= S (List.length (MemDb.participants s)))%nat
    /\ exists p, MemDb.get_participant_by_zid_uid (final first) zid (UserDict.uid user)
                 = Some p.
Proof.
  intros s cid user zid Hz Hnz first second.
  assert (Hrun : forall s0, MemDb.get_zid_by_zinvite s0 cid = Some zid ->
             let ps := MemDb.get_or_create_participant s0 zid (UserDict.uid user) in
             final (run MemDb.world (join_conversation cid user) s0) = snd ps
             /\ outcome (run MemDb.world (join_conversation cid user) s0)
                = inr (ok (VDict [
                    ("pid", VInt (Participant.pid (fst ps)));
                    ("zid", VInt (Participant.zid (fst ps)));
                    ("uid", VInt (Participant.uid (fst ps)));
                    ("vote_count", VInt (Participant.vote_count (fst ps)))]))).
  { intros s0 Hz0. unfold join_conversation.
    rewrite (run_known_row MemDb.world cid _ _ s0 s0 zid);
      [| unfold lookup; simpl; rewrite Hz0; reflexivity | exact Hnz].
    cbn -[MemDb.get_or_create_participant].
    destruct (MemDb.get_or_create_participant s0 zid (UserDict.uid user)); split; reflexivity. }
  destruct (Hrun s Hz) as [Hfin1 Hout1]. fold first in Hfin1, Hout1.
  destruct (get_or_create_participant_frame s zid (UserDict.uid user))
    as (_ & Hzin & Hp).
  cbv zeta in Hzin, Hp. rewrite <- Hfin1 in Hzin, Hp.
  assert (Hz1 : MemDb.get_zid_by_zinvite (final first) cid = Some zid)
    by (unfold MemDb.get_zid_by_zinvite in *; rewrite Hzin; exact Hz).
  destruct (Hrun (final first) Hz1) as [Hfin2 Hout2]. fold second in Hfin2, Hout2.
  assert (Hgc : MemDb.get_or_create_participant (final first) zid (UserDict.uid user)
                = (fst (MemDb.get_or_create_participant s zid (UserDict.uid user)),
                   final first)).
  { unfold MemDb.get_or_create_participant at 1. rewrite Hp. reflexivity. }
  rewrite Hgc in Hfin2, Hout2. cbn [fst snd] in Hfin2, Hout2.
  split; [rewrite Hout2, Hout1; reflexivity |].
  split; [exact Hfin2 |].
  split.
  - rewrite Hfin1. unfold MemDb.get_or_create_participant.
    destruct (MemDb.get_participant_by_zid_uid s zid (UserDict.uid user)); simpl.
    + lia.
    + rewrite length_app. simpl. lia.
  - eexists. exact Hp.
Qed.

Lemma join_conversation_is_idempotent_witness :
  let first := run MemDb.world (join_conversation "abc" alice) demo in
  let second := run MemDb.world (join_conversation "abc" alice) (final first) in
  outcome second = outcome first
  /\ final second = final first
  /\ (List.length (MemDb.participants (final first))
      <= S (List.length (MemDb.participants demo)))%nat
  /\ exists p, MemDb.get_participant_by_zid_uid (final first) 1 1 = Some p.
Proof.
  apply (join_conversation_is_idempotent demo "abc" alice 1); [reflexivity | lia].
Defined.

(** ** Comments and the next comment *)

(** The loop of GET /nextComment on the in-memory actor: it only reads, and
    stops at the first eligible comment. *)
Lemma next_unvoted_run (s : MemDb.t) (uid : Z) (comments : list Comment.t) :
  let r := run MemDb.world (next_unvoted uid comments) s in
  outcome r = inr (ok (match find (eligible s uid) comments with
                       | Some c => next_comment_entry c
                       | None => VNone
                       end))
  /\ final r = s
  /\ writes (log r) = [].
Proof.
  induction comments as [| c comments IH]; [repeat split |].
  cbn -[MemDb.get_vote_by_user_comment]. unfold eligible at 1.
  destruct (MemDb.get_vote_by_user_comment s uid (Comment.id c)) as [v |];
    cbn [Py.truthy_opt negb andb].
  - exact IH.
  - destruct (0 <=? Comment.moderation_status c); [repeat split | exact IH].
Qed.

Lemma find_same {A : Type} (f g : A -> bool) (l : list A) :
  (forall x, f x = g x) -> find f l = find g l.
Proof.
  intros Hfg. induction l as [| x l IH]; simpl; [reflexivity |].
  rewrite Hfg, IH. reflexivity.
Qed.

(** [get_or_create_participant] and [new_participant] leave comments alone. *)
Lemma new_participant_frame (s : MemDb.t) (zid uid : Z) :
  MemDb.votes (snd (MemDb.new_participant s zid uid)) = MemDb.votes s
  /\ MemDb.comments (snd (MemDb.new_participant s zid uid)) = MemDb.comments s.
Proof. split; reflexivity. Qed.

Lemma get_or_create_participant_comments (s : MemDb.t) (zid uid : Z) :
  MemDb.comments (snd (MemDb.get_or_create_participant s zid uid)) = MemDb.comments s.
Proof.
  unfold MemDb.get_or_create_participant.
  destruct (MemDb.get_participant_by_zid_uid s zid uid); reflexivity.
Qed.

(** GET /nextComment on the in-memory actor, for a known conversation. *)
Lemma get_next_comment_run (s : MemDb.t) (conversation_id : string)
    (user : UserDict.t) (zid : Z) :
  MemDb.get_zid_by_zinvite s conversation_id = Some zid ->
  zid <> 0 ->
  let r := run MemDb.world (get_next_comment conversation_id user) s in
  outcome r = inr (ok (match find (eligible s (UserDict.uid user))
                                  (MemDb.comments_of s zid) with
                       | Some c => next_comment_entry c
                       | None => VNone
                       end))
  /\ MemDb.votes (final r) = MemDb.votes s
  /\ MemDb.comments (final r) = MemDb.comments s.
Proof.
  intros Hz Hnz r. subst r. unfold get_next_comment.
  rewrite (run_known_row MemDb.world conversation_id _ _ s s zid);
    [| unfold lookup; simpl; rewrite Hz; reflexivity | exact Hnz].
  cbn -[MemDb.get_participant_by_zid_uid MemDb.new_participant next_unvoted
        MemDb.comments_of].
  destruct (MemDb.get_participant_by_zid_uid s zid (UserDict.uid user)) as [p |].
  - cbn -[next_unvoted MemDb.comments_of].
    destruct (next_unvoted_run s (UserDict.uid user) (MemDb.comments_of s zid))
      as (Hout & Hfin & _).
    cbv zeta in Hout, Hfin.
    split; [exact Hout | split; f_equal; exact Hfin].
  - cbn -[next_unvoted MemDb.comments_of MemDb.new_participant].
    destruct (new_participant_frame s zid (UserDict.uid user)) as [Hv Hc].
    destruct (MemDb.new_participant s zid (UserDict.uid user)) as [p s1].
    cbn [fst snd] in *. cbn -[next_unvoted MemDb.comments_of].
    destruct (next_unvoted_run s1 (UserDict.uid user) (MemDb.comments_of s1 zid))
      as (Hout & Hfin & _).
    cbv zeta in Hout, Hfin.
    assert (Hsame : MemDb.comments_of s1 zid = MemDb.comments_of s zid)
      by (unfold MemDb.comments_of; rewrite Hc; reflexivity).
    assert (Hel : forall c, eligible s1 (UserDict.uid user) c
                            = eligible s (UserDict.uid user) c)
      by (intros c; unfold eligible, MemDb.get_vote_by_user_comment; rewrite Hv;
          reflexivity).
    rewrite (find_same _ _ _ Hel) in Hout. rewrite Hsame in Hout, Hfin |- *.
    split; [exact Hout |].
    split; [rewrite <- Hv | rewrite <- Hc]; f_equal; exact Hfin.
Qed.

(** X14.  What GET /nextComment offers (in-memory actor).  For a known
    conversation it never raises; it answers either with a comment of that
    conversation on which the user has no vote and whose moderation status
    is not negative, or with no data, and then every comment of the
    conversation has a vote of the user or a negative moderation status.
    It changes neither votes nor comments. *)
Theorem next_comment_is_unvoted_and_unmoderated :
  forall (s : MemDb.t) (conversation_id : string) (user : UserDict.t) (zid : Z),
    MemDb.get_zid_by_zinvite s conversation_id = Some zid ->
    zid <> 0 ->
    let r := run MemDb.world (get_next_comment conversation_id user) s in
    ((exists c, outcome r = inr (ok (next_comment_entry c))
                /\ In c (MemDb.comments_of s zid)
                /\ MemDb.get_vote_by_user_comment s (UserDict.uid user) (Comment.id c) = None
                /\ 0 <= Comment.moderation_status c)
     \/ (outcome r = inr (ok VNone)
         /\ forall c, In c (MemDb.comments_of s zid) ->
                      MemDb.get_vote_by_user_comment s (UserDict.uid user) (Comment.id c)
                        <> None
                      \/ Comment.moderation_status c < 0))
    /\ MemDb.votes (final r) = MemDb.votes s
    /\ MemDb.comments (final r) = MemDb.comments s.
Proof.
  intros s cid user zid Hz Hnz r.
  destruct (get_next_comment_run s cid user zid Hz Hnz) as (Hout & Hv & Hc).
  fold r in Hout, Hv, Hc. split; [| split; assumption].
  destruct (find (eligible s (UserDict.uid user)) (MemDb.comments_of s zid))
    as [c |] eqn:E.
  - left. exists c. apply find_some in E. destruct E as [Hin Hel].
    unfold eligible in Hel. apply andb_true_iff in Hel. destruct Hel as [Hno Hmod].
    split; [exact Hout |]. split; [exact Hin |]. split.
    + destruct (MemDb.get_vote_by_user_comment s (UserDict.uid user) (Comment.id c));
        [discriminate | reflexivity].
    + apply Z.leb_le. exact Hmod.
  - right. split; [exact Hout |]. intros c Hin.
    apply (find_none _ _ E) in Hin. unfold eligible in Hin.
    apply andb_false_iff in Hin. destruct Hin as [Hvoted | Hmod].
    + left. destruct (MemDb.get_vote_by_user_comment s (UserDict.uid user) (Comment.id c));
        [discriminate | discriminate Hvoted].
    + right. apply Z.leb_gt. exact Hmod.
Qed.

Lemma next_comment_is_unvoted_and_unmoderated_witness :
  let r := run MemDb.world (get_next_comment "abc" alice) demo in
  ((exists c, outcome r = inr (ok (next_comment_entry c))
              /\ In c (MemDb.comments_of demo 1)
              /\ MemDb.get_vote_by_user_comment demo 1 (Comment.id c) = None
              /\ 0 <= Comment.moderation_status c)
   \/ (outcome r = inr (ok VNone)
       /\ forall c, In c (MemDb.comments_of demo 1) ->
                    MemDb.get_vote_by_user_comment demo 1 (Comment.id c) <> None
                    \/ Comment.moderation_status c < 0))
  /\ MemDb.votes (final r) = MemDb.votes demo
  /\ MemDb.comments (final r) = MemDb.comments demo.
Proof.
  apply (next_comment_is_unvoted_and_unmoderated demo "abc" alice 1); [reflexivity | lia].
Defined.

(** X15.  A comment just voted on is not offered again (in-memory actor).
    After a POST /votes with an allowed value for a known conversation, the
    same user's GET /nextComment for that conversation never answers with the
    comment that was voted on. *)
Theorem voted_comment_is_not_offered_again :
  forall (s : MemDb.t) (conversation_id : string) (tid vote : Z)
         (user : UserDict.t) (zid : Z),
    vote_allowed vote = true ->
    MemDb.get_zid_by_zinvite s conversation_id = Some zid ->
    zid <> 0 ->
    let voted_state := final (run MemDb.world
                                  (create_vote conversation_id tid vote user) s) in
    exists r, outcome (run MemDb.world (get_next_comment conversation_id user)
                           voted_state) = inr r
              /\ offered_tid r <> VInt tid.
Proof.
  intros s cid tid vote user zid Hvote Hz Hnz voted_state.
  destruct (create_vote_stores s cid tid vote user zid Hvote Hz Hnz)
    as (v & Hstored & _ & _).
  destruct (create_vote_frame s cid tid vote user zid Hvote Hz Hnz) as (Hz1 & _).
  fold voted_state in Hstored, Hz1.
  destruct (get_next_comment_run voted_state cid user zid Hz1 Hnz) as (Hout & _).
  cbv zeta in Hout. eexists. split; [exact Hout |].
  destruct (find (eligible voted_state (UserDict.uid user))
                 (MemDb.comments_of voted_state zid)) as [c |] eqn:E.
  - apply find_some in E. destruct E as [_ Hel].
    unfold offered_tid, payload_field. simpl. intros Heq. injection Heq as Heq.
    unfold eligible in Hel. rewrite Heq, Hstored in Hel. discriminate Hel.
  - discriminate.
Qed.

Lemma voted_comment_is_not_offered_again_witness :
  let voted_state := final (run MemDb.world (create_vote "abc" 7 1 alice) demo) in
  exists r, outcome (run MemDb.world (get_next_comment "abc" alice) voted_state) = inr r
            /\ offered_tid r <> VInt 7.
Proof.
  apply (voted_comment_is_not_offered_again demo "abc" 7 1 alice 1);
    [reflexivity | reflexivity | lia].
Defined.

(** X16.  The comment of a vote is never looked up (in-memory actor).
    POST /votes with an allowed value for a known conversation succeeds for
    every tid, also one under which no comment exists at all: the vote row is
    stored for that tid, and neither the comment nor its conversation is
    read. *)
Theorem vote_on_missing_comment_is_recorded :
  forall (s : MemDb.t) (conversation_id : string) (tid vote : Z)
         (user : UserDict.t) (zid : Z),
    vote_allowed vote = true ->
    MemDb.get_zid_by_zinvite s conversation_id = Some zid ->
    zid <> 0 ->
    find (fun c => Comment.id c =? tid) (MemDb.comments s) = None ->
    let r := run MemDb.world (create_vote conversation_id tid vote user) s in
    (exists vid pid, outcome r = inr (vote_response vid pid tid vote))
    /\ option_map Vote.value
         (MemDb.get_vote_by_user_comment (final r) (UserDict.uid user) tid) = Some vote
    /\ Forall (fun ev => match ev with
                         | Event (Db (DatabaseActor.list_comments_by_conversation_id _ _ _))
                         | Event (Db (DatabaseActor.read_conversation _)) => False
                         | _ => True
                         end) (log r).
Proof.
  intros s cid tid vote user zid Hvote Hz Hnz _ r.
  destruct (create_vote_stores s cid tid vote user zid Hvote Hz Hnz)
    as (v & Hstored & Hval & Hout).
  fold r in Hstored, Hout.
  split; [eexists; eexists; exact Hout |].
  split; [rewrite Hstored; simpl; rewrite Hval; reflexivity |].
  pose proof (create_vote_run s cid tid vote user zid Hvote Hz Hnz) as H.
  cbv zeta in H. fold r in H.
  destruct (find (MemDb.vote_of (UserDict.uid user) tid) (MemDb.votes s));
    destruct H as (_ & _ & Hlog); rewrite Hlog; repeat constructor.
Qed.

Lemma vote_on_missing_comment_is_recorded_witness :
  let r := run MemDb.world (create_vote "abc" 404 1 alice) demo in
  (exists vid pid, outcome r = inr (vote_response vid pid 404 1))
  /\ option_map Vote.value (MemDb.get_vote_by_user_comment (final r) 1 404) = Some 1
  /\ Forall (fun ev => match ev with
                       | Event (Db (DatabaseActor.list_comments_by_conversation_id _ _ _))
                       | Event (Db (DatabaseActor.read_conversation _)) => False
                       | _ => True
                       end) (log r).
Proof.
  apply (vote_on_missing_comment_is_recorded demo "abc" 404 1 alice 1);
    [reflexivity | reflexivity | lia | reflexivity].
Defined.

(** X17.  What POST /comments hands to the persistence actor.  With an
    accepted conversation_id and text and a known conversation, the handler
    makes two writes: it gets or creates the caller's participant, then
    creates the comment with the text exactly as sent (the blank check
    strips it, the stored text is not stripped), the caller's uid, the zid
    and moderation status 0.  When a JSON body is present the query
    parameters are not read. *)
Theorem create_comment_stores_the_text_as_sent :
  forall (w : World) (s s1 : St w) (user : UserDict.t) (conversation_id txt : string)
         (zid : Z),
    Py.truthy_str conversation_id = true ->
    Py.truthy_str txt = true ->
    Py.strip txt <> "" ->
    answer w (lookup conversation_id) s = (Some zid, s1) ->
    zid <> 0 ->
    let r := run w (create_comment user (Some conversation_id) (Some txt) None) s in
    writes (log r)
    = [Event (Db (DatabaseActor.get_or_create_participant zid (UserDict.uid user)));
       Event (Db (DatabaseActor.create_comment
                    [("text_field", VStr txt);
                     ("user_id", VInt (UserDict.uid user));
                     ("conversation_id", VInt zid);
                     ("moderation_status", VInt 0)]))]
    /\ (exists data, outcome r = inr (ok data))
    /\ forall (c t : option string) (pid : option string) (is_seed : option bool),
         create_comment user c t
           (Some (CommentCreateRequest.mk conversation_id txt pid is_seed))
         = create_comment user (Some conversation_id) (Some txt) None.
Proof.
  intros w s s1 user cid txt zid Hc Ht Hstrip Hz Hnz r. subst r.
  split; [| split; [| reflexivity]]; unfold create_comment; rewrite Hc, Ht;
    cbn [negb orb];
    destruct (Py.strip txt) as [| ch rest] eqn:E; try contradiction;
    cbn [String.length Nat.eqb];
    rewrite (run_known_row w cid _ _ s s1 zid Hz Hnz); simpl;
    destruct (answer w (Db (DatabaseActor.get_or_create_participant zid _)) s1)
      as [p s2];
    destruct (answer w (Db (DatabaseActor.create_comment _)) s2) as [c s3]; simpl.
  - reflexivity.
  - eexists. reflexivity.
Qed.

Lemma create_comment_stores_the_text_as_sent_witness :
  let r := run MemDb.world (create_comment alice (Some "abc") (Some " ok ") None) demo in
  writes (log r)
  = [Event (Db (DatabaseActor.get_or_create_participant 1 1));
     Event (Db (DatabaseActor.create_comment
                  [("text_field", VStr " ok "); ("user_id", VInt 1);
                   ("conversation_id", VInt 1); ("moderation_status", VInt 0)]))]
  /\ (exists data, outcome r = inr (ok data))
  /\ forall (c t : option string) (pid : option string) (is_seed : option bool),
       create_comment alice c t (Some (CommentCreateRequest.mk "abc" " ok " pid is_seed))
       = create_comment alice (Some "abc") (Some " ok ") None.
Proof.
  apply (create_comment_stores_the_text_as_sent MemDb.world demo demo alice "abc" " ok " 1);
    try reflexivity; [discriminate | lia].
Defined.

(** A program that returns goes on with what it returned. *)
Lemma run_bind_returns (w : World) {A B : Type} (p : Prog A) (f : A -> Prog B)
    (s s1 : St w) (a : A) :
  outcome (run w p s) = inr a ->
  final (run w p s) = s1 ->
  outcome (run w (bind p f) s) = outcome (run w (f a) s1)
  /\ final (run w (bind p f) s) = final (run w (f a) s1).
Proof.
  intros Ho Hf. rewrite run_bind. unfold then_run. rewrite Ho, Hf.
  split; reflexivity.
Qed.

(** The loop of GET /comments on the in-memory actor. *)
Lemma get_comments_loop (s : MemDb.t) (zid : Z) (user : option UserDict.t)
    (comments : list Comment.t) :
  forall acc : list value,
    let r := run MemDb.world
                 (for_each comments acc (fun c result =>
                    participant <- match user with
                                   | Some u => db (DatabaseActor.get_participant_by_zid_uid
                                                     zid (UserDict.uid u))
                                   | None => Ret None
                                   end ;;
                    Ret (result ++ [comment_entry c])%list)) s in
    outcome r = inr (acc ++ map comment_entry comments)%list /\ final r = s.
Proof.
  induction comments as [| c comments IH]; intros acc.
  - simpl. rewrite app_nil_r. split; reflexivity.
  - cbn [for_each]. rewrite run_bind. unfold then_run.
    assert (Hbody : forall u, run MemDb.world
                      (participant <- match u with
                                      | Some u => db (DatabaseActor.get_participant_by_zid_uid
                                                        zid (UserDict.uid u))
                                      | None => Ret None
                                      end ;;
                       Ret (acc ++ [comment_entry c])%list) s
                    = mkRun (inr (acc ++ [comment_entry c])%list) s
                        (match u with
                         | Some u => [Event (Db (DatabaseActor.get_participant_by_zid_uid
                                                   zid (UserDict.uid u)))]
                         | None => []
                         end))
      by (intros [u |]; reflexivity).
    rewrite Hbody. cbn [outcome final log].
    destruct (IH (acc ++ [comment_entry c])%list) as [Hout Hfin].
    cbv zeta in Hout, Hfin. cbn [outcome final].
    split; [| exact Hfin].
    etransitivity; [exact Hout |]. rewrite <- app_assoc. reflexivity.
Qed.

(** X18.  GET /comments ignores its [mod] parameter and its caller
    (in-memory actor).  For a known conversation it lists the first page of
    1000 comments of the conversation, moderated-out ones included, each with
    is_seed false, and the answer is the same whatever [mod] is given and
    whoever, if anybody, is logged in; the state is left as it was. *)
Theorem get_comments_ignores_mod_and_caller :
  forall (s : MemDb.t) (conversation_id : string) (zid : Z)
         (mod_ : option Z) (user : option UserDict.t),
    MemDb.get_zid_by_zinvite s conversation_id = Some zid ->
    zid <> 0 ->
    let r := run MemDb.world (get_comments conversation_id mod_ user) s in
    outcome r
    = inr (ok (VList (map comment_entry
                          (MemDb.paged (Some 1) (Some 1000) (MemDb.comments_of s zid)))))
    /\ outcome r = outcome (run MemDb.world (get_comments conversation_id None None) s)
    /\ final r = s.
Proof.
  intros s cid zid mod_ user Hz Hnz r.
  assert (Hrun : forall m u,
             outcome (run MemDb.world (get_comments cid m u) s)
             = inr (ok (VList (map comment_entry
                                   (MemDb.paged (Some 1) (Some 1000)
                                      (MemDb.comments_of s zid)))))
             /\ final (run MemDb.world (get_comments cid m u) s) = s).
  { intros m u. unfold get_comments.
    rewrite (run_known_row MemDb.world cid _ _ s s zid);
      [| unfold lookup; simpl; rewrite Hz; reflexivity | exact Hnz].
    cbv zeta. cbn [outcome final].
    destruct (get_comments_loop s zid u
                (MemDb.paged (Some 1) (Some 1000) (MemDb.comments_of s zid)) [])
      as [Hout Hfin].
    cbv zeta in Hout, Hfin.
    destruct (run_bind_returns MemDb.world
                (db (DatabaseActor.list_comments_by_conversation_id zid
                       (Some 1) (Some 1000)))
                (fun comments =>
                   result <- for_each comments [] (fun c result =>
                     participant <- match u with
                                    | Some u0 => db (DatabaseActor.get_participant_by_zid_uid
                                                       zid (UserDict.uid u0))
                                    | None => Ret None
                                    end ;;
                     Ret (result ++ [comment_entry c])%list) ;;
                   Ret (ok (VList result)))
                s s (MemDb.paged (Some 1) (Some 1000) (MemDb.comments_of s zid))
                eq_refl eq_refl) as [Ho1 Hf1].
    destruct (run_bind_returns MemDb.world _
                (fun result => Ret (ok (VList result))) s s _ Hout Hfin) as [Ho2 Hf2].
    split.
    - etransitivity; [exact Ho1 |]. etransitivity; [exact Ho2 |]. reflexivity.
    - etransitivity; [exact Hf1 |]. etransitivity; [exact Hf2 |]. reflexivity. }
  destruct (Hrun mod_ user) as [Hout Hfin]. destruct (Hrun None None) as [Hout0 _].
  fold r in Hout, Hfin. split; [exact Hout |]. split; [| exact Hfin].
  rewrite Hout, Hout0. reflexivity.
Qed.

Lemma get_comments_ignores_mod_and_caller_witness :
  let r := run MemDb.world (get_comments "abc" (Some (-1)) (Some alice)) demo in
  outcome r
  = inr (ok (VList (map comment_entry
                        (MemDb.paged (Some 1) (Some 1000) (MemDb.comments_of demo 1)))))
  /\ outcome r = outcome (run MemDb.world (get_comments "abc" None None) demo)
  /\ final r = demo.
Proof.
  apply (get_comments_ignores_mod_and_caller demo "abc" 1 (Some (-1)) (Some alice));
    [reflexivity | lia].
Defined.

(** ** Listing votes *)

(** The loop of GET /votes/me on the in-memory actor. *)
Lemma get_my_votes_loop (s : MemDb.t) (uid : Z) (comments : list Comment.t) :
  forall acc : list value,
    let r := run MemDb.world
                 (for_each comments acc (fun c my_votes =>
                    vote <- db (DatabaseActor.get_vote_by_user_comment uid (Comment.id c)) ;;
                    match vote with
                    | Some vote => Ret (my_votes ++ [VDict [
                        ("tid", VInt (Comment.id c));
                        ("vote", VInt (Vote.value vote));
                        ("created", iso_or_none (Vote.created vote))]])%list
                    | None => Ret my_votes
                    end)) s in
    outcome r = inr (acc ++ flat_map (my_vote_entry s uid) comments)%list
    /\ final r = s.
Proof.
  induction comments as [| c comments IH]; intros acc.
  - simpl. rewrite app_nil_r. split; reflexivity.
  - cbn [for_each flat_map]. rewrite run_bind. unfold then_run.
    assert (Hbody : exists l,
              run MemDb.world
                (vote <- db (DatabaseActor.get_vote_by_user_comment uid (Comment.id c)) ;;
                 match vote with
                 | Some vote => Ret (acc ++ [VDict [
                     ("tid", VInt (Comment.id c));
                     ("vote", VInt (Vote.value vote));
                     ("created", iso_or_none (Vote.created vote))]])%list
                 | None => Ret acc
                 end) s
              = mkRun (inr (acc ++ my_vote_entry s uid c)%list) s l).
    { unfold my_vote_entry. cbn -[MemDb.get_vote_by_user_comment].
      destruct (MemDb.get_vote_by_user_comment s uid (Comment.id c)); simpl;
        [| rewrite app_nil_r]; eexists; reflexivity. }
    destruct Hbody as [l Hbody]. rewrite Hbody. cbn [outcome final log].
    destruct (IH (acc ++ my_vote_entry s uid c)%list) as [Hout Hfin].
    cbv zeta in Hout, Hfin. cbn [outcome final].
    split; [| exact Hfin].
    etransitivity; [exact Hout |]. rewrite <- app_assoc. reflexivity.
Qed.

(** GET /votes/me on the in-memory actor, for a known conversation. *)
Lemma get_my_votes_run (s : MemDb.t) (conversation_id : string) (user : UserDict.t)
    (zid : Z) :
  MemDb.get_zid_by_zinvite s conversation_id = Some zid ->
  zid <> 0 ->
  let r := run MemDb.world (get_my_votes conversation_id user) s in
  outcome r = inr (ok (VList (flat_map (my_vote_entry s (UserDict.uid user))
                                       (MemDb.comments_of s zid))))
  /\ final r = s.
Proof.
  intros Hz Hnz r. subst r. unfold get_my_votes.
  rewrite (run_known_row MemDb.world conversation_id _ _ s s zid);
    [| unfold lookup; simpl; rewrite Hz; reflexivity | exact Hnz].
  cbv zeta. cbn [outcome final].
  destruct (get_my_votes_loop s (UserDict.uid user) (MemDb.comments_of s zid) [])
    as [Hout Hfin].
  cbv zeta in Hout, Hfin.
  destruct (run_bind_returns MemDb.world
              (db (DatabaseActor.list_comments_by_conversation_id zid None None))
              (fun comments =>
                 my_votes <- for_each comments [] (fun c my_votes =>
                   vote <- db (DatabaseActor.get_vote_by_user_comment
                                 (UserDict.uid user) (Comment.id c)) ;;
                   match vote with
                   | Some vote => Ret (my_votes ++ [VDict [
                       ("tid", VInt (Comment.id c));
                       ("vote", VInt (Vote.value vote));
                       ("created", iso_or_none (Vote.created vote))]])%list
                   | None => Ret my_votes
                   end) ;;
                 Ret (ok (VList my_votes)))
              s s (MemDb.comments_of s zid) eq_refl eq_refl) as [Ho1 Hf1].
  destruct (run_bind_returns MemDb.world _
              (fun my_votes => Ret (ok (VList my_votes))) s s _ Hout Hfin) as [Ho2 Hf2].
  split.
  - etransitivity; [exact Ho1 |]. etransitivity; [exact Ho2 |]. reflexivity.
  - etransitivity; [exact Hf1 |]. etransitivity; [exact Hf2 |]. reflexivity.
Qed.

(** POST /votes leaves the comments alone. *)
Lemma create_vote_comments (s : MemDb.t) (conversation_id : string) (tid vote : Z)
    (user : UserDict.t) (zid : Z) :
  vote_allowed vote = true ->
  MemDb.get_zid_by_zinvite s conversation_id = Some zid ->
  zid <> 0 ->
  MemDb.comments (final (run MemDb.world (create_vote conversation_id tid vote user) s))
  = MemDb.comments s.
Proof.
  intros Hvote Hz Hnz.
  pose proof (create_vote_run s conversation_id tid vote user zid Hvote Hz Hnz) as H.
  cbv zeta in H.
  pose proof (get_or_create_participant_comments s zid (UserDict.uid user)) as Hc.
  destruct (find (MemDb.vote_of (UserDict.uid user) tid) (MemDb.votes s));
    destruct H as (_ & Hfin & _); rewrite Hfin; exact Hc.
Qed.

(** X19.  A vote shows up in the voter's own list (in-memory actor).  After
    a POST /votes with an allowed value on a comment of a known
    conversation, the same user's GET /votes/me for that conversation lists
    that comment with the value just sent; and every entry of the list is a
    vote on a comment of that conversation. *)
Theorem vote_shows_in_my_votes :
  forall (s : MemDb.t) (conversation_id : string) (tid vote : Z)
         (user : UserDict.t) (zid : Z) (c : Comment.t),
    vote_allowed vote = true ->
    MemDb.get_zid_by_zinvite s conversation_id = Some zid ->
    zid <> 0 ->
    In c (MemDb.comments_of s zid) ->
    Comment.id c = tid ->
    let voted_state := final (run MemDb.world
                                  (create_vote conversation_id tid vote user) s) in
    exists (entries : list value) (created : value),
      outcome (run MemDb.world (get_my_votes conversation_id user) voted_state)
      = inr (ok (VList entries))
      /\ In (VDict [("tid", VInt tid); ("vote", VInt vote); ("created", created)]) entries
      /\ Forall (fun entry => exists c', In c' (MemDb.comments_of s zid)
                                         /\ value_field entry "tid" = VInt (Comment.id c'))
                entries.
Proof.
  intros s cid tid vote user zid c Hvote Hz Hnz Hin Hid voted_state.
  destruct (create_vote_stores s cid tid vote user zid Hvote Hz Hnz)
    as (v & Hstored & Hval & _).
  destruct (create_vote_frame s cid tid vote user zid Hvote Hz Hnz) as (Hz1 & _).
  pose proof (create_vote_comments s cid tid vote user zid Hvote Hz Hnz) as Hcomments.
  fold voted_state in Hstored, Hz1, Hcomments.
  destruct (get_my_votes_run voted_state cid user zid Hz1 Hnz) as [Hout _].
  cbv zeta in Hout.
  assert (Hsame : MemDb.comments_of voted_state zid = MemDb.comments_of s zid)
    by (unfold MemDb.comments_of; rewrite Hcomments; reflexivity).
  rewrite Hsame in Hout.
  eexists. exists (iso_or_none (Vote.created v)).
  split; [exact Hout |]. split.
  - apply in_flat_map. exists c. split; [exact Hin |].
    unfold my_vote_entry. rewrite Hid, Hstored, Hval. left. reflexivity.
  - apply Forall_forall. intros entry Hentry.
    apply in_flat_map in Hentry. destruct Hentry as (c' & Hc' & Hentry).
    exists c'. split; [exact Hc' |].
    unfold my_vote_entry in Hentry.
    destruct (MemDb.get_vote_by_user_comment voted_state (UserDict.uid user)
                (Comment.id c')); [| contradiction].
    destruct Hentry as [<- | []]. reflexivity.
Qed.

Lemma vote_shows_in_my_votes_witness :
  let voted_state := final (run MemDb.world (create_vote "abc" 7 (-1) alice) demo) in
  exists (entries : list value) (created : value),
    outcome (run MemDb.world (get_my_votes "abc" alice) voted_state)
    = inr (ok (VList entries))
    /\ In (VDict [("tid", VInt 7); ("vote", VInt (-1)); ("created", created)]) entries
    /\ Forall (fun entry => exists c', In c' (MemDb.comments_of demo 1)
                                       /\ value_field entry "tid" = VInt (Comment.id c'))
              entries.
Proof.
  apply (vote_shows_in_my_votes demo "abc" 7 (-1) alice 1
           (Comment.mk 7 "More trees" 1 1 0 None));
    try reflexivity; [lia | left; reflexivity].
Defined.

(** ** GET /participationInit *)

Lemma get_or_create_participant_votes (s : MemDb.t) (zid uid : Z) :
  MemDb.votes (snd (MemDb.get_or_create_participant s zid uid)) = MemDb.votes s.
Proof.
  unfold MemDb.get_or_create_participant.
  destruct (MemDb.get_participant_by_zid_uid s zid uid); reflexivity.
Qed.

(** X20.  GET /participationInit of a logged-in user (in-memory actor).  For
    a known conversation whose row is found, the answer lists the first 1000
    votes of the user over all conversations, each labelled with the
    conversation_id of the request; its nextComment is the first comment of
    the conversation, whether or not the user has voted on it; and the [pid]
    parameter plays no part. *)
Theorem participation_init_lists_votes_of_all_conversations :
  forall (s : MemDb.t) (conversation_id : string) (pid lang : option string)
         (u : UserDict.t) (zid : Z) (conv : Conversation.t),
    Py.truthy_str conversation_id = true ->
    MemDb.get_zid_by_zinvite s conversation_id = Some zid ->
    zid <> 0 ->
    MemDb.read_conversation s zid = Some conv ->
    let r := run MemDb.world
                 (participation_init (Some conversation_id) pid lang (Some u)) s in
    exists payload : value,
      outcome r = inr payload
      /\ value_field payload "votes"
         = VList (map (init_vote_entry conversation_id)
                      (firstn 1000 (filter (fun v => Vote.user_id v =? UserDict.uid u)
                                           (MemDb.votes s))))
      /\ value_field (value_field payload "nextComment") "tid"
         = match MemDb.comments_of s zid with
           | c :: _ => VInt (Comment.id c)
           | [] => VNone
           end
      /\ outcome (run MemDb.world
                      (participation_init (Some conversation_id) None lang (Some u)) s)
         = outcome r.
Proof.
  intros s cid pid lang u zid conv Htruthy Hz Hnz Hconv r. subst r.
  unfold participation_init. cbn [Py.truthy_opt_str]. rewrite Htruthy.
  rewrite (run_known_row MemDb.world cid _ _ s s zid);
    [| unfold lookup; simpl; rewrite Hz; reflexivity | exact Hnz].
  cbv zeta.
  cbn -[MemDb.read_conversation MemDb.get_or_create_participant MemDb.paged
        MemDb.comments_of MemDb.list_participants_by_zid filter firstn
        accept_language].
  rewrite Hconv.
  cbn -[MemDb.read_conversation MemDb.get_or_create_participant MemDb.paged
        MemDb.comments_of MemDb.list_participants_by_zid filter firstn
        accept_language].
  pose proof (get_or_create_participant_votes s zid (UserDict.uid u)) as Hvotes.
  pose proof (get_or_create_participant_comments s zid (UserDict.uid u)) as Hcomments.
  destruct (MemDb.get_or_create_participant s zid (UserDict.uid u)) as [p s1].
  cbn [snd] in Hvotes, Hcomments.
  cbn -[MemDb.read_conversation MemDb.get_or_create_participant MemDb.paged
        MemDb.comments_of MemDb.list_participants_by_zid filter firstn
        accept_language].
  assert (Hsame : MemDb.comments_of s1 zid = MemDb.comments_of s zid)
    by (unfold MemDb.comments_of; rewrite Hcomments; reflexivity).
  rewrite Hsame, Hvotes.
  eexists. split; [reflexivity |]. split; [| split].
  - reflexivity.
  - unfold MemDb.paged. cbn [Z.to_nat Z.sub Z.mul Z.add Pos.to_nat Z.pos_sub Z.opp].
    change (Z.to_nat ((1 - 1) * 1)) with 0%nat.
    change (Z.to_nat 1) with 1%nat. cbn [skipn firstn].
    destruct (MemDb.comments_of s zid); reflexivity.
  - reflexivity.
Qed.

Lemma participation_init_lists_votes_of_all_conversations_witness :
  exists payload : value,
    outcome (run MemDb.world
                 (participation_init (Some "abc") (Some "5") None (Some alice))
                 two_conversations) = inr payload
    /\ value_field payload "votes"
       = VList (map (init_vote_entry "abc")
                    (firstn 1000 (filter (fun v => Vote.user_id v =? UserDict.uid alice)
                                         (MemDb.votes two_conversations))))
    /\ value_field (value_field payload "nextComment") "tid"
       = match MemDb.comments_of two_conversations 1 with
         | c :: _ => VInt (Comment.id c)
         | [] => VNone
         end
    /\ outcome (run MemDb.world
                    (participation_init (Some "abc") None None (Some alice))
                    two_conversations)
       = outcome (run MemDb.world
                      (participation_init (Some "abc") (Some "5") None (Some alice))
                      two_conversations).
Proof.
  apply (participation_init_lists_votes_of_all_conversations two_conversations "abc"
           (Some "5") None alice 1 (Conversation.mk 1 "Parks" None false 1 None None));
    try reflexivity; lia.
Defined.

(** The votes alice sees through GET /participationInit for "abc" include
    her vote on comment 8, which belongs to the conversation "xyz". *)
Example participation_init_mixes_conversations :
  value_field
    (match outcome (run MemDb.world
                        (participation_init (Some "abc") None None (Some alice))
                        two_conversations) with
     | inr payload => payload
     | inl _ => VNone
     end) "votes"
  = VList [VDict [("tid", VInt 7); ("vote", VInt 1); ("conversation_id", VStr "abc")];
           VDict [("tid", VInt 8); ("vote", VInt (-1)); ("conversation_id", VStr "abc")]].
Proof. reflexivity. Qed.

(** X21.  GET /participationInit of an anonymous visitor (in-memory actor).
    For a known conversation whose row is found, the handler draws a uuid,
    sets the one cookie pc to its first 16 characters and gets or creates
    the anonymous participant of that token, its only write; the answer has
    no user and no votes.  No cookie of the request is read, so when the token is new a
    participant row is added. *)
Theorem anonymous_participation_init_sets_pc :
  forall (s : MemDb.t) (conversation_id : string) (pid lang : option string)
         (zid : Z) (conv : Conversation.t) (uuid : string) (rest : list string),
    Py.truthy_str conversation_id = true ->
    MemDb.get_zid_by_zinvite s conversation_id = Some zid ->
    zid <> 0 ->
    MemDb.read_conversation s zid = Some conv ->
    MemDb.uuids s = uuid :: rest ->
    let r := run MemDb.world
                 (participation_init (Some conversation_id) pid lang None) s in
    let token := Py.take 16 uuid in
    exists payload : value,
      outcome r = inr payload
      /\ value_field payload "user" = VNone
      /\ value_field payload "votes" = VList []
      /\ cookies_set (log r) = [("pc", token)]
      /\ writes (log r)
         = [Event (Db (DatabaseActor.get_or_create_anonymous_participant zid token))]
      /\ (find (fun a => String.eqb (fst a) token) (MemDb.anonymous s) = None ->
          List.length (MemDb.participants (final r))
          = S (List.length (MemDb.participants s))).
Proof.
  intros s cid pid lang zid conv uuid rest Htruthy Hz Hnz Hconv Huuid r token.
  subst r. unfold participation_init. cbn [Py.truthy_opt_str]. rewrite Htruthy.
  rewrite (run_known_row MemDb.world cid _ _ s s zid);
    [| unfold lookup; simpl; rewrite Hz; reflexivity | exact Hnz].
  cbv zeta.
  cbn -[MemDb.read_conversation MemDb.get_or_create_anonymous_participant MemDb.paged
        MemDb.comments_of MemDb.list_participants_by_zid filter firstn
        accept_language Py.take].
  rewrite Hconv.
  cbn -[MemDb.read_conversation MemDb.get_or_create_anonymous_participant MemDb.paged
        MemDb.comments_of MemDb.list_participants_by_zid filter firstn
        accept_language Py.take].
  rewrite Huuid.
  cbn -[MemDb.read_conversation MemDb.get_or_create_anonymous_participant MemDb.paged
        MemDb.comments_of MemDb.list_participants_by_zid filter firstn
        accept_language Py.take].
  fold token.
  set (s0 := MemDb.with_cookies (MemDb.with_uuids s rest)
               (MemDb.cookies s ++ [("pc", token)])%list).
  assert (Hframe :
            (find (fun a => String.eqb (fst a) token) (MemDb.anonymous s) = None ->
                List.length (MemDb.participants
                               (snd (MemDb.get_or_create_anonymous_participant
                                       s0 zid token)))
                = S (List.length (MemDb.participants s)))).
  { unfold MemDb.get_or_create_anonymous_participant.
    change (MemDb.anonymous s0) with (MemDb.anonymous s).
    change (MemDb.participants s0) with (MemDb.participants s).
    destruct (find (fun a => String.eqb (fst a) token) (MemDb.anonymous s)) as [a |].
    - discriminate.
    - intros _. cbn. rewrite length_app. simpl. lia. }
  destruct (MemDb.get_or_create_anonymous_participant s0 zid token) as [p s1].
  cbn [snd] in Hframe.
  cbn -[MemDb.paged MemDb.comments_of MemDb.list_participants_by_zid accept_language
        Py.take].
  eexists. split; [reflexivity |].
  split; [reflexivity |]. split; [reflexivity |].
  split; [reflexivity |]. split; [reflexivity | exact Hframe].
Qed.

Lemma anonymous_participation_init_sets_pc_witness :
  let s := MemDb.with_uuids demo ["0f8fad5b-d9cb-469f-a165-70867728950e"] in
  let r := run MemDb.world (participation_init (Some "abc") None None None) s in
  let token := Py.take 16 "0f8fad5b-d9cb-469f-a165-70867728950e" in
  exists payload : value,
    outcome r = inr payload
    /\ value_field payload "user" = VNone
    /\ value_field payload "votes" = VList []
    /\ cookies_set (log r) = [("pc", token)]
    /\ writes (log r)
       = [Event (Db (DatabaseActor.get_or_create_anonymous_participant 1 token))]
    /\ (find (fun a => String.eqb (fst a) token) (MemDb.anonymous s) = None ->
        List.length (MemDb.participants (final r))
        = S (List.length (MemDb.participants s))).
Proof.
  apply (anonymous_participation_init_sets_pc
           (MemDb.with_uuids demo ["0f8fad5b-d9cb-469f-a165-70867728950e"])
           "abc" None None 1 (Conversation.mk 1 "Parks" None false 1 None None)
           "0f8fad5b-d9cb-469f-a165-70867728950e" []);
    try reflexivity; lia.
Defined.

(** * Properties of the further handlers *)

(** ** Passwords and accounts *)

(** X22.  POST /auth/password needs the current password.  When the caller's
    row is found: if the stored auth_token is not the hash of
    current_password the handler raises 401 "Invalid current password" and
    writes nothing; if it is, the one write is
    update_user(uid, {"auth_token": hash of new_password}), whatever the new
    password is (the empty string included), answered with
    {"changed": true}. *)
Theorem change_password_needs_the_current_password :
  forall (sha256_hexdigest : string -> string) (w : World2) (s s1 : St2 w)
         (request : PasswordChangeRequest.t) (user : UserDict.t) (row : User.t),
    answer2 w (Base (Db (DatabaseActor.read_user (UserDict.uid user)))) s
    = (Some row, s1) ->
    let r := run2 w (change_password sha256_hexdigest request user) s in
    (User.auth_token row
     <> sha256_hexdigest (PasswordChangeRequest.current_password request) ->
     outcome2 r = inl (HTTPException 401 "Invalid current password")
     /\ final2 r = s1
     /\ writes2 (log2 r) = [])
    /\ (User.auth_token row
        = sha256_hexdigest (PasswordChangeRequest.current_password request) ->
        outcome2 r = inr (ok (VDict [("changed", VBool true)]))
        /\ writes2 (log2 r)
           = [Event2 (DbMore (DatabaseActorMore.update_user (UserDict.uid user)
                [("auth_token",
                  VStr (sha256_hexdigest
                          (PasswordChangeRequest.new_password request)))]))]).
Proof.
  intros sha w s s1 [current new] user row Hrow r. subst r.
  unfold change_password. simpl. rewrite Hrow. simpl.
  destruct (String.eqb_spec (User.auth_token row) (sha current)) as [E | E]; simpl.
  - destruct (answer2 w (DbMore (DatabaseActorMore.update_user _ _)) s1) as [u s2].
    simpl. split; [intros H; contradiction | intros _; split; reflexivity].
  - split; [intros _; repeat split | intros H; contradiction].
Qed.

Lemma change_password_needs_the_current_password_witness :
  let sha := fun p : string => if String.eqb p "parks!" then "5e88" else "0000" in
  let r := run2 MemDbMore.world
                (change_password sha (PasswordChangeRequest.mk "parks!" "") alice) demo in
  (User.auth_token (User.mk 1 "alice@example.com" "5e88" false None) <> sha "parks!" ->
   outcome2 r = inl (HTTPException 401 "Invalid current password")
   /\ final2 r = demo
   /\ writes2 (log2 r) = [])
  /\ (User.auth_token (User.mk 1 "alice@example.com" "5e88" false None) = sha "parks!" ->
      outcome2 r = inr (ok (VDict [("changed", VBool true)]))
      /\ writes2 (log2 r)
         = [Event2 (DbMore (DatabaseActorMore.update_user 1
              [("auth_token", VStr (sha ""))]))]).
Proof.
  exact (change_password_needs_the_current_password
           (fun p : string => if String.eqb p "parks!" then "5e88" else "0000")
           MemDbMore.world demo demo (PasswordChangeRequest.mk "parks!" "") alice
           (User.mk 1 "alice@example.com" "5e88" false None) eq_refl).
Defined.

(** X23.  POST /auth/deregister logs out or deletes.  Without a request
    body, or with an empty password, it deletes the cookies token2 and uid2
    and asks nothing of the persistence actor.  With a non-empty password it
    reads the caller's row: when there is none, or its auth_token is not the
    hash of the password, it raises 401 "Invalid password" with nothing
    deleted, neither the row nor a cookie; otherwise its one write is
    delete_user(uid), followed by the deletion of both cookies. *)
Theorem deregister_logs_out_or_deletes :
  forall (sha256_hexdigest : string -> string) (w : World2) (s s1 : St2 w)
         (user : UserDict.t) (password : string) (found : option User.t),
    answer2 w (Base (Db (DatabaseActor.read_user (UserDict.uid user)))) s
    = (found, s1) ->
    Py.truthy_str password = true ->
    let logout := [Event2 (DeleteCookie "token2"); Event2 (DeleteCookie "uid2")] in
    let r := run2 w (deregister sha256_hexdigest user
                       (Some (AuthDeregisterRequest.mk password))) s in
    (forall request,
        request = None \/ request = Some (AuthDeregisterRequest.mk "") ->
        outcome2 (run2 w (deregister sha256_hexdigest user request) s)
        = inr (ok (VDict [("logged_out", VBool true)]))
        /\ log2 (run2 w (deregister sha256_hexdigest user request) s) = logout)
    /\ match found with
       | Some row =>
           if String.eqb (User.auth_token row) (sha256_hexdigest password)
           then outcome2 r = inr (ok (VDict [("deleted", VBool true)]))
                /\ writes2 (log2 r)
                   = [Event2 (DbMore (DatabaseActorMore.delete_user (UserDict.uid user)))]
                /\ cookies_deleted (log2 r) = ["token2"; "uid2"]
           else outcome2 r = inl (HTTPException 401 "Invalid password")
                /\ final2 r = s1
                /\ writes2 (log2 r) = [] /\ cookies_deleted (log2 r) = []
       | None =>
           outcome2 r = inl (HTTPException 401 "Invalid password")
           /\ final2 r = s1
           /\ writes2 (log2 r) = [] /\ cookies_deleted (log2 r) = []
       end.
Proof.
  intros sha w s s1 user password found Hrow Hp logout r. subst r logout. split.
  - intros request [-> | ->]; unfold deregister; simpl;
      destruct (answer2 w (DeleteCookie "token2") s) as [[] s2]; simpl;
      destruct (answer2 w (DeleteCookie "uid2") s2) as [[] s3]; simpl;
      split; reflexivity.
  - unfold deregister. cbn [AuthDeregisterRequest.password]. rewrite Hp.
    simpl. rewrite Hrow. simpl.
    destruct found as [row |]; simpl; [| repeat split].
    destruct (String.eqb (User.auth_token row) (sha password)); simpl;
      [| repeat split].
    destruct (answer2 w (DbMore (DatabaseActorMore.delete_user _)) s1) as [[] s2].
    simpl.
    destruct (answer2 w (DeleteCookie "token2") s2) as [[] s3]; simpl.
    destruct (answer2 w (DeleteCookie "uid2") s3) as [[] s4]; simpl.
    repeat split.
Qed.

Lemma deregister_logs_out_or_deletes_witness :
  let sha := fun p : string => if String.eqb p "parks!" then "5e88" else "0000" in
  let logout := [Event2 (DeleteCookie "token2"); Event2 (DeleteCookie "uid2")] in
  let r := run2 MemDbMore.world
                (deregister sha alice (Some (AuthDeregisterRequest.mk "parks!"))) demo in
  (forall request,
      request = None \/ request = Some (AuthDeregisterRequest.mk "") ->
      outcome2 (run2 MemDbMore.world (deregister sha alice request) demo)
      = inr (ok (VDict [("logged_out", VBool true)]))
      /\ log2 (run2 MemDbMore.world (deregister sha alice request) demo) = logout)
  /\ (outcome2 r = inr (ok (VDict [("deleted", VBool true)]))
      /\ writes2 (log2 r) = [Event2 (DbMore (DatabaseActorMore.delete_user 1))]
      /\ cookies_deleted (log2 r) = ["token2"; "uid2"]).
Proof.
  exact (deregister_logs_out_or_deletes
           (fun p : string => if String.eqb p "parks!" then "5e88" else "0000")
           MemDbMore.world demo demo alice "parks!"
           (Some (User.mk 1 "alice@example.com" "5e88" false None))
           eq_refl eq_refl).
Defined.

(** X24.  PUT /users writes the email and nothing else.  Without an email,
    or with an empty one, it raises 400 "No update data provided" before any
    effect, whatever [name] is given; with an email its one write is
    update_user(uid, {"email": email}), so [name] is never written, and the
    answer carries the id and email of the row the actor returns (an
    AttributeError when it returns none). *)
Theorem update_user_writes_only_the_email :
  forall (w : World2) (s s1 : St2 w) (email : string) (name : option string)
         (user : UserDict.t) (updated : option User.t),
    Py.truthy_str email = true ->
    answer2 w (DbMore (DatabaseActorMore.update_user (UserDict.uid user)
                         [("email", VStr email)])) s = (updated, s1) ->
    let r := run2 w (update_user (Some email) name user) s in
    log2 r = [Event2 (DbMore (DatabaseActorMore.update_user (UserDict.uid user)
                                [("email", VStr email)]))]
    /\ outcome2 r = match updated with
                    | Some row => inr (ok (VDict [("uid", VInt (User.id row));
                                                  ("email", VStr (User.email row))]))
                    | None => inl (AttributeError "id")
                    end
    /\ (forall email', email' = None \/ email' = Some "" ->
        run2 w (update_user email' name user) s
        = mkRun2 (inl (HTTPException 400 "No update data provided")) s []).
Proof.
  intros w s s1 email name user updated He Hrow r. subst r.
  unfold update_user. rewrite He. simpl. rewrite Hrow.
  destruct updated as [row |]; simpl; repeat split;
    intros email' [-> | ->]; reflexivity.
Qed.

Lemma update_user_writes_only_the_email_witness :
  let r := run2 MemDbMore.world
                (update_user (Some "al@example.com") (Some "Alice") alice) demo in
  log2 r = [Event2 (DbMore (DatabaseActorMore.update_user 1
                              [("email", VStr "al@example.com")]))]
  /\ outcome2 r = inr (ok (VDict [("uid", VInt 1); ("email", VStr "al@example.com")]))
  /\ (forall email', email' = None \/ email' = Some "" ->
      run2 MemDbMore.world (update_user email' (Some "Alice") alice) demo
      = mkRun2 (inl (HTTPException 400 "No update data provided")) demo []).
Proof.
  exact (update_user_writes_only_the_email MemDbMore.world demo
           (snd (MemDbMore.update_user demo 1 [("email", VStr "al@example.com")]))
           "al@example.com" (Some "Alice") alice
           (Some (User.mk 1 "al@example.com" "5e88" false None)) eq_refl eq_refl).
Defined.

(** ** Invite codes *)

(** X25.  Who may read and who may regenerate an invite code.  For a
    conversation whose row is found, GET /zinvites/{zid} answers every
    authenticated caller, owner or not, with the code the actor gets or
    creates.  POST /zinvites/{zid} answers a caller who is neither the owner
    nor an admin with 403 "Not authorized" and writes nothing; for the owner
    or an admin it first deletes the invite codes of the conversation and
    then creates one, and answers with the code of the invite just
    created. *)
Theorem zinvite_read_by_all_regenerated_by_owner :
  forall (w : World2) (s s1 : St2 w) (zid : Z) (user : UserDict.t)
         (conv : Conversation.t),
    answer2 w (Base (Db (DatabaseActor.read_conversation zid))) s = (Some conv, s1) ->
    let got := run2 w (get_zinvite zid user) s in
    let made := run2 w (create_zinvite zid user) s in
    let deleted :=
      snd (answer2 w (DbMore (DatabaseActorMore.delete_zinvites_by_zid zid)) s1) in
    let created :=
      answer2 w (Base (Db (DatabaseActor.create_zinvite [("zid", VInt zid)])))
              deleted in
    outcome2 got
    = inr (ok (VDict [("zinvite",
         VStr (Zinvite.zinvite
                 (fst (answer2 w (DbMore (DatabaseActorMore.get_or_create_zinvite zid))
                               s1))))]))
    /\ if not_authorized conv user
       then outcome2 made = inl forbidden
            /\ final2 made = s1
            /\ writes2 (log2 made) = []
       else log2 made
            = [Event2 (Base (Db (DatabaseActor.read_conversation zid)));
               Event2 (DbMore (DatabaseActorMore.delete_zinvites_by_zid zid));
               Event2 (Base (Db (DatabaseActor.create_zinvite [("zid", VInt zid)])))]
            /\ outcome2 made
               = inr (ok (VDict [("zinvite", VStr (Zinvite.zinvite (fst created)))]))
            /\ final2 made = snd created.
Proof.
  intros w s s1 zid user conv Hrow got made deleted created.
  subst got made created deleted.
  unfold get_zinvite, create_zinvite. simpl. rewrite Hrow. simpl. split.
  - destruct (answer2 w (DbMore (DatabaseActorMore.get_or_create_zinvite zid)) s1)
      as [z s2]. reflexivity.
  - destruct (not_authorized conv user); simpl; [repeat split |].
    destruct (answer2 w (DbMore (DatabaseActorMore.delete_zinvites_by_zid zid)) s1)
      as [[] s2]. simpl.
    destruct (answer2 w (Base (Db (DatabaseActor.create_zinvite [("zid", VInt zid)])))
                      s2) as [z s3]. simpl.
    repeat split.
Qed.

Lemma zinvite_read_by_all_regenerated_by_owner_witness :
  let bob := UserDict.mk 2 "bob@example.com" false in
  (outcome2 (run2 MemDbMore.world (get_zinvite 1 bob) demo)
   = inr (ok (VDict [("zinvite", VStr "abc")]))
   /\ (outcome2 (run2 MemDbMore.world (create_zinvite 1 bob) demo) = inl forbidden
       /\ final2 (run2 MemDbMore.world (create_zinvite 1 bob) demo) = demo
       /\ writes2 (log2 (run2 MemDbMore.world (create_zinvite 1 bob) demo)) = []))
  /\ (outcome2 (run2 MemDbMore.world (get_zinvite 1 alice) demo)
      = inr (ok (VDict [("zinvite", VStr "abc")]))
      /\ (log2 (run2 MemDbMore.world (create_zinvite 1 alice) demo)
          = [Event2 (Base (Db (DatabaseActor.read_conversation 1)));
             Event2 (DbMore (DatabaseActorMore.delete_zinvites_by_zid 1));
             Event2 (Base (Db (DatabaseActor.create_zinvite [("zid", VInt 1)])))]
          /\ outcome2 (run2 MemDbMore.world (create_zinvite 1 alice) demo)
             = inr (ok (VDict [("zinvite", VStr "z1")]))
          /\ MemDb.zinvites (final2 (run2 MemDbMore.world (create_zinvite 1 alice) demo))
             = [Zinvite.mk 1 "z1"])).
Proof.
  split.
  - exact (zinvite_read_by_all_regenerated_by_owner MemDbMore.world demo demo 1
             (UserDict.mk 2 "bob@example.com" false)
             (Conversation.mk 1 "Parks" None false 1 None None) eq_refl).
  - pose proof (zinvite_read_by_all_regenerated_by_owner MemDbMore.world demo demo 1
                  alice (Conversation.mk 1 "Parks" None false 1 None None) eq_refl)
      as [Hgot Hmade].
    split; [exact Hgot |].
    destruct Hmade as (Hlog & Hout & Hfin).
    split; [exact Hlog |]. split; [exact Hout |].
    rewrite Hfin. reflexivity.
Defined.

(** ** Moderation *)

(** X26.  PUT /comments moderates without asking who.  Any authenticated
    caller gets the same run.  A missing comment gives 404 "Comment not
    found" and no write; without [mod] nothing is written and the answer is
    just the tid; with [mod], 0 included, the one write is
    update_comment(tid, {"moderation_status": mod}). *)
Theorem update_comment_moderates_for_any_caller :
  forall (w : World2) (s s1 : St2 w) (tid : Z) (mod_ : option Z)
         (user user' : UserDict.t) (found : option Comment.t),
    answer2 w (DbMore (DatabaseActorMore.read_comment tid)) s = (found, s1) ->
    let r := run2 w (update_comment tid mod_ user) s in
    r = run2 w (update_comment tid mod_ user') s
    /\ match found, mod_ with
       | None, _ =>
           outcome2 r = inl (HTTPException 404 "Comment not found")
           /\ final2 r = s1 /\ writes2 (log2 r) = []
       | Some _, None =>
           outcome2 r = inr (ok (VDict [("tid", VInt tid)]))
           /\ final2 r = s1 /\ writes2 (log2 r) = []
       | Some _, Some m =>
           writes2 (log2 r)
           = [Event2 (DbMore (DatabaseActorMore.update_comment tid
                                [("moderation_status", VInt m)]))]
       end.
Proof.
  intros w s s1 tid mod_ user user' found Hrow r. subst r.
  split; [reflexivity |].
  unfold update_comment. simpl. rewrite Hrow.
  destruct found as [c |]; simpl; [| repeat split].
  destruct mod_ as [m |]; simpl; [| repeat split].
  destruct (answer2 w (DbMore (DatabaseActorMore.update_comment tid _)) s1)
    as [[u |] s2]; reflexivity.
Qed.

Lemma update_comment_moderates_for_any_caller_witness :
  let bob := UserDict.mk 2 "bob@example.com" false in
  let r := run2 MemDbMore.world (update_comment 7 (Some 0) bob) demo in
  r = run2 MemDbMore.world (update_comment 7 (Some 0) alice) demo
  /\ writes2 (log2 r)
     = [Event2 (DbMore (DatabaseActorMore.update_comment 7
                          [("moderation_status", VInt 0)]))].
Proof.
  exact (update_comment_moderates_for_any_caller MemDbMore.world demo demo 7 (Some 0)
           (UserDict.mk 2 "bob@example.com" false) alice
           (Some (Comment.mk 7 "More trees" 1 1 0 None)) eq_refl).
Defined.

(** ** Creating a conversation *)

(** X27.  POST /conversations reads six fields of its request.  Two requests
    that agree on topic, description, is_active, is_anon, is_draft and
    is_data_open run alike, whatever their nine other fields say.  The run
    makes two writes, create_conversation and then create_zinvite for the id
    of the row created, and answers with the code of that invite as
    conversation_id.  The row is handed over with the caller as owner, the
    description as given, is_archived the negation of is_active, the three
    flags is_draft, is_anon and is_data_open as its settings, and as title
    the topic when a non-empty one is given, "Untitled Conversation"
    otherwise. *)
Theorem create_conversation_reads_six_fields :
  forall (w : World2) (s : St2 w) (request request' : ConversationCreateRequest.t)
         (user : UserDict.t),
    ConversationCreateRequest.topic request = ConversationCreateRequest.topic request' ->
    ConversationCreateRequest.description request
    = ConversationCreateRequest.description request' ->
    ConversationCreateRequest.is_active request
    = ConversationCreateRequest.is_active request' ->
    ConversationCreateRequest.is_anon request
    = ConversationCreateRequest.is_anon request' ->
    ConversationCreateRequest.is_draft request
    = ConversationCreateRequest.is_draft request' ->
    ConversationCreateRequest.is_data_open request
    = ConversationCreateRequest.is_data_open request' ->
    let r := run2 w (create_conversation request user) s in
    r = run2 w (create_conversation request' user) s
    /\ exists (data : dict) (title : string),
         let created := answer2 w (DbMore (DatabaseActorMore.create_conversation data)) s in
         let invited :=
           answer2 w (Base (Db (DatabaseActor.create_zinvite
                                  [("zid", VInt (Conversation.id (fst created)))])))
                   (snd created) in
         writes2 (log2 r)
         = [Event2 (DbMore (DatabaseActorMore.create_conversation data));
            Event2 (Base (Db (DatabaseActor.create_zinvite
              [("zid", VInt (Conversation.id (fst created)))])))]
         /\ (exists payload : value,
               outcome2 r = inr payload
               /\ value_field payload "conversation_id"
                  = VStr (Zinvite.zinvite (fst invited))
               /\ value_field payload "topic"
                  = VStr (Conversation.title (fst created))
               /\ value_field payload "owner"
                  = VInt (Conversation.user_id (fst created)))
         /\ data = [("title", VStr title);
                    ("description",
                     opt_str (ConversationCreateRequest.description request));
                    ("user_id", VInt (UserDict.uid user));
                    ("is_archived",
                     VBool (negb (ConversationCreateRequest.is_active request)));
                    ("settings", VDict [
                       ("is_draft",
                        VBool (ConversationCreateRequest.is_draft request));
                       ("is_anon",
                        VBool (ConversationCreateRequest.is_anon request));
                       ("is_data_open",
                        VBool (ConversationCreateRequest.is_data_open request))])]
         /\ (forall topic, ConversationCreateRequest.topic request = Some topic ->
                           topic <> "" -> title = topic)
         /\ (ConversationCreateRequest.topic request = None
             \/ ConversationCreateRequest.topic request = Some "" ->
             title = "Untitled Conversation").
Proof.
  intros w s request request' user Ht Hd Ha Han Hdr Hdo r. subst r.
  destruct request as [topic description is_active is_anon is_draft is_data_open
                       a1 a2 a3 a4 a5 a6 a7 a8 a9].
  destruct request' as [topic' description' is_active' is_anon' is_draft' is_data_open'
                        b1 b2 b3 b4 b5 b6 b7 b8 b9].
  simpl in Ht, Hd, Ha, Han, Hdr, Hdo. subst topic' description' is_active' is_anon'
    is_draft' is_data_open'.
  split; [reflexivity |].
  unfold create_conversation. cbn -[String.eqb dict_get value_field].
  match goal with
  | |- context [answer2 w (DbMore (DatabaseActorMore.create_conversation ?d)) s] =>
      set (data := d)
  end.
  exists data.
  exists (match topic with
          | Some t => if Py.truthy_str t then t else "Untitled Conversation"
          | None => "Untitled Conversation"
          end).
  cbv zeta.
  destruct (answer2 w (DbMore (DatabaseActorMore.create_conversation data)) s)
    as [conv s1].
  cbn -[String.eqb dict_get value_field].
  destruct (answer2 w (Base (Db (DatabaseActor.create_zinvite
                                   [("zid", VInt (Conversation.id conv))]))) s1)
    as [z s2].
  cbn -[String.eqb dict_get value_field].
  split; [reflexivity |]. split.
  { eexists. split; [reflexivity |]. repeat split. }
  split; [reflexivity |]. split.
  - intros t Heq Hne. cbn in Heq. subst topic.
    destruct t; [contradiction | reflexivity].
  - intros [Heq | Heq]; cbn in Heq; subst topic; reflexivity.
Qed.

Lemma create_conversation_reads_six_fields_witness :
  let request := ConversationCreateRequest.mk (Some "") None true false false false
                   false true true false 0 0 0 None None in
  let request' := ConversationCreateRequest.mk (Some "") None true false false false
                    true false false true 3 2 1 (Some "#fff") (Some "#000") in
  let r := run2 MemDbMore.world (create_conversation request alice) demo in
  r = run2 MemDbMore.world (create_conversation request' alice) demo
  /\ exists (data : dict) (title : string),
       let created :=
         answer2 MemDbMore.world (DbMore (DatabaseActorMore.create_conversation data))
                 demo in
       let invited :=
         answer2 MemDbMore.world
                 (Base (Db (DatabaseActor.create_zinvite
                              [("zid", VInt (Conversation.id (fst created)))])))
                 (snd created) in
       writes2 (log2 r)
       = [Event2 (DbMore (DatabaseActorMore.create_conversation data));
          Event2 (Base (Db (DatabaseActor.create_zinvite
            [("zid", VInt (Conversation.id (fst created)))])))]
       /\ (exists payload : value,
             outcome2 r = inr payload
             /\ value_field payload "conversation_id"
                = VStr (Zinvite.zinvite (fst invited))
             /\ value_field payload "topic"
                = VStr (Conversation.title (fst created))
             /\ value_field payload "owner"
                = VInt (Conversation.user_id (fst created)))
       /\ data = [("title", VStr title);
                  ("description", VNone);
                  ("user_id", VInt 1);
                  ("is_archived", VBool false);
                  ("settings", VDict [("is_draft", VBool false);
                                      ("is_anon", VBool false);
                                      ("is_data_open", VBool false)])]
       /\ (forall topic, Some "" = Some topic -> topic <> "" -> title = topic)
       /\ (Some "" = None \/ Some "" = Some "" -> title = "Untitled Conversation").
Proof.
  exact (create_conversation_reads_six_fields MemDbMore.world demo
           (ConversationCreateRequest.mk (Some "") None true false false false
              false true true false 0 0 0 None None)
           (ConversationCreateRequest.mk (Some "") None true false false false
              true false false true 3 2 1 (Some "#fff") (Some "#000"))
           alice eq_refl eq_refl eq_refl eq_refl eq_refl eq_refl).
Defined.

(** ** Round trips on the in-memory actor *)

Lemma find_filter_other {A : Type} (f keep : A -> bool) (l : list A) :
  (forall x, f x = true -> keep x = true) ->
  find f (filter keep l) = find f l.
Proof.
  intros Hkeep. induction l as [| x l IH]; simpl; [reflexivity |].
  destruct (keep x) eqn:K; simpl.
  - destruct (f x); [reflexivity | exact IH].
  - destruct (f x) eqn:F; [| exact IH].
    rewrite (Hkeep x F) in K. discriminate K.
Qed.

Lemma find_filter_none {A : Type} (f keep : A -> bool) (l : list A) :
  (forall x, f x = true -> keep x = false) ->
  find f (filter keep l) = None.
Proof.
  intros Hdrop. induction l as [| x l IH]; simpl; [reflexivity |].
  destruct (keep x) eqn:K; simpl; [| exact IH].
  destruct (f x) eqn:F; [| exact IH].
  rewrite (Hdrop x F) in K. discriminate K.
Qed.

(** The state POST /auth/password leaves when it accepts the request. *)
Lemma change_password_final (sha : string -> string) (s : MemDb.t)
    (request : PasswordChangeRequest.t) (user : UserDict.t) (row : User.t) :
  MemDb.read_user s (UserDict.uid user) = Some row ->
  User.auth_token row = sha (PasswordChangeRequest.current_password request) ->
  final2 (run2 MemDbMore.world (change_password sha request user) s)
  = snd (MemDbMore.update_user s (UserDict.uid user)
           [("auth_token", VStr (sha (PasswordChangeRequest.new_password request)))]).
Proof.
  intros Hrow Hhash. destruct request as [current new]. simpl in Hhash.
  unfold change_password. cbn -[MemDb.read_user MemDbMore.update_user String.eqb].
  rewrite Hrow. cbn -[MemDb.read_user MemDbMore.update_user String.eqb].
  rewrite Hhash, String.eqb_refl. reflexivity.
Qed.

(** X28.  Change the password, then log in (in-memory actor).  Once
    POST /auth/password has accepted the current password of a user,
    POST /auth/login with that user's email and the new password succeeds
    with the same user id, and every password whose hash differs from the
    new one's, the old password included, is refused with 401. *)
Theorem change_password_then_login :
  forall (sha256_hexdigest : string -> string) (jwt_secret : string) (s : MemDb.t)
         (user : UserDict.t) (current new email : string) (row by_email : User.t),
    MemDb.read_user s (UserDict.uid user) = Some row ->
    User.auth_token row = sha256_hexdigest current ->
    MemDb.read_user_by_email s email = Some by_email ->
    User.id by_email = UserDict.uid user ->
    Py.truthy_str email = true ->
    Py.truthy_str new = true ->
    let changed := final2 (run2 MemDbMore.world
                             (change_password sha256_hexdigest
                                (PasswordChangeRequest.mk current new) user) s) in
    (exists token : string,
        outcome (run MemDb.world
                     (login sha256_hexdigest jwt_secret
                        (AuthLoginRequest.mk email new)) changed)
        = inr (auth_body token by_email))
    /\ forall password : string,
         Py.truthy_str password = true ->
         sha256_hexdigest password <> sha256_hexdigest new ->
         outcome (run MemDb.world
                      (login sha256_hexdigest jwt_secret
                         (AuthLoginRequest.mk email password)) changed)
         = inl (HTTPException 401 "Invalid credentials").
Proof.
  intros sha jwt s user current new email row by_email Hrow Hhash Hmail Hid He Hn
         changed.
  assert (Hchanged : changed
                     = snd (MemDbMore.update_user s (UserDict.uid user)
                              [("auth_token", VStr (sha new))]))
    by (exact (change_password_final sha s (PasswordChangeRequest.mk current new)
                 user row Hrow Hhash)).
  clearbody changed. subst changed.
  set (patched := MemDbMore.patch_user [("auth_token", VStr (sha new))] by_email).
  assert (Hfound : fst (answer MemDb.world (Db (DatabaseActor.read_user_by_email email))
                          (snd (MemDbMore.update_user s (UserDict.uid user)
                                  [("auth_token", VStr (sha new))])))
                   = Some patched).
  { cbn [answer MemDb.world MemDb.answer MemDb.call fst snd MemDbMore.update_user].
    unfold MemDb.read_user_by_email in *. cbn [MemDb.users MemDb.with_users].
    rewrite find_map_same.
    - rewrite Hmail. cbn [option_map]. rewrite Hid, Z.eqb_refl. reflexivity.
    - intros u. destruct (User.id u =? UserDict.uid user); reflexivity. }
  split.
  - destruct (login_accepted sha jwt MemDb.world _ (AuthLoginRequest.mk email new)
                patched He Hn Hfound eq_refl) as (token & Hout & _).
    exists token. exact Hout.
  - intros password Hp Hdiff.
    refine (proj1 (login_refused sha jwt MemDb.world _
                     (AuthLoginRequest.mk email password) He Hp _)).
    cbn [AuthLoginRequest.email AuthLoginRequest.password].
    rewrite Hfound. intros Heq. apply Hdiff. symmetry. exact Heq.
Qed.

Lemma change_password_then_login_witness :
  let sha := fun p : string => if String.eqb p "parks!" then "5e88" else "a1b2" in
  let changed := final2 (run2 MemDbMore.world
                           (change_password sha
                              (PasswordChangeRequest.mk "parks!" "trees!") alice) demo) in
  (exists token : string,
      outcome (run MemDb.world
                   (login sha "secret"
                      (AuthLoginRequest.mk "alice@example.com" "trees!")) changed)
      = inr (auth_body token (User.mk 1 "alice@example.com" "5e88" false None)))
  /\ forall password : string,
       Py.truthy_str password = true ->
       sha password <> sha "trees!" ->
       outcome (run MemDb.world
                    (login sha "secret"
                       (AuthLoginRequest.mk "alice@example.com" password)) changed)
       = inl (HTTPException 401 "Invalid credentials").
Proof.
  exact (change_password_then_login
           (fun p : string => if String.eqb p "parks!" then "5e88" else "a1b2")
           "secret" demo alice "parks!" "trees!" "alice@example.com"
           (User.mk 1 "alice@example.com" "5e88" false None)
           (User.mk 1 "alice@example.com" "5e88" false None)
           eq_refl eq_refl eq_refl eq_refl eq_refl eq_refl).
Defined.

(** The state POST /auth/deregister leaves when it deletes the account. *)
Lemma deregister_final (sha : string -> string) (s : MemDb.t) (user : UserDict.t)
    (password : string) (row : User.t) :
  MemDb.read_user s (UserDict.uid user) = Some row ->
  User.auth_token row = sha password ->
  Py.truthy_str password = true ->
  MemDb.users (final2 (run2 MemDbMore.world
                         (deregister sha user
                            (Some (AuthDeregisterRequest.mk password))) s))
  = filter (fun u => negb (User.id u =? UserDict.uid user)) (MemDb.users s).
Proof.
  intros Hrow Hhash Hp.
  unfold deregister. cbn [AuthDeregisterRequest.password]. rewrite Hp.
  cbn -[MemDb.read_user MemDbMore.delete_user String.eqb filter].
  rewrite Hrow. cbn -[MemDb.read_user MemDbMore.delete_user String.eqb filter].
  rewrite Hhash, String.eqb_refl. reflexivity.
Qed.

Lemma email_of_found (email : string) (l : list User.t) (u : User.t) :
  find (fun u => String.eqb (User.email u) email) l = Some u ->
  In u l /\ User.email u = email.
Proof.
  intros H. apply find_some in H. destruct H as [Hin Heq].
  split; [exact Hin | apply String.eqb_eq; exact Heq].
Qed.

Lemma same_email_same_row (l : list User.t) (u v : User.t) :
  NoDup (map User.email l) -> In u l -> In v l ->
  User.email u = User.email v -> u = v.
Proof.
  induction l as [| x l IH]; intros Hnd Hu Hv Heq; [destruct Hu |].
  simpl in Hnd. inversion Hnd as [| e es Hnotin Hnd']; subst.
  destruct Hu as [-> | Hu], Hv as [-> | Hv].
  - reflexivity.
  - exfalso. apply Hnotin. rewrite Heq. apply in_map. exact Hv.
  - exfalso. apply Hnotin. rewrite <- Heq. apply in_map. exact Hu.
  - exact (IH Hnd' Hu Hv Heq).
Qed.

(** X29.  A deleted account is gone (in-memory actor, no two rows sharing an
    email).  After POST /auth/deregister with the right password the
    caller's row cannot be read any more and every row of another id is
    kept; POST /auth/login with the deleted email is refused with 401
    whatever the password; and a request that still carries a token and the
    uid2 cookie of the deleted account is resolved by [get_current_user] to
    user 1, when that is another user who exists. *)
Theorem deregistered_account_is_gone :
  forall (sha256_hexdigest : string -> string) (jwt_secret : string) (s : MemDb.t)
         (user : UserDict.t) (password : string) (row : User.t),
    MemDb.read_user s (UserDict.uid user) = Some row ->
    User.auth_token row = sha256_hexdigest password ->
    Py.truthy_str password = true ->
    Py.truthy_str (User.email row) = true ->
    emails_unique s ->
    let gone := final2 (run2 MemDbMore.world
                          (deregister sha256_hexdigest user
                             (Some (AuthDeregisterRequest.mk password))) s) in
    MemDb.read_user gone (UserDict.uid user) = None
    /\ (forall uid, uid <> UserDict.uid user ->
                    MemDb.read_user gone uid = MemDb.read_user s uid)
    /\ (forall p : string,
          Py.truthy_str p = true ->
          outcome (run MemDb.world
                       (login sha256_hexdigest jwt_secret
                          (AuthLoginRequest.mk (User.email row) p)) gone)
          = inl (HTTPException 401 "Invalid credentials"))
    /\ (forall (token : string) (first : User.t),
          Py.truthy_str token = true ->
          UserDict.uid user <> 1 ->
          MemDb.read_user s 1 = Some first ->
          outcome (run MemDb.world
                       (get_current_user None (Some token)
                          (Some (Py.str (UserDict.uid user)))) gone)
          = inr (Some (user_dict first))).
Proof.
  intros sha jwt s user password row Hrow Hhash Hp He Huniq gone.
  pose proof (deregister_final sha s user password row Hrow Hhash Hp) as Husers.
  fold gone in Husers. clearbody gone.
  assert (Hgone : MemDb.read_user gone (UserDict.uid user) = None).
  { unfold MemDb.read_user. rewrite Husers. apply find_filter_none.
    intros u Hu. rewrite Hu. reflexivity. }
  assert (Hkept : forall uid, uid <> UserDict.uid user ->
                              MemDb.read_user gone uid = MemDb.read_user s uid).
  { intros uid Hne. unfold MemDb.read_user. rewrite Husers. apply find_filter_other.
    intros u Hu. apply Z.eqb_eq in Hu. rewrite Hu.
    destruct (Z.eqb_spec uid (UserDict.uid user)); [contradiction | reflexivity]. }
  split; [exact Hgone |]. split; [exact Hkept |]. split.
  - intros p Hp'.
    refine (proj1 (login_refused sha jwt MemDb.world gone
                     (AuthLoginRequest.mk (User.email row) p) He Hp' _)).
    cbn [AuthLoginRequest.email AuthLoginRequest.password
         answer MemDb.world MemDb.answer MemDb.call fst].
    destruct (MemDb.read_user_by_email gone (User.email row)) as [u |] eqn:Hu;
      [| exact I].
    exfalso. unfold MemDb.read_user_by_email in Hu. rewrite Husers in Hu.
    apply email_of_found in Hu. destruct Hu as [Hin Hmail].
    apply filter_In in Hin. destruct Hin as [Hin Hid].
    unfold MemDb.read_user in Hrow. apply find_some in Hrow.
    destruct Hrow as [Hrow_in Hrow_id].
    assert (u = row)
      by (exact (same_email_same_row _ u row Huniq Hin Hrow_in Hmail)).
    subst u. rewrite Hrow_id in Hid. discriminate Hid.
  - intros token first Htok Hne Hfirst.
    unfold get_current_user. rewrite cookie_uid_of_str.
    unfold request_token. cbn [Py.truthy_opt_str]. rewrite Htok.
    cbn [Py.truthy_opt_str]. rewrite Htok. cbn [negb].
    rewrite <- (Hkept 1) in Hfirst by (intros E; apply Hne; symmetry; exact E).
    cbn [Py.truthy_opt_int].
    destruct (UserDict.uid user =? 0); cbn -[MemDb.read_user];
      [| rewrite Hgone; cbn -[MemDb.read_user]]; rewrite Hfirst; reflexivity.
Qed.

Lemma deregistered_account_is_gone_witness :
  let sha := fun p : string => if String.eqb p "parks!" then "5e88" else "a1b2" in
  let bob := User.mk 2 "bob@example.com" "5e88" false None in
  let s := MemDb.with_users demo (MemDb.users demo ++ [bob])%list in
  let gone := final2 (run2 MemDbMore.world
                        (deregister sha (user_dict bob)
                           (Some (AuthDeregisterRequest.mk "parks!"))) s) in
  MemDb.read_user gone 2 = None
  /\ (forall uid, uid <> 2 -> MemDb.read_user gone uid = MemDb.read_user s uid)
  /\ (forall p : string,
        Py.truthy_str p = true ->
        outcome (run MemDb.world
                     (login sha "secret"
                        (AuthLoginRequest.mk "bob@example.com" p)) gone)
        = inl (HTTPException 401 "Invalid credentials"))
  /\ (forall (token : string) (first : User.t),
        Py.truthy_str token = true ->
        2 <> 1 ->
        MemDb.read_user s 1 = Some first ->
        outcome (run MemDb.world
                     (get_current_user None (Some token) (Some (Py.str 2))) gone)
        = inr (Some (user_dict first))).
Proof.
  refine (deregistered_account_is_gone
            (fun p : string => if String.eqb p "parks!" then "5e88" else "a1b2")
            "secret"
            (MemDb.with_users demo
               (MemDb.users demo ++ [User.mk 2 "bob@example.com" "5e88" false None])%list)
            (user_dict (User.mk 2 "bob@example.com" "5e88" false None))
            "parks!" (User.mk 2 "bob@example.com" "5e88" false None)
            eq_refl eq_refl eq_refl eq_refl _).
  unfold emails_unique. simpl.
  constructor; [intros [H | []]; discriminate H |].
  constructor; [intros [] | constructor].
Defined.

(** The state PUT /comments leaves when it is given a [mod]. *)
Lemma update_comment_final (s : MemDb.t) (tid m : Z) (user : UserDict.t) :
  final2 (run2 MemDbMore.world (update_comment tid (Some m) user) s)
  = match MemDbMore.read_comment s tid with
    | Some _ => snd (MemDbMore.update_comment s tid [("moderation_status", VInt m)])
    | None => s
    end.
Proof.
  unfold update_comment. cbn -[MemDbMore.read_comment MemDbMore.update_comment].
  destruct (MemDbMore.read_comment s tid) as [c |];
    cbn -[MemDbMore.update_comment]; [| reflexivity].
  destruct (MemDbMore.update_comment s tid [("moderation_status", VInt m)])
    as [[u |] s1]; reflexivity.
Qed.

(** X30.  A comment moderated out is not offered any more (in-memory
    actor).  After PUT /comments has given comment tid a negative [mod],
    GET /nextComment for a known conversation never answers with that
    comment, whoever asks. *)
Theorem moderated_out_comment_is_not_offered :
  forall (s : MemDb.t) (conversation_id : string) (tid m : Z)
         (moderator user : UserDict.t) (zid : Z),
    m < 0 ->
    MemDb.get_zid_by_zinvite s conversation_id = Some zid ->
    zid <> 0 ->
    let moderated := final2 (run2 MemDbMore.world
                               (update_comment tid (Some m) moderator) s) in
    exists r, outcome (run MemDb.world (get_next_comment conversation_id user)
                           moderated) = inr r
              /\ offered_tid r <> VInt tid.
Proof.
  intros s cid tid m moderator user zid Hm Hz Hnz moderated.
  pose proof (update_comment_final s tid m moderator) as Hfinal.
  fold moderated in Hfinal. clearbody moderated.
  assert (Hz1 : MemDb.get_zid_by_zinvite moderated cid = Some zid).
  { rewrite Hfinal. destruct (MemDbMore.read_comment s tid); exact Hz. }
  assert (Hout_of : forall c, In c (MemDb.comments moderated) -> Comment.id c = tid ->
                              Comment.moderation_status c < 0).
  { intros c Hin Hid. rewrite Hfinal in Hin.
    destruct (MemDbMore.read_comment s tid) as [c0 |] eqn:Hread.
    - cbn [snd MemDbMore.update_comment MemDb.comments MemDb.with_comments] in Hin.
      apply in_map_iff in Hin. destruct Hin as (c1 & Heq & _).
      destruct (Z.eqb_spec (Comment.id c1) tid) as [E | E].
      + subst c. exact Hm.
      + subst c. contradiction.
    - unfold MemDbMore.read_comment in Hread.
      pose proof (find_none _ _ Hread c Hin) as Hno. cbv beta in Hno.
      rewrite Hid, Z.eqb_refl in Hno. discriminate Hno. }
  destruct (get_next_comment_run moderated cid user zid Hz1 Hnz) as (Hout & _).
  cbv zeta in Hout. eexists. split; [exact Hout |].
  destruct (find (eligible moderated (UserDict.uid user))
                 (MemDb.comments_of moderated zid)) as [c |] eqn:E.
  - apply find_some in E. destruct E as [Hin Hel].
    unfold offered_tid, payload_field. simpl. intros Heq. injection Heq as Heq.
    unfold MemDb.comments_of in Hin. apply filter_In in Hin. destruct Hin as [Hin _].
    pose proof (Hout_of c Hin Heq) as Hneg.
    unfold eligible in Hel. apply andb_prop in Hel. destruct Hel as [_ Hel].
    apply Z.leb_le in Hel. lia.
  - discriminate.
Qed.

Lemma moderated_out_comment_is_not_offered_witness :
  let bob := UserDict.mk 2 "bob@example.com" false in
  let moderated := final2 (run2 MemDbMore.world (update_comment 7 (Some (-1)) bob) demo) in
  exists r, outcome (run MemDb.world (get_next_comment "abc" alice) moderated) = inr r
            /\ offered_tid r <> VInt 7.
Proof.
  apply (moderated_out_comment_is_not_offered demo "abc" 7 (-1)
           (UserDict.mk 2 "bob@example.com" false) alice 1);
    [lia | reflexivity | lia].
Defined.
